(** * Scoring and admission evaluation for the UFRGS entrance exam

    A shallow embedding of the scoring scripts of [vestibular-ufrgs-llm]:

    - [calcular_ac_ufrgs.py]                (module [AcUfrgs])
    - [calcular_media_harmonica_cursos.py]  (module [MediaHarmonicaCursos])
    - [verificar_aprovacao.py]              (module [VerificarAprovacao])

    Modelling conventions.

    - A Python [dict] is an association list in insertion order ([dict V]);
      [d.get(k)], [d.get(k, dflt)], [d[k]] and [d[k] = v] are [get],
      [get_default], [index] and [set].  Iterating [d.items()] is iterating
      the list.
    - Python numbers ([int] and [float] read from JSON) are exact rationals
      ([Q]); [/] is true division.  This is the exact-arithmetic reading of
      the code: it decides every statement about which branch is taken,
      which terms are summed and which value is stored.  The values that
      the interpreter computes are binary64 numbers; module [Binary64] holds
      the functions whose result is a rounded quotient, and the properties
      that hold in exact arithmetic only say so.  Question numbers and hit
      counts are integers ([Z]).
    - A raised exception is the [Raise] branch of [res]. *)

From Stdlib Require Import List String Ascii ZArith QArith Lia Bool.
From Stdlib Require Import Qfield Qabs Lqa Permutation PrimFloat.
Import ListNotations.

(** ** Python dictionaries *)

Module PyDict.

Definition dict (V : Type) : Type := list (string * V).

Section Ops.
Context {V : Type}.

(** [d.get(k)]: [None] when the key is missing. *)
Fixpoint get (d : dict V) (k : string) : option V :=
  match d with
  | [] => None
  | (k', v) :: d' => if String.eqb k' k then Some v else get d' k
  end.

(** [d.get(k, dflt)]. *)
Definition get_default (d : dict V) (k : string) (dflt : V) : V :=
  match get d k with
  | Some v => v
  | None => dflt
  end.

(** [d[k] = v]: overwrite in place, or append a new key. *)
Fixpoint set (d : dict V) (k : string) (v : V) : dict V :=
  match d with
  | [] => [(k, v)]
  | (k', v') :: d' =>
      if String.eqb k' k then (k', v) :: d' else (k', v') :: set d' k v
  end.

(** [k in d]. *)
Definition mem (d : dict V) (k : string) : bool :=
  match get d k with
  | Some _ => true
  | None => false
  end.

Definition keys (d : dict V) : list string := map fst d.

End Ops.

End PyDict.

Import PyDict.

(** ** Exceptions *)

Inductive exn : Type :=
| KeyError (key : string).

Inductive res (A : Type) : Type :=
| Ok (a : A)
| Raise (e : exn).

Arguments Ok {A} a.
Arguments Raise {A} e.

Definition bind {A B : Type} (m : res A) (f : A -> res B) : res B :=
  match m with
  | Ok a => f a
  | Raise e => Raise e
  end.

Notation "x <- m ;; k" := (bind m (fun x => k))
  (at level 61, m at next level, right associativity).

(** [d[k]]: raises [KeyError] when the key is missing. *)
Definition index {V : Type} (d : dict V) (k : string) : res V :=
  match get d k with
  | Some v => Ok v
  | None => Raise (KeyError k)
  end.

(** ** Numbers *)

(** [x > y] on Python numbers. *)
Definition Qgtb (x y : Q) : bool := negb (Qle_bool x y).

(** [range(a, b)]. *)
Definition py_range (a b : Z) : list Z :=
  map (fun i => (a + Z.of_nat i)%Z) (seq 0 (Z.to_nat (b - a))).

(** [q in l] for a list of integers. *)
Definition in_list (q : Z) (l : list Z) : bool := existsb (Z.eqb q) l.

(** ** Strings *)

(** [str.lower()] on the ASCII letters; every other byte is kept. *)
Definition lower_ascii (c : ascii) : ascii :=
  let n := nat_of_ascii c in
  if (65 <=? n)%nat && (n <=? 90)%nat then ascii_of_nat (n + 32) else c.

Fixpoint lower (s : string) : string :=
  match s with
  | EmptyString => EmptyString
  | String c s' => String (lower_ascii c) (lower s')
  end.

(** [s.replace(' ', '_')]. *)
Fixpoint replace_space (s : string) : string :=
  match s with
  | EmptyString => EmptyString
  | String c s' =>
      String (if Ascii.eqb c " " then "_"%char else c) (replace_space s')
  end.

(** [p in s]: [p] occurs in [s] as a contiguous substring. *)
Fixpoint str_in (p s : string) : bool :=
  if prefix p s then true
  else match s with
       | EmptyString => false
       | String _ s' => str_in p s'
       end.

(** ** Reference data *)

(** One row [{"acertos": n, "ep": x}] of a subject's score table. *)
Record EscoreItem : Type := mkEscoreItem {
  item_acertos : Z;
  item_ep : Q
}.

(** The statistics record of one subject; every key is optional, as the code
    reads each one with [.get]. *)
Record Stats : Type := mkStats {
  media : option Q;
  desvio_padrao : option Q;
  escores : option (list EscoreItem)
}.

(** The empty record [{}]. *)
Definition stats_vazio : Stats := mkStats None None None.

(** One entry of [distribuicao]; [questoes] is the range ["inicio-fim"] once
    split at the dash and read by [int]. *)
Record Distribuicao : Type := mkDistribuicao {
  materia : string;
  inicio : Z;
  fim : Z
}.

(** [info['provas_2024']['estrutura_prova']]. *)
Record EstruturaProva : Type := mkEstruturaProva {
  dia_1 : list Distribuicao;
  dia_2 : list Distribuicao
}.

(** One day of a candidate's answers; [iguais] after [int(q)] on each item. *)
Record Prova : Type := mkProva {
  iguais : option (list Z)
}.

Record ResultsLLM : Type := mkResultsLLM {
  PRIMEIRA_PROVA : option Prova;
  SEGUNDA_PROVA : option Prova
}.

(** [results_llm.get(prova, {}).get('iguais', [])]. *)
Definition iguais_de (p : option Prova) : list Z :=
  match p with
  | Some pr => match iguais pr with Some l => l | None => [] end
  | None => []
  end.

(** ** Code shared verbatim by the two scoring scripts *)

Open Scope string_scope.
Open Scope list_scope.

(** The initial [mapeamento] literal of [mapear_questoes_por_materia]. *)
Definition mapeamento_inicial : dict (list Z) :=
  [ ("portugues", []); ("literatura", []); ("matematica", []);
    ("geografia", []); ("historia", []); ("fisica", []); ("quimica", []);
    ("biologia", []); ("lingua_estrangeira", []) ].

(** [mapeamento[chave].extend(questoes)]. *)
Definition extend (m : dict (list Z)) (chave : string) (questoes : list Z)
  : res (dict (list Z)) :=
  l <- index m chave ;;
  Ok (set m chave (l ++ questoes)).

(** The key a day-1 entry is filed under. *)
Definition chave_dia1 (item : Distribuicao) : string :=
  let materia := replace_space (lower (materia item)) in
  if String.eqb materia "lingua_portuguesa" then "portugues" else materia.

(** The key a day-2 entry is filed under. *)
Definition chave_dia2 (item : Distribuicao) : string :=
  let materia := lower (materia item) in
  if String.eqb materia "ingles" || String.eqb materia "espanhol"
  then "lingua_estrangeira" else materia.

(** One of the two [for item in estrutura_dia...] loops. *)
Fixpoint mapear_dia (chave : Distribuicao -> string)
  (itens : list Distribuicao) (m : dict (list Z)) : res (dict (list Z)) :=
  match itens with
  | [] => Ok m
  | item :: resto =>
      let questoes := py_range (inicio item) (fim item + 1) in
      m' <- extend m (chave item) questoes ;;
      mapear_dia chave resto m'
  end.

(** [mapear_questoes_por_materia]; the function has the same text in
    [calcular_ac_ufrgs.py] and in [calcular_media_harmonica_cursos.py]. *)
Definition mapear_questoes_por_materia (info : EstruturaProva)
  : res (dict (list Z)) :=
  m1 <- mapear_dia chave_dia1 (dia_1 info) mapeamento_inicial ;;
  mapear_dia chave_dia2 (dia_2 info) m1.

(** ** [calcular_ac_ufrgs.py] *)

Module AcUfrgs.

Open Scope Q_scope.

(** [calcular_escore_padronizado]: EP = ((EB - MD) / DP) * 100 + 500. *)
Definition calcular_escore_padronizado (escore_bruto media desvio_padrao : Q)
  : Q :=
  if Qeq_bool desvio_padrao 0 then 500.0
  else ((escore_bruto - media) / desvio_padrao) * 100 + 500.

(** The day test of [contar_acertos_por_materia]:
    [any(1 <= num <= 60 for num in questoes if num == q)]. *)
Definition dia_1_p (questoes : list Z) (q : Z) : bool :=
  existsb (fun num => (1 <=? num)%Z && (num <=? 60)%Z)
          (filter (fun num => (num =? q)%Z) questoes).

(** The inner loop [for q in questoes] for one subject, from the initial
    tally [0]. *)
Definition contar_questoes (iguais_p1 iguais_p2 questoes : list Z) : Z :=
  fold_left
    (fun acertos q =>
       if dia_1_p questoes q
       then (if in_list q iguais_p1 then acertos + 1 else acertos)%Z
       else (if in_list q iguais_p2 then acertos + 1 else acertos)%Z)
    questoes 0%Z.

(** [contar_acertos_por_materia]: the result has the keys of
    [mapeamento_questoes], in its order. *)
Definition contar_acertos_por_materia (results_llm : ResultsLLM)
  (mapeamento_questoes : dict (list Z)) : dict Z :=
  let iguais_p1 := iguais_de (PRIMEIRA_PROVA results_llm) in
  let iguais_p2 := iguais_de (SEGUNDA_PROVA results_llm) in
  map (fun '(materia, questoes) =>
         (materia, contar_questoes iguais_p1 iguais_p2 questoes))
      mapeamento_questoes.

(** [calcular_total_questoes_por_materia]. *)
Definition calcular_total_questoes_por_materia
  (mapeamento_questoes : dict (list Z)) : dict Z :=
  map (fun '(materia, questoes) => (materia, Z.of_nat (List.length questoes)))
      mapeamento_questoes.

(** First loop of [calcular_ac_para_curso]: the standardized score of each
    subject that has questions. *)
Fixpoint padronizar (itens : list (string * Z))
  (total_questoes_por_materia : dict Z) (estatisticas : dict Stats)
  (escores_padronizados : dict Q) : res (dict Q) :=
  match itens with
  | [] => Ok escores_padronizados
  | (materia, acertos) :: resto =>
      total <- index total_questoes_por_materia materia ;;
      if (total =? 0)%Z
      then padronizar resto total_questoes_por_materia estatisticas
             escores_padronizados
      else
        let escore_bruto := inject_Z acertos in
        let materia_stat :=
          if String.eqb materia "lingua_estrangeira" then "ingles"
          else materia in
        let stats := get_default estatisticas materia_stat stats_vazio in
        let media := match media stats with Some x => x | None => 0 end in
        let desvio :=
          match desvio_padrao stats with Some x => x | None => 1 end in
        let ep := calcular_escore_padronizado escore_bruto media desvio in
        padronizar resto total_questoes_por_materia estatisticas
          (set escores_padronizados materia ep)
  end.

(** The essay score joins the Portuguese score. *)
Definition combinar_redacao (escores_padronizados : dict Q) (ep_redacao : Q)
  : dict Q :=
  match get escores_padronizados "portugues" with
  | Some ep_portugues =>
      set escores_padronizados "portugues_redacao"
          ((ep_portugues + ep_redacao) / 2)
  | None => set escores_padronizados "portugues_redacao" ep_redacao
  end.

(** The loop [for materia_peso, peso in pesos_curso.items()], threading
    [(soma_pesos, soma_inversos)]. *)
Fixpoint somar (escores_padronizados : dict Q) (itens : list (string * Q))
  (soma_pesos soma_inversos : Q) : Q * Q :=
  match itens with
  | [] => (soma_pesos, soma_inversos)
  | (materia_peso, peso) :: resto =>
      if String.eqb materia_peso "total"
      then somar escores_padronizados resto soma_pesos soma_inversos
      else
        let ep := get_default escores_padronizados materia_peso 500 in
        if Qgtb ep 0
        then somar escores_padronizados resto
               (soma_pesos + peso) (soma_inversos + peso / ep)
        else somar escores_padronizados resto soma_pesos soma_inversos
  end.

(** The aggregation part of [calcular_ac_para_curso] (from
    [soma_pesos = 0] to the value of [ac]), in exact arithmetic; the
    rounded value is [Binary64.calcular_ac]. *)
Definition calcular_ac (escores_padronizados : dict Q) (pesos_curso : dict Q)
  : Q :=
  let '(soma_pesos, soma_inversos) :=
    somar escores_padronizados pesos_curso 0 0 in
  if Qgtb soma_inversos 0 then soma_pesos / soma_inversos else 0.

(** [calcular_ac_para_curso]. *)
Definition calcular_ac_para_curso (acertos_por_materia : dict Z)
  (total_questoes_por_materia : dict Z) (estatisticas : dict Stats)
  (pesos_curso : dict Q) (nota_redacao : Q) : res (Q * dict Q) :=
  escores <- padronizar acertos_por_materia total_questoes_por_materia
               estatisticas [] ;;
  let ep_redacao := calcular_escore_padronizado nota_redacao 6.0 2.0 in
  let escores_padronizados := combinar_redacao escores ep_redacao in
  Ok (calcular_ac escores_padronizados pesos_curso, escores_padronizados).

End AcUfrgs.

(** ** [calcular_media_harmonica_cursos.py] *)

Module MediaHarmonicaCursos.

Open Scope Q_scope.

(** The inner loop [for q in questoes] for one subject; day 1 is [q <= 60]. *)
Definition contar_questoes (iguais_p1 iguais_p2 questoes : list Z) : Z :=
  fold_left
    (fun acertos q =>
       if (q <=? 60)%Z
       then (if in_list q iguais_p1 then acertos + 1 else acertos)%Z
       else (if in_list q iguais_p2 then acertos + 1 else acertos)%Z)
    questoes 0%Z.

(** [contar_acertos_por_materia]. *)
Definition contar_acertos_por_materia (results_llm : ResultsLLM)
  (mapeamento_questoes : dict (list Z)) : dict Z :=
  let iguais_p1 := iguais_de (PRIMEIRA_PROVA results_llm) in
  let iguais_p2 := iguais_de (SEGUNDA_PROVA results_llm) in
  map (fun '(materia, questoes) =>
         (materia, contar_questoes iguais_p1 iguais_p2 questoes))
      mapeamento_questoes.

(** The loop [for item in escores]: the [ep] of the first row whose
    [acertos] is the count. *)
Fixpoint buscar_ep (tabela : list EscoreItem) (acertos : Z) : option Q :=
  match tabela with
  | [] => None
  | item :: resto =>
      if (item_acertos item =? acertos)%Z then Some (item_ep item)
      else buscar_ep resto acertos
  end.

(** [obter_ep_por_acertos]. *)
Definition obter_ep_por_acertos (estatisticas : dict Stats)
  (materia : string) (acertos : Z) : Q :=
  let materia_lookup :=
    if String.eqb materia "lingua_estrangeira" then "ingles" else materia in
  let materia_stats := get_default estatisticas materia_lookup stats_vazio in
  let tabela :=
    match escores materia_stats with Some l => l | None => [] end in
  match buscar_ep tabela acertos with
  | Some ep => ep
  | None =>
      let media :=
        match media materia_stats with Some x => x | None => 0 end in
      let desvio :=
        match desvio_padrao materia_stats with Some x => x | None => 1 end in
      if Qgtb desvio 0
      then ((inject_Z acertos - media) / desvio) * 100 + 500
      else 500.0
  end.

(** [calcular_ep_redacao], in exact arithmetic; the rounded value is
    [Binary64.calcular_ep_redacao]. *)
Definition calcular_ep_redacao (nota_redacao : Q) : Q :=
  let media_redacao := 6.0 in
  let dp_redacao := 2.0 in
  ((nota_redacao - media_redacao) / dp_redacao) * 100 + 500.

(** [calcular_eps_por_materia]. *)
Definition calcular_eps_por_materia (acertos : dict Z)
  (estatisticas : dict Stats) (nota_redacao : Q) : dict Q :=
  let eps :=
    fold_left
      (fun eps '(materia, acertos_num) =>
         set eps materia
             (obter_ep_por_acertos estatisticas materia acertos_num))
      acertos [] in
  let ep_redacao := calcular_ep_redacao nota_redacao in
  match get eps "portugues" with
  | Some ep_portugues =>
      set eps "portugues_redacao" ((ep_portugues + ep_redacao) / 2)
  | None => set eps "portugues_redacao" ep_redacao
  end.

(** The [mapeamento_abrev] literal. *)
Definition mapeamento_abrev : dict string :=
  [ ("POR", "portugues_redacao"); ("LIT", "literatura");
    ("GEO", "geografia"); ("HIS", "historia"); ("BIO", "biologia");
    ("FIS", "fisica"); ("QUI", "quimica"); ("MAT", "matematica");
    ("LIN", "lingua_estrangeira") ].

(** The loop [for abrev, peso in pesos.items()], threading
    [(soma_pesos, soma_inversos)]; [None] is the [return 0.0] inside the
    loop. *)
Fixpoint somar (eps : dict Q) (itens : list (string * Q))
  (soma_pesos soma_inversos : Q) : option (Q * Q) :=
  match itens with
  | [] => Some (soma_pesos, soma_inversos)
  | (abrev, peso) :: resto =>
      if String.eqb abrev "total"
      then somar eps resto soma_pesos soma_inversos
      else
        match get mapeamento_abrev abrev with
        | None => somar eps resto soma_pesos soma_inversos
        | Some materia =>
            let ep := get_default eps materia 500 in
            if Qgtb ep 0
            then somar eps resto (soma_pesos + peso)
                   (soma_inversos + peso / ep)
            else None
        end
  end.

(** [calcular_media_harmonica_ponderada], in exact arithmetic; the rounded
    value is [Binary64.calcular_media_harmonica_ponderada]. *)
Definition calcular_media_harmonica_ponderada (eps : dict Q) (pesos : dict Q)
  : Q :=
  match somar eps pesos 0 0 with
  | None => 0.0
  | Some (soma_pesos, soma_inversos) =>
      if Qgtb soma_inversos 0 then soma_pesos / soma_inversos else 0.0
  end.

End MediaHarmonicaCursos.

(** ** [verificar_aprovacao.py] *)

Module VerificarAprovacao.

Open Scope Q_scope.

(** The [mapeamento_especial] literal; a value [None] marks a program that
    has no entry in the cutoff file. *)
Definition mapeamento_especial : dict (option string) :=
  [
    ("Administração (D)", Some "Administração (Integral");
    ("Administração (N)", Some "Administração (Noturno");
    ("Administração Púb/Soc (N)", Some "Administração Pública e Social");
    ("Agronomia", Some "Agronomia (Integral)");
    ("Arquitetura e Urbanismo", Some "Arquitetura e Urbanismo");
    ("Arquivologia (N)", Some "Arquivologia");
    ("Artes Visuais (B)", Some "Artes Visuais (Bacharelado");
    ("Artes Visuais (L)", Some "Artes Visuais (Licenciatura");
    ("Biblioteconomia", Some "Biblioteconomia");
    ("Biomedicina", Some "Biomedicina");
    ("Biotecnologia", Some "Biotecnologia");
    ("Ciências Atuariais", Some "Ciências Atuariais");
    ("Ciências B Bio Mar CLN", Some "Ciências Biológicas (Bacharelado, Pólo Imbé)");
    ("Ciências Biológicas (B)", Some "Ciências Biológicas (Bacharelado, Campus do Vale)");
    ("Ciências Biológicas (L)", Some "Ciências Biológicas (Licenciatura");
    ("Ciências Contábeis", Some "Ciências Contábeis");
    ("Ciências Econômicas (D)", Some "Ciências Econômicas (Integral");
    ("Ciências Econômicas (N)", Some "Ciências Econômicas (Noturno");
    ("Ciências Sociais (D)", Some "Ciências Sociais (Integral, Campus do Vale)");
    ("Ciências Sociais (N)", Some "Ciências Sociais (Noturno, Campus do Vale)");
    ("Computação", Some "Ciência da Computação");
    ("Dança", Some "Dança");
    ("Design Produto", Some "Design de Produto");
    ("Design Visual", Some "Design Visual");
    ("Direito (D)", Some "Ciências Jurídicas e Sociais – Direito (Integral");
    ("Direito (N)", Some "Ciências Jurídicas e Sociais – Direito (Noturno");
    ("Educação Física (B)", Some "ABI – Educação Física");
    ("Enfermagem", Some "Enfermagem");
    ("Engenharia Ambiental", Some "Engenharia Ambiental");
    ("Engenharia Cartográfica (N)", Some "Engenharia Cartográfica");
    ("Engenharia Civil", Some "Engenharia Civil");
    ("Engenharia Contr Automação", Some "Engenharia de Controle e Automação");
    ("Engenharia de Alimentos", Some "Engenharia de Alimentos");
    ("Engenharia de Computação", Some "Engenharia de Computação");
    ("Engenharia de Energia", Some "Engenharia de Energia");
    ("Engenharia de Materiais", Some "Engenharia de Materiais");
    ("Engenharia de Minas", Some "Engenharia de Minas");
    ("Engenharia de Produção", Some "Engenharia de Produção");
    ("Engenharia de Serviços", Some "Engenharia de Serviços");
    ("Engenharia Elétrica", Some "Engenharia Elétrica");
    ("Engenharia Física", Some "Engenharia Física");
    ("Engenharia Gest Energia CLN", Some "Engenharia de Gestão de Energia");
    ("Engenharia Hídrica", Some "Engenharia Hídrica");
    ("Engenharia Mecânica", Some "Engenharia Mecânica");
    ("Engenharia Metalúrgica", Some "Engenharia Metalúrgica");
    ("Engenharia Química", Some "Engenharia Química");
    ("Estatística", Some "Estatística");
    ("Farmácia", Some "Farmácia");
    ("Filosofia (B) (D)", Some "Filosofia (Integral");
    ("Filosofia (L) (N)", Some "Filosofia (Noturno, Licenciatura");
    ("Fisioterapia", Some "Fisioterapia");
    ("Fonoaudiologia", Some "Fonoaudiologia");
    ("Física (B)", Some "Física (Integral, Campus do Vale)");
    ("Física (L) (D)", Some "Física (Licenciatura, Campus do Vale)");
    ("Física (L) (N)", Some "Física (Noturno, Licenciatura");
    ("Física Astrofísica", Some "Física (Integral, Campus do Vale)");
    ("Geografia (D)", Some "Geografia (Bacharelado, Campus do Vale)");
    ("Geografia (L) CLN", Some "Geografia (Noturno, Licenciatura, Campus Litoral Norte)");
    ("Geografia (N)", Some "Geografia (Noturno, Bacharelado");
    ("Geologia", Some "Geologia");
    ("História (D)", Some "História (Integral, Bacharelado");
    ("História (N)", Some "História (Noturno, Bacharelado");
    ("História da Arte", Some "História da Arte");
    ("Inter Ciência Tecno", Some "Interdisciplinar em Ciência e Tecnologia");
    ("Jornalismo", Some "Jornalismo");
    ("Letras (B)", Some "Letras (Bacharelado");
    ("Letras (B) Libras", Some "Letras (Licenciatura");
    ("Música", None);
    ("Nutrição", Some "Nutrição");
    ("Odontologia (D)", Some "Odontologia (Integral");
    ("Odontologia (N)", Some "Odontologia (Noturno");
    ("Pedagogia (M)", Some "Pedagogia (Matutino");
    ("Pedagogia (N)", Some "Pedagogia (Noturno");
    ("Políticas Públicas", Some "Políticas Públicas");
    ("Psicologia (D)", Some "Psicologia (Integral");
    ("Psicologia (N)", Some "Psicologia (Noturno");
    ("Publicidade & Propaganda", Some "Publicidade e Propaganda");
    ("Química", Some "Química (Integral");
    ("Química (L) (N)", Some "Química (Noturno, Licenciatura");
    ("Química Industrial (I)", Some "Química Industrial (Integral");
    ("Química Industrial (N)", Some "Química Industrial (Noturno");
    ("Rel. Internacionais", Some "Relações Internacionais");
    ("Relações Públicas", Some "Relações Públicas");
    ("Saúde Coletiva", None);
    ("Serviço Social", None);
    ("Teatro", None);
    ("Teatro (L)", None);
    ("ZZ CODE", None);
    ("Zootecnia", None)
  ].

(** The loop [for curso_completo, nota in notas_corte.items()]. *)
Fixpoint buscar (padrao : string) (itens : list (string * Q))
  : option string * option Q :=
  match itens with
  | [] => (None, None)
  | (curso_completo, nota) :: resto =>
      if str_in padrao curso_completo then (Some curso_completo, Some nota)
      else buscar padrao resto
  end.

(** [mapear_curso_nota_corte]; the Python [None] of either component of the
    returned pair is the [None] of [option]. *)
Definition mapear_curso_nota_corte (nome_curso_pesos : string)
  (notas_corte : dict Q) : option string * option Q :=
  let padrao := get_default mapeamento_especial nome_curso_pesos None in
  match padrao with
  | None => (None, None)
  | Some padrao => buscar padrao notas_corte
  end.

(** Truth value of a string or [None]. *)
Definition truthy_str (x : option string) : bool :=
  match x with
  | Some s => negb (String.eqb s "")
  | None => false
  end.

(** Truth value of a number or [None]. *)
Definition truthy_num (x : option Q) : bool :=
  match x with
  | Some n => negb (Qeq_bool n 0)
  | None => false
  end.

(** The three lists that [main] fills for one candidate. *)
Record Listas : Type := mkListas {
  aprovados : list (string * string * Q * Q * Q);
  reprovados : list (string * string * Q * Q * Q);
  sem_nota_corte : list (string * Q)
}.

(** The body of [for curso in sorted(pesos_cursos.keys())] in [main], for
    the program [curso] whose aggregated score is [mh]. *)
Definition classificar (notas_corte : dict Q) (listas : Listas)
  (curso : string) (mh : Q) : Listas :=
  match mapear_curso_nota_corte curso notas_corte with
  | (Some curso_completo, Some nota_corte) =>
      if truthy_str (Some curso_completo) && truthy_num (Some nota_corte)
      then
        let diferenca := mh - nota_corte in
        if Qle_bool nota_corte mh
        then mkListas
               (aprovados listas ++
                  [(curso, curso_completo, mh, nota_corte, diferenca)])
               (reprovados listas) (sem_nota_corte listas)
        else mkListas
               (aprovados listas)
               (reprovados listas ++
                  [(curso, curso_completo, mh, nota_corte, diferenca)])
               (sem_nota_corte listas)
      else mkListas (aprovados listas) (reprovados listas)
             (sem_nota_corte listas ++ [(curso, mh)])
  | _ => mkListas (aprovados listas) (reprovados listas)
           (sem_nota_corte listas ++ [(curso, mh)])
  end.

(** The whole loop, over the programs in the order [main] visits them, each
    with the candidate's aggregated score. *)
Definition classificar_cursos (notas_corte : dict Q)
  (cursos : list (string * Q)) : Listas :=
  fold_left (fun listas '(curso, mh) => classificar notas_corte listas curso mh)
            cursos (mkListas [] [] []).

End VerificarAprovacao.

(** ** [verificar_aprovacao.py], the figures of [main] *)

Module VerificarAprovacaoMain.

Import VerificarAprovacao.

Open Scope Q_scope.

(** The approval rate that [main] prints under the lists of one candidate;
    [None] when no program has a cutoff and nothing is computed. *)
Definition taxa_aprovacao (listas : Listas) : option Q :=
  let total_com_nota :=
    (Z.of_nat (List.length (aprovados listas))
     + Z.of_nat (List.length (reprovados listas)))%Z in
  if (total_com_nota >? 0)%Z
  then Some (inject_Z (Z.of_nat (List.length (aprovados listas)))
             / inject_Z total_com_nota * 100)
  else None.

(** The loop of the closing summary, over the programs with the candidate's
    scores: [(aprovados_count, total_count)]. *)
Definition contar_aprovacoes (notas_corte : dict Q)
  (cursos : list (string * Q)) : Z * Z :=
  fold_left
    (fun '(aprovados_count, total_count) '(curso, mh) =>
       let '(curso_completo, nota_corte) :=
         mapear_curso_nota_corte curso notas_corte in
       if truthy_str curso_completo && truthy_num nota_corte
       then
         match nota_corte with
         | Some nota =>
             if Qle_bool nota mh
             then (aprovados_count + 1, total_count + 1)%Z
             else (aprovados_count, total_count + 1)%Z
         | None => (aprovados_count, total_count)
         end
       else (aprovados_count, total_count))
    cursos (0%Z, 0%Z).

(** The rate of the closing summary; [None] when nothing is printed. *)
Definition taxa_resumo (notas_corte : dict Q) (cursos : list (string * Q))
  : option Q :=
  let '(aprovados_count, total_count) :=
    contar_aprovacoes notas_corte cursos in
  if (total_count >? 0)%Z
  then Some (inject_Z aprovados_count / inject_Z total_count * 100)
  else None.

End VerificarAprovacaoMain.

(** ** [calcular_media_harmonica.py] *)

Module MediaHarmonica.

Open Scope Q_scope.

(** What a call gives back: a number, or the [ZeroDivisionError] of a
    division by zero. *)
Inductive resultado : Type :=
| Retorna (x : Q)
| ZeroDivisionError.

(** [calcular_media_harmonica]: MH = 2 / (1/P1 + 1/P2), in exact
    arithmetic; the rounded value is [Binary64.calcular_media_harmonica]. *)
Definition calcular_media_harmonica (nota1 nota2 : Q) : resultado :=
  if Qeq_bool nota1 0 || Qeq_bool nota2 0 then Retorna 0.0
  else
    let soma := 1 / nota1 + 1 / nota2 in
    if Qeq_bool soma 0 then ZeroDivisionError else Retorna (2 / soma).

(** One day of a candidate's answers as this script reads it: the right
    answers and the wrong ones, of which only the number is used. *)
Record DadosProva (V : Type) : Type := mkDadosProva {
  iguais : option (list Z);
  diferentes : option (dict V)
}.

Arguments mkDadosProva {V} iguais diferentes.
Arguments iguais {V} d.
Arguments diferentes {V} d.

(** [calcular_acertos]. *)
Definition calcular_acertos {V : Type} (dados_prova : DadosProva V) : Z :=
  Z.of_nat (List.length
              (match iguais dados_prova with Some l => l | None => [] end)).

(** [calcular_total_questoes]. *)
Definition calcular_total_questoes {V : Type} (dados_prova : DadosProva V)
  : Z :=
  let acertos :=
    Z.of_nat (List.length
                (match iguais dados_prova with Some l => l | None => [] end))
  in
  let erros :=
    Z.of_nat (List.length
                (match diferentes dados_prova with
                 | Some d => d
                 | None => []
                 end)) in
  (acertos + erros)%Z.

(** The grade of one day in [main]:
    [(acertos / total * 100) if total > 0 else 0]. *)
Definition nota_prova {V : Type} (dados_prova : DadosProva V) : Q :=
  let acertos := calcular_acertos dados_prova in
  let total := calcular_total_questoes dados_prova in
  if (total >? 0)%Z then inject_Z acertos / inject_Z total * 100 else 0.

(** The harmonic mean that [main] stores for one candidate;
    [llm_dados.get(prova, {})] reads a missing day as the empty record. *)
Definition media_harmonica_llm {V : Type}
  (primeira_prova segunda_prova : option (DadosProva V)) : resultado :=
  let vazio := mkDadosProva None None in
  let p1 := match primeira_prova with Some d => d | None => vazio end in
  let p2 := match segunda_prova with Some d => d | None => vazio end in
  calcular_media_harmonica (nota_prova p1) (nota_prova p2).

End MediaHarmonica.

(** ** The arithmetic of the interpreter

    The four functions below return a quotient of sums of quotients, which
    the interpreter evaluates in binary64.  Here they are again, with the
    text of the definitions above and the operations of binary64 in place
    of those of [Q]; integers read from JSON (weights, the default 500)
    are the same numbers in binary64.  A decimal literal stands for the
    nearest binary64 number, as in the source. *)

Set Warnings "-inexact-float".

Module Binary64.

Open Scope float_scope.

(** The loop of [calcular_media_harmonica_ponderada]. *)
Fixpoint somar_media (eps : dict float) (itens : list (string * float))
  (soma_pesos soma_inversos : float) : option (float * float) :=
  match itens with
  | [] => Some (soma_pesos, soma_inversos)
  | (abrev, peso) :: resto =>
      if String.eqb abrev "total"
      then somar_media eps resto soma_pesos soma_inversos
      else
        match get MediaHarmonicaCursos.mapeamento_abrev abrev with
        | None => somar_media eps resto soma_pesos soma_inversos
        | Some materia =>
            let ep := get_default eps materia 500 in
            if 0 <? ep
            then somar_media eps resto (soma_pesos + peso)
                   (soma_inversos + peso / ep)
            else None
        end
  end.

(** [calcular_media_harmonica_ponderada]. *)
Definition calcular_media_harmonica_ponderada (eps : dict float)
  (pesos : dict float) : float :=
  match somar_media eps pesos 0 0 with
  | None => 0.0
  | Some (soma_pesos, soma_inversos) =>
      if 0 <? soma_inversos then soma_pesos / soma_inversos else 0.0
  end.

(** The aggregation loop of [calcular_ac_para_curso]. *)
Fixpoint somar_ac (escores_padronizados : dict float)
  (itens : list (string * float)) (soma_pesos soma_inversos : float)
  : float * float :=
  match itens with
  | [] => (soma_pesos, soma_inversos)
  | (materia_peso, peso) :: resto =>
      if String.eqb materia_peso "total"
      then somar_ac escores_padronizados resto soma_pesos soma_inversos
      else
        let ep := get_default escores_padronizados materia_peso 500 in
        if 0 <? ep
        then somar_ac escores_padronizados resto
               (soma_pesos + peso) (soma_inversos + peso / ep)
        else somar_ac escores_padronizados resto soma_pesos soma_inversos
  end.

(** The aggregation part of [calcular_ac_para_curso]. *)
Definition calcular_ac (escores_padronizados : dict float)
  (pesos_curso : dict float) : float :=
  let '(soma_pesos, soma_inversos) :=
    somar_ac escores_padronizados pesos_curso 0 0 in
  if 0 <? soma_inversos then soma_pesos / soma_inversos else 0.

(** [calcular_ep_redacao]. *)
Definition calcular_ep_redacao (nota_redacao : float) : float :=
  let media_redacao := 6.0 in
  let dp_redacao := 2.0 in
  ((nota_redacao - media_redacao) / dp_redacao) * 100 + 500.

(** What a call of [calcular_media_harmonica] gives back. *)
Inductive resultado : Type :=
| Retorna (x : float)
| ZeroDivisionError.

(** [calcular_media_harmonica] of [calcular_media_harmonica.py]. *)
Definition calcular_media_harmonica (nota1 nota2 : float) : resultado :=
  if (nota1 =? 0) || (nota2 =? 0) then Retorna 0.0
  else
    let soma := 1 / nota1 + 1 / nota2 in
    if soma =? 0 then ZeroDivisionError else Retorna (2 / soma).

(** Every weight of the table multiplied by [c]. *)
Definition escalar (c : float) (pesos : dict float) : dict float :=
  map (fun '(k, peso) => (k, c * peso)) pesos.

End Binary64.

(** ** Vocabulary of the statements *)

(** The statistics record that both standardizers read for a subject:
    the foreign-language subject reads the record of ["ingles"], and a
    subject without a record reads the empty record. *)
Definition stats_de (estatisticas : dict Stats) (materia : string) : Stats :=
  get_default estatisticas
    (if String.eqb materia "lingua_estrangeira" then "ingles" else materia)
    stats_vazio.

(** The score table of a record, [stats.get('escores', [])]. *)
Definition tabela_de (stats : Stats) : list EscoreItem :=
  match escores stats with
  | Some l => l
  | None => []
  end.

(** The same statistics with every score table removed. *)
Definition sem_tabelas (estatisticas : dict Stats) : dict Stats :=
  map (fun '(k, s) => (k, mkStats (media s) (desvio_padrao s) None))
      estatisticas.

(** [stats.get('media', 0)] and [stats.get('desvio_padrao', 1)]. *)
Definition media_de (stats : Stats) : Q :=
  match media stats with
  | Some x => x
  | None => 0
  end.

Definition desvio_de (stats : Stats) : Q :=
  match desvio_padrao stats with
  | Some x => x
  | None => 1
  end.

(** The weight keys that remain once the ['total'] key is skipped. *)
Definition pesos_efetivos (pesos : dict Q) : dict Q :=
  filter (fun '(k, _) => negb (String.eqb k "total")) pesos.

(** Every weight of the table multiplied by [c]. *)
Definition escalar (c : Q) (pesos : dict Q) : dict Q :=
  map (fun '(k, peso) => (k, c * peso)) pesos.

(** The weight table without the keys that [mapeamento_abrev] does not
    know. *)
Definition so_conhecidas (pesos : dict Q) : dict Q :=
  filter (fun '(k, _) => mem MediaHarmonicaCursos.mapeamento_abrev k) pesos.

(** The weight table without the keys whose score (500 when the score set
    has no entry) is not positive. *)
Definition so_positivas (escores_padronizados : dict Q) (pesos : dict Q)
  : dict Q :=
  filter (fun '(k, _) => Qgtb (get_default escores_padronizados k 500) 0)
         pesos.

(** The nine subject keys of [mapeamento]. *)
Definition materias : list string := keys mapeamento_inicial.

(** The entries of both days in the order the code visits them, each with
    the key it is filed under. *)
Definition entradas (info : EstruturaProva) : list (string * Distribuicao) :=
  map (fun item => (chave_dia1 item, item)) (dia_1 info) ++
  map (fun item => (chave_dia2 item, item)) (dia_2 info).

(** The inclusive ranges of the entries filed under [k], one after the
    other. *)
Definition questoes_de (k : string) (es : list (string * Distribuicao))
  : list Z :=
  List.concat (map (fun e => py_range (inicio (snd e)) (fim (snd e) + 1))
              (filter (fun e => String.eqb (fst e) k) es)).

(** The entry [item] claims the question number [q]. *)
Definition reivindica (item : Distribuicao) (q : Z) : Prop :=
  (inicio item <= q <= fim item)%Z.

(** The score that [calcular_ac_para_curso] computes for [acertos] hits in
    [materia]. *)
Definition escore_de (estatisticas : dict Stats) (materia : string)
  (acertos : Z) : Q :=
  AcUfrgs.calcular_escore_padronizado (inject_Z acertos)
    (media_de (stats_de estatisticas materia))
    (desvio_de (stats_de estatisticas materia)).

(** The weight table of [calcular_media_harmonica_ponderada] read as a
    weight table of [calcular_ac_para_curso]: each known abbreviation is
    replaced by its subject, and the other keys are dropped. *)
Definition renomear (pesos : dict Q) : dict Q :=
  flat_map
    (fun '(abrev, peso) =>
       if String.eqb abrev "total" then []
       else match get MediaHarmonicaCursos.mapeamento_abrev abrev with
            | Some materia => [(materia, peso)]
            | None => []
            end)
    pesos.

(** Two outcomes of the loop of [calcular_media_harmonica_ponderada] are
    alike: both are the early return, or both hold equal sums. *)
Definition somas_iguais (r r' : option (Q * Q)) : Prop :=
  match r, r' with
  | None, None => True
  | Some (a, b), Some (a', b') => (a == a')%Q /\ (b == b')%Q
  | _, _ => False
  end.

(** The question [q] counts as a hit for
    [calcular_media_harmonica_cursos.py]: it is among the matches of its
    day, day 1 being the numbers up to 60. *)
Definition acertou (iguais_p1 iguais_p2 : list Z) (q : Z) : bool :=
  if (q <=? 60)%Z then in_list q iguais_p1 else in_list q iguais_p2.

(** The answer record with the matches of day 1 above 60 and the matches
    of day 2 up to 60 removed. *)
Definition so_do_dia (results_llm : ResultsLLM) : ResultsLLM :=
  mkResultsLLM
    (Some (mkProva (Some (filter (fun q => (q <=? 60)%Z)
                                 (iguais_de (PRIMEIRA_PROVA results_llm))))))
    (Some (mkProva (Some (filter (fun q => negb (q <=? 60)%Z)
                                 (iguais_de (SEGUNDA_PROVA results_llm)))))).

(** The number of questions of the inclusive range of an entry. *)
Definition tamanho (item : Distribuicao) : Z :=
  Z.max 0 (fim item - inicio item + 1).

(** The text has a space. *)
Fixpoint tem_espaco (s : string) : bool :=
  match s with
  | EmptyString => false
  | String c s' => Ascii.eqb c " " || tem_espaco s'
  end.

(** The entry [(curso, curso_completo, mh, nota_corte, diferenca)] is what
    [main] records for a program that passes: a resolved cutoff other than
    0 that the score reaches, and the margin. *)
Definition entrada_aprovada (notas_corte : dict Q)
  (e : string * string * Q * Q * Q) : Prop :=
  let '(curso, curso_completo, mh, nota_corte, diferenca) := e in
  VerificarAprovacao.mapear_curso_nota_corte curso notas_corte
  = (Some curso_completo, Some nota_corte) /\
  ~ (nota_corte == 0)%Q /\ (nota_corte <= mh)%Q /\
  diferenca = (mh - nota_corte)%Q.

(** The same for a program that fails: the score is below the cutoff. *)
Definition entrada_reprovada (notas_corte : dict Q)
  (e : string * string * Q * Q * Q) : Prop :=
  let '(curso, curso_completo, mh, nota_corte, diferenca) := e in
  VerificarAprovacao.mapear_curso_nota_corte curso notas_corte
  = (Some curso_completo, Some nota_corte) /\
  ~ (nota_corte == 0)%Q /\ (mh < nota_corte)%Q /\
  diferenca = (mh - nota_corte)%Q.

(** The program has no cutoff for [main]: none is resolved, or the
    resolved one is 0. *)
Definition sem_corte (notas_corte : dict Q) (curso : string) : Prop :=
  VerificarAprovacao.mapear_curso_nota_corte curso notas_corte
  = (None, None) \/
  exists curso_completo nota_corte,
    VerificarAprovacao.mapear_curso_nota_corte curso notas_corte
    = (Some curso_completo, Some nota_corte) /\ (nota_corte == 0)%Q.

(** The test [if curso_completo and nota_corte] of [main] for one program
    with its score. *)
Definition com_nota_b (notas_corte : dict Q) (c : string * Q) : bool :=
  let '(curso_completo, nota_corte) :=
    VerificarAprovacao.mapear_curso_nota_corte (fst c) notas_corte in
  VerificarAprovacao.truthy_str curso_completo
  && VerificarAprovacao.truthy_num nota_corte.

(** The test passes and the score reaches the cutoff. *)
Definition aprovado_b (notas_corte : dict Q) (c : string * Q) : bool :=
  com_nota_b notas_corte c
  && match snd (VerificarAprovacao.mapear_curso_nota_corte (fst c)
                  notas_corte) with
     | Some nota_corte => Qle_bool nota_corte (snd c)
     | None => false
     end.

(** * Properties *)

(** ** Comparisons on numbers *)

Lemma Qgtb_true (x y : Q) : Qgtb x y = true <-> (y < x)%Q.
Proof.
  unfold Qgtb. rewrite negb_true_iff, <- not_true_iff_false, Qle_bool_iff.
  split; [apply Qnot_le_lt | apply Qlt_not_le].
Qed.

Lemma Qgtb_false (x y : Q) : Qgtb x y = false <-> (x <= y)%Q.
Proof.
  unfold Qgtb. rewrite negb_false_iff. apply Qle_bool_iff.
Qed.

Lemma Qeq_bool_true (x y : Q) : Qeq_bool x y = true <-> (x == y)%Q.
Proof. apply Qeq_bool_iff. Qed.

(** ** Standardized scores *)

Section Padronizacao.

Import MediaHarmonicaCursos.

Open Scope Q_scope.

Lemma obter_ep_unfold (estatisticas : dict Stats) (materia : string)
  (acertos : Z) :
  obter_ep_por_acertos estatisticas materia acertos =
  match buscar_ep (tabela_de (stats_de estatisticas materia)) acertos with
  | Some ep => ep
  | None =>
      let media :=
        match media (stats_de estatisticas materia) with
        | Some x => x | None => 0 end in
      let desvio :=
        match desvio_padrao (stats_de estatisticas materia) with
        | Some x => x | None => 1 end in
      if Qgtb desvio 0
      then ((inject_Z acertos - media) / desvio) * 100 + 500
      else 500.0
  end.
Proof. reflexivity. Qed.

(** [buscar_ep] finds the first row of the table whose count is the one
    asked for. *)
Lemma buscar_ep_Some (tabela : list EscoreItem) (acertos : Z) (ep : Q) :
  buscar_ep tabela acertos = Some ep <->
  exists antes item depois,
    tabela = antes ++ item :: depois /\
    item_acertos item = acertos /\ item_ep item = ep /\
    forall i, In i antes -> item_acertos i <> acertos.
Proof.
  induction tabela as [|i tabela IH]; simpl.
  - split; [discriminate|].
    intros (antes & item & depois & E & _). destruct antes; discriminate.
  - destruct (Z.eqb_spec (item_acertos i) acertos) as [Ei|Ni].
    + split.
      * intros [= <-]. exists [], i, tabela. repeat split; auto.
      * intros (antes & item & depois & E & Ea & Ep & Hn).
        destruct antes as [|j antes]; simpl in E; injection E as -> ->.
        -- now rewrite Ep.
        -- exfalso. eapply Hn; [left; reflexivity | exact Ei].
    + rewrite IH. split.
      * intros (antes & item & depois & -> & Ea & Ep & Hn).
        exists (i :: antes), item, depois. repeat split; auto.
        intros j [<-|Hj]; auto.
      * intros (antes & item & depois & E & Ea & Ep & Hn).
        destruct antes as [|j antes]; simpl in E; injection E as -> ->.
        -- contradiction.
        -- exists antes, item, depois. repeat split; auto.
           intros k Hk. apply Hn. now right.
Qed.

Lemma buscar_ep_None (tabela : list EscoreItem) (acertos : Z) :
  buscar_ep tabela acertos = None <->
  forall i, In i tabela -> item_acertos i <> acertos.
Proof.
  induction tabela as [|i tabela IH]; simpl.
  - split; [intros _ ? [] | reflexivity].
  - destruct (Z.eqb_spec (item_acertos i) acertos) as [Ei|Ni].
    + split; [discriminate|]. intros H. exfalso. apply (H i); auto.
    + rewrite IH. split.
      * intros H j [<-|Hj]; auto.
      * intros H j Hj. apply H. now right.
Qed.

(** Removing the score tables changes neither the mean nor the deviation
    that a subject reads. *)
Lemma stats_de_sem_tabelas (estatisticas : dict Stats) (k : string) :
  media (get_default (sem_tabelas estatisticas) k stats_vazio) =
    media (get_default estatisticas k stats_vazio) /\
  desvio_padrao (get_default (sem_tabelas estatisticas) k stats_vazio) =
    desvio_padrao (get_default estatisticas k stats_vazio).
Proof.
  unfold get_default.
  induction estatisticas as [|[k' s] est IH]; simpl; [now split|].
  destruct (String.eqb k' k); [now split | exact IH].
Qed.

Lemma padronizar_sem_tabelas (itens : list (string * Z)) (total : dict Z)
  (estatisticas : dict Stats) (esc : dict Q) :
  AcUfrgs.padronizar itens total (sem_tabelas estatisticas) esc =
  AcUfrgs.padronizar itens total estatisticas esc.
Proof.
  revert esc.
  induction itens as [|[materia acertos] resto IH]; intros esc; simpl;
    [reflexivity|].
  destruct (index total materia) as [t|e]; simpl; [|reflexivity].
  destruct (t =? 0)%Z; [apply IH|].
  destruct (stats_de_sem_tabelas estatisticas
              (if String.eqb materia "lingua_estrangeira" then "ingles"
               else materia)) as [-> ->].
  apply IH.
Qed.

(** C4 (amended).  With a standard deviation equal to 0,
    [calcular_escore_padronizado] returns exactly 500.0 for every raw score,
    and [obter_ep_por_acertos] returns exactly 500.0 for every count that has
    no row in the subject's score table; a count that has a row gets the
    value of its first row, whatever the deviation is. *)
Theorem desvio_zero_escore_500 (estatisticas : dict Stats) (materia : string)
  (acertos : Z) (escore_bruto md dp : Q) :
  dp == 0 ->
  AcUfrgs.calcular_escore_padronizado escore_bruto md dp = 500.0 /\
  (desvio_padrao (stats_de estatisticas materia) = Some dp ->
   (forall i, In i (tabela_de (stats_de estatisticas materia)) ->
              item_acertos i <> acertos) ->
   obter_ep_por_acertos estatisticas materia acertos = 500.0) /\
  (forall ep,
     buscar_ep (tabela_de (stats_de estatisticas materia)) acertos = Some ep ->
     obter_ep_por_acertos estatisticas materia acertos = ep).
Proof.
  intros Hdp. split; [|split].
  - unfold AcUfrgs.calcular_escore_padronizado.
    apply Qeq_bool_true in Hdp. now rewrite Hdp.
  - intros Hs Hnone. rewrite obter_ep_unfold.
    apply buscar_ep_None in Hnone. rewrite Hnone, Hs. simpl.
    assert (Hle : Qgtb dp 0 = false).
    { apply Qgtb_false. rewrite Hdp. apply Qle_refl. }
    now rewrite Hle.
  - intros ep Hep. rewrite obter_ep_unfold. now rewrite Hep.
Qed.

(** Witness of [desvio_zero_escore_500]: a subject whose deviation is 0 and
    whose table has a row for 3 hits only. *)
Lemma desvio_zero_escore_500_witness :
  let est := [("fisica", mkStats (Some 10) (Some 0)
                           (Some [mkEscoreItem 3 432.1]))] in
  AcUfrgs.calcular_escore_padronizado 7 10 0 = 500.0 /\
  obter_ep_por_acertos est "fisica" 7 = 500.0 /\
  obter_ep_por_acertos est "fisica" 3 = 432.1.
Proof.
  intros est.
  assert (H0 : 0 == 0) by reflexivity.
  split; [|split].
  - exact (proj1 (desvio_zero_escore_500 est "fisica" 7 7 10 0 H0)).
  - apply (proj1 (proj2 (desvio_zero_escore_500 est "fisica" 7 7 10 0 H0))).
    + reflexivity.
    + intros i [<-|[]]. simpl. lia.
  - apply (proj2 (proj2 (desvio_zero_escore_500 est "fisica" 3 7 10 0 H0))).
    reflexivity.
Defined.

(** C4, as stated, fails for [obter_ep_por_acertos]: with deviation 0 and a
    table row for the count, the row's value 432.1 is returned, not 500.0. *)
Lemma desvio_zero_tabela_contra :
  let est := [("fisica", mkStats (Some 10) (Some 0)
                           (Some [mkEscoreItem 3 432.1]))] in
  desvio_padrao (stats_de est "fisica") = Some 0 /\
  obter_ep_por_acertos est "fisica" 3 = 432.1 /\
  ~ (obter_ep_por_acertos est "fisica" 3 == 500.0).
Proof.
  intros est. repeat split. intros H. vm_compute in H. discriminate.
Qed.

(** C5 (amended).  [obter_ep_por_acertos] returns the value of the first
    table row for the count when there is one, and otherwise, with a
    positive deviation, ((count - mean) / deviation) * 100 + 500.
    [calcular_ac_para_curso] never reads a score table: removing every table
    from the statistics leaves its result unchanged, and each score it stores
    is [calcular_escore_padronizado], the formula whenever the deviation is
    not 0. *)
Theorem tabela_tem_precedencia (estatisticas : dict Stats) (materia : string)
  (acertos : Z) :
  (forall antes item depois,
     tabela_de (stats_de estatisticas materia) = antes ++ item :: depois ->
     item_acertos item = acertos ->
     (forall i, In i antes -> item_acertos i <> acertos) ->
     obter_ep_por_acertos estatisticas materia acertos = item_ep item) /\
  ((forall i, In i (tabela_de (stats_de estatisticas materia)) ->
              item_acertos i <> acertos) ->
   0 < desvio_de (stats_de estatisticas materia) ->
   obter_ep_por_acertos estatisticas materia acertos =
   ((inject_Z acertos - media_de (stats_de estatisticas materia))
    / desvio_de (stats_de estatisticas materia)) * 100 + 500) /\
  (forall acertos_por_materia total pesos_curso nota_redacao,
     AcUfrgs.calcular_ac_para_curso acertos_por_materia total
       (sem_tabelas estatisticas) pesos_curso nota_redacao =
     AcUfrgs.calcular_ac_para_curso acertos_por_materia total
       estatisticas pesos_curso nota_redacao) /\
  (forall escore_bruto md dp,
     ~ dp == 0 ->
     AcUfrgs.calcular_escore_padronizado escore_bruto md dp =
     ((escore_bruto - md) / dp) * 100 + 500).
Proof.
  repeat split.
  - intros antes item depois Ht Ha Hn. rewrite obter_ep_unfold.
    assert (Hb : buscar_ep (tabela_de (stats_de estatisticas materia)) acertos
                 = Some (item_ep item)).
    { apply buscar_ep_Some. exists antes, item, depois. auto. }
    now rewrite Hb.
  - intros Hn Hpos. rewrite obter_ep_unfold.
    apply buscar_ep_None in Hn. rewrite Hn. cbv zeta.
    fold (desvio_de (stats_de estatisticas materia)).
    fold (media_de (stats_de estatisticas materia)).
    apply Qgtb_true in Hpos. now rewrite Hpos.
  - intros. unfold AcUfrgs.calcular_ac_para_curso.
    now rewrite padronizar_sem_tabelas.
  - intros eb md dp Hdp. unfold AcUfrgs.calcular_escore_padronizado.
    destruct (Qeq_bool dp 0) eqn:E; [|reflexivity].
    apply Qeq_bool_true in E. contradiction.
Qed.

(** Witness of [tabela_tem_precedencia]: 12 hits have a table row (650),
    13 hits have none and get the formula's 650 = ((13 - 10) / 2) * 100 + 500
    in unreduced form. *)
Lemma tabela_tem_precedencia_witness :
  let est := [("fisica", mkStats (Some 10) (Some 2)
                           (Some [mkEscoreItem 12 650]))] in
  obter_ep_por_acertos est "fisica" 12 = 650 /\
  obter_ep_por_acertos est "fisica" 13 == 650 /\
  AcUfrgs.calcular_escore_padronizado 12 10 2 == 600.
Proof.
  intros est.
  destruct (tabela_tem_precedencia est "fisica" 12) as (Htab & _ & _ & Hf).
  destruct (tabela_tem_precedencia est "fisica" 13) as (_ & Hform & _ & _).
  split; [|split].
  - apply (Htab [] (mkEscoreItem 12 650) []); [reflexivity | reflexivity |].
    intros i [].
  - rewrite Hform.
    + vm_compute. reflexivity.
    + intros i [<-|[]]. simpl. lia.
    + vm_compute. reflexivity.
  - rewrite Hf.
    + vm_compute. reflexivity.
    + intros H. vm_compute in H. discriminate.
Defined.

(** C5, as stated, fails on the path of [calcular_ac_para_curso]: the table
    gives 650 for 12 hits, [obter_ep_por_acertos] returns it, and
    [calcular_ac_para_curso] stores the formula's 600. *)
Lemma tabela_ignorada_contra :
  let est := [("fisica", mkStats (Some 10) (Some 2)
                           (Some [mkEscoreItem 12 650]))] in
  obter_ep_por_acertos est "fisica" 12 = 650 /\
  exists ac escores_padronizados ep,
    AcUfrgs.calcular_ac_para_curso [("fisica", 12%Z)] [("fisica", 25%Z)]
      est [] 9.98 = Ok (ac, escores_padronizados) /\
    get escores_padronizados "fisica" = Some ep /\
    ep == 600 /\ ~ ep == 650.
Proof.
  intros est. split; [reflexivity|].
  eexists _, _, _. split; [vm_compute; reflexivity|].
  split; [vm_compute; reflexivity|].
  split; [vm_compute; reflexivity|].
  intros H. vm_compute in H. discriminate.
Qed.

End Padronizacao.

(** ** Dictionaries *)

Lemma get_set {V : Type} (d : dict V) (k k' : string) (v : V) :
  get (set d k v) k' = if String.eqb k k' then Some v else get d k'.
Proof.
  induction d as [|[k0 v0] d IH]; simpl.
  - reflexivity.
  - destruct (String.eqb_spec k0 k) as [->|Hk]; simpl.
    + now destruct (String.eqb k k').
    + rewrite IH. destruct (String.eqb_spec k0 k') as [->|Hk'];
        [|reflexivity].
      destruct (String.eqb_spec k k') as [->|_]; [contradiction|reflexivity].
Qed.

(** Writing the default value under a missing key does not change what
    [get_default] reads. *)
Lemma get_default_set_missing {V : Type} (d : dict V) (k k' : string)
  (dflt : V) :
  get d k = None ->
  get_default (set d k dflt) k' dflt = get_default d k' dflt.
Proof.
  intros Hk. unfold get_default. rewrite get_set.
  destruct (String.eqb_spec k k') as [<-|_]; [now rewrite Hk | reflexivity].
Qed.

Lemma filter_nil_all {A : Type} (f : A -> bool) (l : list A) :
  filter f l = [] -> forall x, In x l -> f x = false.
Proof.
  induction l as [|a l IH]; simpl; [intros _ ? []|].
  destruct (f a) eqn:E; [discriminate|].
  intros H x [<-|Hx]; auto.
Qed.

(** ** Weighted harmonic mean *)

Section Agregacao.

Import MediaHarmonicaCursos.

Open Scope Q_scope.

Variable eps : dict Q.

(** A known key whose score is not positive makes the loop return at once. *)
Lemma somar_guarda (itens : list (string * Q)) :
  forall abrev peso materia soma_pesos soma_inversos,
    In (abrev, peso) itens ->
    abrev <> "total" ->
    get mapeamento_abrev abrev = Some materia ->
    get_default eps materia 500 <= 0 ->
    somar eps itens soma_pesos soma_inversos = None.
Proof.
  induction itens as [|[a p] resto IH];
    intros abrev peso materia sp si Hin Ht Hm Hle; [destruct Hin|].
  cbn [somar AcUfrgs.somar filter]. destruct Hin as [[= -> ->]|Hin].
  - destruct (String.eqb_spec abrev "total") as [E|_]; [contradiction|].
    rewrite Hm. apply Qgtb_false in Hle. now rewrite Hle.
  - destruct (String.eqb a "total"); [eauto|].
    destruct (get mapeamento_abrev a) as [m|]; [|eauto].
    destruct (Qgtb (get_default eps m 500) 0); [eauto|reflexivity].
Qed.

(** With no key other than ['total'] both loops leave the sums at 0. *)
Lemma somar_so_total (itens : list (string * Q)) (soma_pesos soma_inversos : Q) :
  pesos_efetivos itens = [] ->
  somar eps itens soma_pesos soma_inversos = Some (soma_pesos, soma_inversos)
  /\ AcUfrgs.somar eps itens soma_pesos soma_inversos
     = (soma_pesos, soma_inversos).
Proof.
  unfold pesos_efetivos.
  induction itens as [|[a p] resto IH]; cbn [somar AcUfrgs.somar filter]; [now split|].
  destruct (String.eqb a "total"); cbn [somar AcUfrgs.somar filter]; [exact IH | discriminate].
Qed.

(** Keys that [mapeamento_abrev] does not know play no part in the loop. *)
Lemma somar_so_conhecidas (itens : list (string * Q)) :
  forall soma_pesos soma_inversos,
    somar eps (so_conhecidas itens) soma_pesos soma_inversos =
    somar eps itens soma_pesos soma_inversos.
Proof.
  unfold so_conhecidas.
  induction itens as [|[a p] resto IH]; intros sp si; cbn [somar AcUfrgs.somar filter]; [reflexivity|].
  unfold mem. destruct (get mapeamento_abrev a) as [m|] eqn:Hm; cbn [somar AcUfrgs.somar filter].
  - rewrite Hm. destruct (String.eqb a "total"); [apply IH|].
    destruct (Qgtb (get_default eps m 500) 0); [apply IH|reflexivity].
  - rewrite IH. now destruct (String.eqb a "total").
Qed.

(** In [calcular_ac_para_curso] a key whose score is not positive plays no
    part in the loop. *)
Lemma ac_somar_so_positivas (itens : list (string * Q)) :
  forall soma_pesos soma_inversos,
    AcUfrgs.somar eps (so_positivas eps itens) soma_pesos soma_inversos =
    AcUfrgs.somar eps itens soma_pesos soma_inversos.
Proof.
  unfold so_positivas.
  induction itens as [|[a p] resto IH]; intros sp si; cbn [somar AcUfrgs.somar filter]; [reflexivity|].
  destruct (Qgtb (get_default eps a 500) 0) eqn:Hpos; cbn [somar AcUfrgs.somar filter].
  - rewrite Hpos. destruct (String.eqb a "total"); apply IH.
  - rewrite IH. now destruct (String.eqb a "total").
Qed.

(** Both loops read the score set through [get_default _ _ 500] only. *)
Lemma somar_ext (eps' : dict Q) (itens : list (string * Q)) :
  (forall k, get_default eps' k 500 = get_default eps k 500) ->
  forall soma_pesos soma_inversos,
    somar eps' itens soma_pesos soma_inversos
    = somar eps itens soma_pesos soma_inversos
    /\ AcUfrgs.somar eps' itens soma_pesos soma_inversos
       = AcUfrgs.somar eps itens soma_pesos soma_inversos.
Proof.
  intros Hext.
  induction itens as [|[a p] resto IH]; intros sp si; cbn [somar AcUfrgs.somar filter]; [now split|].
  destruct (String.eqb a "total"); [apply IH|].
  rewrite !Hext. split.
  - destruct (get mapeamento_abrev a) as [m|]; [|apply IH].
    rewrite Hext.
    destruct (Qgtb (get_default eps m 500) 0); [apply IH|reflexivity].
  - destruct (Qgtb (get_default eps a 500) 0); apply IH.
Qed.

(** Scaling the weights by [c] scales both sums by [c] and does not move
    the early return. *)
Lemma somar_escalar (c : Q) (itens : list (string * Q)) :
  forall sp si sp' si',
    sp' == c * sp -> si' == c * si ->
    match somar eps itens sp si, somar eps (escalar c itens) sp' si' with
    | None, None => True
    | Some (a, b), Some (a', b') => a' == c * a /\ b' == c * b
    | _, _ => False
    end.
Proof.
  induction itens as [|[k p] resto IH]; intros sp si sp' si' Hp Hi;
    cbn [somar escalar map]; [now split|].
  fold (escalar c resto).
  destruct (String.eqb k "total"); [now apply IH|].
  destruct (get mapeamento_abrev k) as [m|]; [|now apply IH].
  destruct (Qgtb (get_default eps m 500) 0); [|exact I].
  apply IH.
  - rewrite Hp. ring.
  - rewrite Hi. unfold Qdiv. ring.
Qed.

Lemma Qgtb_escalar (c b b' : Q) :
  0 < c -> b' == c * b -> Qgtb b' 0 = Qgtb b 0.
Proof.
  intros Hc Hb. destruct (Qgtb b 0) eqn:E.
  - apply Qgtb_true. apply Qgtb_true in E. rewrite Hb.
    rewrite <- (Qmult_0_r c). now apply Qmult_lt_l.
  - apply Qgtb_false. apply Qgtb_false in E. rewrite Hb.
    rewrite <- (Qmult_0_r c). apply Qmult_le_l; assumption.
Qed.

End Agregacao.

Section AgregacaoClaims.

Import MediaHarmonicaCursos.

Open Scope Q_scope.

(** C1 (amended).  [calcular_media_harmonica_ponderada] returns exactly 0.0
    whenever a weight key that it knows (other than ['total']) has a score
    <= 0, and whenever no key is left once ['total'] is skipped.  The loop of
    [calcular_ac_para_curso] returns 0 in the second case; a key whose score
    is <= 0 is left out of both of its sums, so its result is the one of the
    weight table without such keys. *)
Theorem guarda_agregacao (eps pesos : dict Q) :
  ((exists abrev peso materia ep,
      In (abrev, peso) pesos /\ abrev <> "total" /\
      get mapeamento_abrev abrev = Some materia /\
      get eps materia = Some ep /\ ep <= 0) ->
   calcular_media_harmonica_ponderada eps pesos = 0.0) /\
  (pesos_efetivos pesos = [] ->
   calcular_media_harmonica_ponderada eps pesos = 0.0 /\
   AcUfrgs.calcular_ac eps pesos = 0) /\
  AcUfrgs.calcular_ac eps (so_positivas eps pesos) =
  AcUfrgs.calcular_ac eps pesos.
Proof.
  split; [|split].
  - intros (abrev & peso & materia & ep & Hin & Ht & Hm & Hg & Hle).
    unfold calcular_media_harmonica_ponderada.
    rewrite (somar_guarda eps pesos abrev peso materia 0 0 Hin Ht Hm);
      [reflexivity|].
    unfold get_default. now rewrite Hg.
  - intros Hvazio.
    destruct (somar_so_total eps pesos 0 0 Hvazio) as [Hm Ha].
    unfold calcular_media_harmonica_ponderada, AcUfrgs.calcular_ac.
    rewrite Hm, Ha. now split.
  - unfold AcUfrgs.calcular_ac. now rewrite ac_somar_so_positivas.
Qed.

(** Witness of [guarda_agregacao]: a mathematics score of -250, and a table
    that holds the ['total'] key only. *)
Lemma guarda_agregacao_witness :
  calcular_media_harmonica_ponderada
    [("matematica", -250); ("fisica", 600)] [("MAT", 1); ("FIS", 1)] = 0.0 /\
  calcular_media_harmonica_ponderada [("fisica", 600)] [("total", 6)] = 0.0 /\
  AcUfrgs.calcular_ac [("fisica", 600)] [("total", 6)] = 0.
Proof.
  split.
  - apply (proj1 (guarda_agregacao
                    [("matematica", -250); ("fisica", 600)]
                    [("MAT", 1); ("FIS", 1)])).
    exists "MAT", 1, "matematica", (-250).
    repeat split; [now left | discriminate | discriminate].
  - apply (proj1 (proj2 (guarda_agregacao [("fisica", 600)] [("total", 6)]))).
    reflexivity.
Defined.

(** C1, as stated, fails for [calcular_ac_para_curso]: with 0 hits in
    mathematics the score is -250, and the result for the weights
    [{matematica: 1, portugues_redacao: 1}] is 699, the essay score alone. *)
Lemma ac_ignora_ep_negativo_contra :
  exists ac escores_padronizados ep,
    AcUfrgs.calcular_ac_para_curso
      [("matematica", 0%Z)] [("matematica", 30%Z)]
      [("matematica", mkStats (Some 15) (Some 2) None)]
      [("matematica", 1); ("portugues_redacao", 1)] 9.98
    = Ok (ac, escores_padronizados) /\
    get escores_padronizados "matematica" = Some ep /\
    ep <= 0 /\ ac == 699 /\ ~ ac == 0.
Proof.
  eexists _, _, _. split; [vm_compute; reflexivity|].
  split; [vm_compute; reflexivity|].
  split; [vm_compute; discriminate|].
  split; [vm_compute; reflexivity|].
  intros H. vm_compute in H. discriminate.
Qed.

(** C3 (amended).  A weight key that [mapeamento_abrev] does not know is
    skipped, as ['total'] is: [calcular_media_harmonica_ponderada] returns
    the number it returns for the weight table without such keys, and raises
    nothing. *)
Theorem abrev_desconhecida_ignorada (eps pesos : dict Q) :
  calcular_media_harmonica_ponderada eps (so_conhecidas pesos) =
  calcular_media_harmonica_ponderada eps pesos.
Proof.
  unfold calcular_media_harmonica_ponderada.
  now rewrite somar_so_conhecidas.
Qed.

(** C3, as stated, fails: with the unknown key ["XYZ"] in the weight table
    the aggregation returns the number 600. *)
Lemma abrev_desconhecida_contra :
  get mapeamento_abrev "XYZ" = None /\ "XYZ" <> "total" /\
  calcular_media_harmonica_ponderada
    [("matematica", 600)] [("XYZ", 1); ("MAT", 2)] == 600.
Proof.
  split; [reflexivity|]. split; [discriminate|]. vm_compute. reflexivity.
Qed.

(** C8 (amended).  In exact rational arithmetic, multiplying every weight
    of the table by the same positive constant does not change the value
    of [calcular_media_harmonica_ponderada].  The binary64 value that the
    interpreter returns is the rounded one, and is not always the same for
    the two tables. *)
Theorem media_invariante_por_escala (eps pesos : dict Q) (c : Q) :
  0 < c ->
  calcular_media_harmonica_ponderada eps (escalar c pesos) ==
  calcular_media_harmonica_ponderada eps pesos.
Proof.
  intros Hc. unfold calcular_media_harmonica_ponderada.
  assert (H0 : 0 == c * 0) by ring.
  pose proof (somar_escalar eps c pesos 0 0 0 0 H0 H0) as H.
  destruct (somar eps pesos 0 0) as [[a b]|];
    destruct (somar eps (escalar c pesos) 0 0) as [[a' b']|];
    try contradiction; [|reflexivity].
  destruct H as [Ha Hb].
  rewrite (Qgtb_escalar c b b' Hc Hb).
  destruct (Qgtb b 0) eqn:E; [|reflexivity].
  apply Qgtb_true in E.
  rewrite Ha, Hb. field. split.
  - intros Hb0. rewrite Hb0 in E. now apply Qlt_irrefl in E.
  - intros Hc0. rewrite Hc0 in Hc. now apply Qlt_irrefl in Hc.
Qed.

(** Witness of [media_invariante_por_escala]: the weights [{MAT: 2, POR: 1}]
    and the same weights multiplied by 3/7 both give 562.5. *)
Lemma media_invariante_por_escala_witness :
  let eps := [("matematica", 600); ("portugues_redacao", 500)] in
  let pesos := [("MAT", 2); ("POR", 1); ("total", 3)] in
  calcular_media_harmonica_ponderada eps (escalar (3 # 7) pesos) ==
  calcular_media_harmonica_ponderada eps pesos /\
  calcular_media_harmonica_ponderada eps pesos == 562.5.
Proof.
  intros eps pesos. split.
  - apply (media_invariante_por_escala eps pesos (3 # 7)). reflexivity.
  - vm_compute. reflexivity.
Defined.

(** C8, as stated, fails in the arithmetic of the interpreter: with the
    scores 600 and 500, the weights [{MAT: 2, POR: 1}] give
    562.49999999999989 and the same weights multiplied by 3 give 562.5. *)
Lemma escala_binary64_contra :
  let eps := [("matematica", 600); ("portugues_redacao", 500)]%float in
  let pesos := [("MAT", 2); ("POR", 1)]%float in
  Binary64.calcular_media_harmonica_ponderada eps pesos
  = 562.49999999999989%float /\
  Binary64.calcular_media_harmonica_ponderada eps (Binary64.escalar 3 pesos)
  = 562.5%float /\
  PrimFloat.ltb
    (Binary64.calcular_media_harmonica_ponderada eps pesos)
    (Binary64.calcular_media_harmonica_ponderada eps
       (Binary64.escalar 3 pesos))
  = true.
Proof. repeat split; reflexivity. Qed.

(** The loops run through a weight table part by part. *)
Lemma somar_app (eps : dict Q) (l1 l2 : list (string * Q)) :
  forall sp si,
    somar eps (l1 ++ l2) sp si =
    match somar eps l1 sp si with
    | None => None
    | Some (sp1, si1) => somar eps l2 sp1 si1
    end.
Proof.
  induction l1 as [|[k p] l1 IH]; intros sp si; cbn [app somar];
    [reflexivity|].
  destruct (String.eqb k "total"); [apply IH|].
  destruct (get mapeamento_abrev k) as [m|]; [|apply IH].
  destruct (Qgtb (get_default eps m 500) 0); [apply IH | reflexivity].
Qed.

Lemma ac_somar_app (esc : dict Q) (l1 l2 : list (string * Q)) :
  forall sp si,
    AcUfrgs.somar esc (l1 ++ l2) sp si =
    let '(sp1, si1) := AcUfrgs.somar esc l1 sp si in
    AcUfrgs.somar esc l2 sp1 si1.
Proof.
  induction l1 as [|[k p] l1 IH]; intros sp si; cbn [app AcUfrgs.somar];
    [reflexivity|].
  destruct (String.eqb k "total"); [apply IH|].
  destruct (Qgtb (get_default esc k 500) 0); apply IH.
Qed.

(** C9 (amended).  Wherever it stands in the weight table, a weight key
    other than ['total'] whose subject has no entry in the score set is not
    left out: it adds its weight to the sum of weights and weight / 500 to
    the sum of inverses, and the result is the quotient of the sums so
    obtained, the same as with the score 500 written under the missing
    subject.  This holds in [calcular_ac_para_curso] for every key, the
    subject being the key itself, and in
    [calcular_media_harmonica_ponderada] for the keys that
    [mapeamento_abrev] knows; a key that [mapeamento_abrev] does not know
    has no subject there and is left out of both sums. *)
Theorem materia_ausente_contribui_500 (eps : dict Q)
  (antes depois : list (string * Q)) (chave : string) (peso : Q) :
  chave <> "total" ->
  (forall materia,
     get mapeamento_abrev chave = Some materia ->
     get eps materia = None ->
     (forall soma_pesos soma_inversos,
        somar eps (antes ++ (chave, peso) :: depois) soma_pesos soma_inversos
        = match somar eps antes soma_pesos soma_inversos with
          | None => None
          | Some (sp1, si1) =>
              somar eps depois (sp1 + peso) (si1 + peso / 500)
          end) /\
     calcular_media_harmonica_ponderada eps
       (antes ++ (chave, peso) :: depois)
     = match somar eps antes 0 0 with
       | None => 0.0
       | Some (sp1, si1) =>
           match somar eps depois (sp1 + peso) (si1 + peso / 500) with
           | None => 0.0
           | Some (sp, si) => if Qgtb si 0 then sp / si else 0.0
           end
       end /\
     (forall pesos,
        calcular_media_harmonica_ponderada (set eps materia 500) pesos =
        calcular_media_harmonica_ponderada eps pesos)) /\
  (get mapeamento_abrev chave = None ->
   (forall soma_pesos soma_inversos,
      somar eps (antes ++ (chave, peso) :: depois) soma_pesos soma_inversos
      = somar eps (antes ++ depois) soma_pesos soma_inversos) /\
   calcular_media_harmonica_ponderada eps
     (antes ++ (chave, peso) :: depois)
   = calcular_media_harmonica_ponderada eps (antes ++ depois)) /\
  (get eps chave = None ->
   (forall soma_pesos soma_inversos,
      AcUfrgs.somar eps (antes ++ (chave, peso) :: depois)
        soma_pesos soma_inversos
      = let '(sp1, si1) :=
          AcUfrgs.somar eps antes soma_pesos soma_inversos in
        AcUfrgs.somar eps depois (sp1 + peso) (si1 + peso / 500)) /\
   AcUfrgs.calcular_ac eps (antes ++ (chave, peso) :: depois)
   = (let '(sp1, si1) := AcUfrgs.somar eps antes 0 0 in
      let '(sp, si) :=
        AcUfrgs.somar eps depois (sp1 + peso) (si1 + peso / 500) in
      if Qgtb si 0 then sp / si else 0) /\
   (forall pesos,
      AcUfrgs.calcular_ac (set eps chave 500) pesos =
      AcUfrgs.calcular_ac eps pesos)).
Proof.
  intros Ht.
  assert (Et : String.eqb chave "total" = false)
    by (destruct (String.eqb_spec chave "total"); [contradiction|reflexivity]).
  split; [|split].
  - intros materia Hm Hnone.
    assert (Hd : get_default eps materia 500 = 500)
      by (unfold get_default; now rewrite Hnone).
    assert (Hs : forall sp si,
              somar eps (antes ++ (chave, peso) :: depois) sp si =
              match somar eps antes sp si with
              | None => None
              | Some (sp1, si1) =>
                  somar eps depois (sp1 + peso) (si1 + peso / 500)
              end).
    { intros sp si. rewrite somar_app.
      destruct (somar eps antes sp si) as [[sp1 si1]|]; [|reflexivity].
      cbn [somar]. now rewrite Et, Hm, Hd. }
    split; [exact Hs|]. split.
    + unfold calcular_media_harmonica_ponderada. rewrite Hs.
      now destruct (somar eps antes 0 0) as [[sp1 si1]|].
    + intros pesos. unfold calcular_media_harmonica_ponderada.
      now rewrite (proj1 (somar_ext eps (set eps materia 500) pesos
                            (fun k => get_default_set_missing eps materia k
                                        500 Hnone) 0 0)).
  - intros Hm.
    assert (Hs : forall sp si,
              somar eps (antes ++ (chave, peso) :: depois) sp si =
              somar eps (antes ++ depois) sp si).
    { intros sp si. rewrite !somar_app.
      destruct (somar eps antes sp si) as [[sp1 si1]|]; [|reflexivity].
      cbn [somar]. now rewrite Et, Hm. }
    split; [exact Hs|].
    unfold calcular_media_harmonica_ponderada. now rewrite Hs.
  - intros Hnone.
    assert (Hd : get_default eps chave 500 = 500)
      by (unfold get_default; now rewrite Hnone).
    assert (Hs : forall sp si,
              AcUfrgs.somar eps (antes ++ (chave, peso) :: depois) sp si =
              let '(sp1, si1) := AcUfrgs.somar eps antes sp si in
              AcUfrgs.somar eps depois (sp1 + peso) (si1 + peso / 500)).
    { intros sp si. rewrite ac_somar_app.
      destruct (AcUfrgs.somar eps antes sp si) as [sp1 si1].
      cbn [AcUfrgs.somar]. now rewrite Et, Hd. }
    split; [exact Hs|]. split.
    + unfold AcUfrgs.calcular_ac. rewrite Hs.
      destruct (AcUfrgs.somar eps antes 0 0) as [sp1 si1].
      reflexivity.
    + intros pesos. unfold AcUfrgs.calcular_ac.
      now rewrite (proj2 (somar_ext eps (set eps chave 500) pesos
                            (fun k => get_default_set_missing eps chave k
                                        500 Hnone) 0 0)).
Qed.

(** Witness of [materia_ausente_contribui_500]: physics has no score and
    stands between two keys of the weight table; the sums that the loop
    holds after it are those of the mathematics term and of the physics
    term at 500. *)
Lemma materia_ausente_contribui_500_witness :
  let eps := [("matematica", 250)] in
  somar eps ([("MAT", 1)] ++ ("FIS", 2) :: [("total", 3)]) 0 0
  = Some (0 + 1 + 2, 0 + 1 / 250 + 2 / 500) /\
  AcUfrgs.somar eps ([("matematica", 1)] ++ ("fisica", 2) :: []) 0 0
  = (0 + 1 + 2, 0 + 1 / 250 + 2 / 500).
Proof.
  intros eps.
  assert (Ht1 : "FIS" <> "total") by discriminate.
  assert (Ht2 : "fisica" <> "total") by discriminate.
  split.
  - rewrite (proj1 (proj1 (materia_ausente_contribui_500 eps
                             [("MAT", 1)] [("total", 3)] "FIS" 2 Ht1)
                      "fisica" eq_refl eq_refl)).
    reflexivity.
  - rewrite (proj1 (proj2 (proj2 (materia_ausente_contribui_500 eps
                                    [("matematica", 1)] [] "fisica" 2 Ht2))
                      eq_refl)).
    reflexivity.
Defined.

(** C9, as stated, fails for a key that [mapeamento_abrev] does not know:
    the key ["XYZ"] is not ['total'] and no subject of it has a score, yet
    it adds nothing to the sums, and the result is the one of the weight
    table without it. *)
Lemma abrev_desconhecida_omitida_contra :
  let eps := [("matematica", 250)] in
  "XYZ" <> "total" /\
  get mapeamento_abrev "XYZ" = None /\ get eps "XYZ" = None /\
  somar eps [("XYZ", 1)] 0 0 = Some (0, 0) /\
  somar eps [("XYZ", 1)] 0 0 <> Some (0 + 1, 0 + 1 / 500) /\
  calcular_media_harmonica_ponderada eps [("MAT", 1); ("XYZ", 1)] =
  calcular_media_harmonica_ponderada eps [("MAT", 1)].
Proof.
  intros eps. repeat split; try reflexivity; discriminate.
Qed.

End AgregacaoClaims.

(** ** Cutoff resolution *)

Section NotaCorte.

Import VerificarAprovacao.

Open Scope Q_scope.

Lemma prefix_append (p s : string) :
  prefix p s = true <-> exists b, s = (p ++ b)%string.
Proof.
  revert s. induction p as [|c p IH]; intros s.
  - split; [intros _; now exists s | intros _; now destruct s].
  - destruct s as [|d s]; simpl.
    + split; [discriminate | intros [b Hb]; discriminate].
    + destruct (ascii_dec c d) as [->|Hcd].
      * rewrite IH. split; intros [b Hb]; exists b.
        -- now rewrite Hb.
        -- now injection Hb.
      * split; [discriminate|]. intros [b Hb]. injection Hb as Hc _.
        symmetry in Hc. contradiction.
Qed.

(** [str_in p s] is Python's [p in s]: [s] is some text, then [p], then
    some text. *)
Lemma str_in_append (p s : string) :
  str_in p s = true <-> exists a b, s = (a ++ p ++ b)%string.
Proof.
  induction s as [|d s IH]; cbn [str_in].
  - destruct (prefix p "") eqn:E.
    + split; [intros _|reflexivity].
      apply prefix_append in E as [b Hb]. now exists "", b.
    + split; [discriminate|]. intros (a & b & H).
      destruct a; [|discriminate]. simpl in H.
      assert (prefix p "" = true) by (apply prefix_append; now exists b).
      congruence.
  - destruct (prefix p (String d s)) eqn:E.
    + split; [intros _|reflexivity].
      apply prefix_append in E as [b Hb]. now exists "", b.
    + rewrite IH. split.
      * intros (a & b & ->). now exists (String d a), b.
      * intros (a & b & H). destruct a as [|d' a]; simpl in H.
        -- assert (prefix p (String d s) = true)
             by (apply prefix_append; now exists b).
           congruence.
        -- injection H as _ ->. now exists a, b.
Qed.

(** The loop returns the first entry whose key contains [padrao]. *)
Lemma buscar_achado (padrao : string) (itens : list (string * Q)) :
  (exists k v, In (k, v) itens /\ str_in padrao k = true) ->
  exists antes k v depois,
    itens = antes ++ (k, v) :: depois /\
    str_in padrao k = true /\
    (forall k' v', In (k', v') antes -> str_in padrao k' = false) /\
    buscar padrao itens = (Some k, Some v).
Proof.
  induction itens as [|[k0 v0] resto IH]; intros (k & v & Hin & Hs).
  - destruct Hin.
  - cbn [buscar]. destruct (str_in padrao k0) eqn:E0.
    + exists [], k0, v0, resto. repeat split; auto. intros ? ? [].
    + destruct Hin as [[= -> ->]|Hin]; [congruence|].
      destruct IH as (antes & k1 & v1 & depois & -> & Hk1 & Hantes & Hb);
        [now exists k, v|].
      exists ((k0, v0) :: antes), k1, v1, depois. repeat split; auto.
      intros k' v' [[= <- <-]|H']; eauto.
Qed.

(** The loop ends without a match exactly when no key contains [padrao]. *)
Lemma buscar_ausente (padrao : string) (itens : list (string * Q)) :
  buscar padrao itens = (None, None) <->
  forall k v, In (k, v) itens -> str_in padrao k = false.
Proof.
  induction itens as [|[k0 v0] resto IH]; cbn [buscar].
  - split; [intros _ ? ? [] | reflexivity].
  - destruct (str_in padrao k0) eqn:E0.
    + split; [discriminate|]. intros H.
      rewrite (H k0 v0 (or_introl eq_refl)) in E0. discriminate.
    + rewrite IH. split.
      * intros H k v [[= <- <-]|Hin]; eauto.
      * intros H k v Hin. apply (H k v). now right.
Qed.

(** C7.  [mapear_curso_nota_corte] returns the absent pair [(None, None)]
    exactly when the short name is not a key of [mapeamento_especial], or
    [mapeamento_especial] maps it to [None], or no key of the cutoff table
    contains the alias as a substring; in every other case it returns the
    first key of the cutoff table, in iteration order, that contains the
    alias, with the cutoff of that key. *)
Theorem resolucao_nota_corte (nome_curso_pesos : string)
  (notas_corte : dict Q) :
  (mapear_curso_nota_corte nome_curso_pesos notas_corte = (None, None) <->
   get mapeamento_especial nome_curso_pesos = None \/
   get mapeamento_especial nome_curso_pesos = Some None \/
   exists padrao,
     get mapeamento_especial nome_curso_pesos = Some (Some padrao) /\
     forall k v, In (k, v) notas_corte -> str_in padrao k = false) /\
  (forall padrao,
     get mapeamento_especial nome_curso_pesos = Some (Some padrao) ->
     (exists k v, In (k, v) notas_corte /\ str_in padrao k = true) ->
     exists antes k v depois,
       notas_corte = antes ++ (k, v) :: depois /\
       str_in padrao k = true /\
       (forall k' v', In (k', v') antes -> str_in padrao k' = false) /\
       mapear_curso_nota_corte nome_curso_pesos notas_corte
       = (Some k, Some v)).
Proof.
  unfold mapear_curso_nota_corte, get_default.
  destruct (get mapeamento_especial nome_curso_pesos) as [[padrao|]|].
  - split.
    + rewrite buscar_ausente. split.
      * intros H. right. right. now exists padrao.
      * intros [H|[H|(p & [= <-] & H)]]; [discriminate..|exact H].
    + intros p [= <-]. apply buscar_achado.
  - split; [|discriminate]. split; auto.
  - split; [|discriminate]. split; auto.
Qed.

(** The cutoff table of the examples: two keys contain the alias of
    ["Direito (N)"]. *)
Example resolucao_exemplo :
  mapear_curso_nota_corte "Direito (N)"
    [ ("Medicina (Integral)", 780.5);
      ("Ciências Jurídicas e Sociais – Direito (Noturno) A", 701.25);
      ("Ciências Jurídicas e Sociais – Direito (Noturno) B", 699) ]
  = (Some "Ciências Jurídicas e Sociais – Direito (Noturno) A", Some 701.25).
Proof. reflexivity. Qed.

(** Witness of [resolucao_nota_corte]: ["Direito (N)"] resolves to a key
    that contains its alias and that no matching key precedes, ["Teatro"] is
    marked as unavailable, and ["Agronomia"] finds no key. *)
Lemma resolucao_nota_corte_witness :
  let notas :=
    [ ("Medicina (Integral)", 780.5);
      ("Ciências Jurídicas e Sociais – Direito (Noturno) A", 701.25);
      ("Ciências Jurídicas e Sociais – Direito (Noturno) B", 699) ] in
  let padrao := "Ciências Jurídicas e Sociais – Direito (Noturno" in
  (exists antes k v depois,
     notas = antes ++ (k, v) :: depois /\
     str_in padrao k = true /\
     (forall k' v', In (k', v') antes -> str_in padrao k' = false) /\
     mapear_curso_nota_corte "Direito (N)" notas = (Some k, Some v)) /\
  mapear_curso_nota_corte "Teatro" notas = (None, None) /\
  mapear_curso_nota_corte "Agronomia" notas = (None, None).
Proof.
  intros notas padrao. split; [|split].
  - apply (proj2 (resolucao_nota_corte "Direito (N)" notas) padrao eq_refl).
    exists "Ciências Jurídicas e Sociais – Direito (Noturno) B", 699.
    split; [right; right; now left | reflexivity].
  - apply (proj1 (resolucao_nota_corte "Teatro" notas)).
    right. left. reflexivity.
  - apply (proj1 (resolucao_nota_corte "Agronomia" notas)).
    right. right. exists "Agronomia (Integral)". split; [reflexivity|].
    intros k v [[= <- <-]|[[= <- <-]|[[= <- <-]|[]]]]; reflexivity.
Defined.

End NotaCorte.

(** ** Classification against the cutoff *)

Section Classificacao.

Import VerificarAprovacao.

Open Scope Q_scope.

Variables (notas_corte : dict Q) (listas : Listas) (curso : string) (mh : Q).

(** A program without a resolved cutoff goes to [sem_nota_corte]. *)
Lemma classificar_ausente :
  mapear_curso_nota_corte curso notas_corte = (None, None) ->
  classificar notas_corte listas curso mh =
  mkListas (aprovados listas) (reprovados listas)
           (sem_nota_corte listas ++ [(curso, mh)]).
Proof. unfold classificar. now intros ->. Qed.

(** A program whose resolved cutoff is not 0 is approved when the score
    reaches the cutoff and rejected otherwise. *)
Lemma classificar_corte_nao_nulo (curso_completo : string) (nota_corte : Q) :
  mapear_curso_nota_corte curso notas_corte
  = (Some curso_completo, Some nota_corte) ->
  curso_completo <> "" ->
  ~ nota_corte == 0 ->
  classificar notas_corte listas curso mh =
  if Qle_bool nota_corte mh
  then mkListas
         (aprovados listas ++
            [(curso, curso_completo, mh, nota_corte, mh - nota_corte)])
         (reprovados listas) (sem_nota_corte listas)
  else mkListas
         (aprovados listas)
         (reprovados listas ++
            [(curso, curso_completo, mh, nota_corte, mh - nota_corte)])
         (sem_nota_corte listas).
Proof.
  intros Hm Hc Hn. unfold classificar. rewrite Hm.
  unfold truthy_str, truthy_num.
  destruct (String.eqb_spec curso_completo "") as [E|_]; [contradiction|].
  destruct (Qeq_bool nota_corte 0) eqn:E; [|reflexivity].
  apply Qeq_bool_true in E. contradiction.
Qed.

(** A program whose resolved cutoff is 0 goes to [sem_nota_corte], whatever
    its score. *)
Lemma classificar_corte_nulo (curso_completo : string) (nota_corte : Q) :
  mapear_curso_nota_corte curso notas_corte
  = (Some curso_completo, Some nota_corte) ->
  nota_corte == 0 ->
  classificar notas_corte listas curso mh =
  mkListas (aprovados listas) (reprovados listas)
           (sem_nota_corte listas ++ [(curso, mh)]).
Proof.
  intros Hm Hn. unfold classificar. rewrite Hm.
  unfold truthy_num. apply Qeq_bool_true in Hn. rewrite Hn.
  now rewrite andb_false_r.
Qed.

(** Every alias of [mapeamento_especial] is a non-empty text. *)
Lemma padrao_nao_vazio (nome padrao : string) :
  get mapeamento_especial nome = Some (Some padrao) -> padrao <> "".
Proof.
  assert (Hall : forallb (fun e => match snd e with
                                   | Some p => negb (String.eqb p "")
                                   | None => true
                                   end) mapeamento_especial = true)
    by (vm_compute; reflexivity).
  revert Hall. generalize mapeamento_especial as d.
  induction d as [|[k0 v0] d IH]; cbn [get forallb snd]; [discriminate|].
  intros Hall. apply andb_prop in Hall as [H0 Hd].
  destruct (String.eqb k0 nome); [|now apply IH].
  intros [= ->]. intros ->. discriminate.
Qed.

(** What [mapear_curso_nota_corte] returns: the absent pair, or a key of the
    cutoff table, which is not the empty text, with its cutoff. *)
Lemma mapear_curso_nota_corte_forma :
  mapear_curso_nota_corte curso notas_corte = (None, None) \/
  exists curso_completo nota_corte,
    mapear_curso_nota_corte curso notas_corte
    = (Some curso_completo, Some nota_corte) /\
    In (curso_completo, nota_corte) notas_corte /\
    curso_completo <> "".
Proof.
  unfold mapear_curso_nota_corte, get_default.
  destruct (get mapeamento_especial curso) as [[padrao|]|] eqn:Hg;
    [|now left..].
  apply padrao_nao_vazio in Hg.
  induction notas_corte as [|[k v] resto IH]; cbn [buscar]; [now left|].
  destruct (str_in padrao k) eqn:Hs.
  - right. exists k, v. split; [reflexivity|]. split; [now left|].
    intros ->. destruct padrao; [contradiction | discriminate].
  - destruct IH as [IH|(cc & nc & IH & Hin & Hcc)]; [now left|].
    right. exists cc, nc. split; [exact IH|]. split; [now right | exact Hcc].
Qed.

(** The program is appended to one list, and to one only. *)
Lemma classificar_um_destino :
  let r := classificar notas_corte listas curso mh in
  (List.length (aprovados r) + List.length (reprovados r)
   + List.length (sem_nota_corte r)
   = S (List.length (aprovados listas) + List.length (reprovados listas)
        + List.length (sem_nota_corte listas)))%nat.
Proof.
  cbv zeta. unfold classificar.
  destruct (mapear_curso_nota_corte curso notas_corte) as [[cc|] [nc|]];
    try destruct (truthy_str (Some cc) && truthy_num (Some nc));
    try destruct (Qle_bool nc mh);
    cbn [aprovados reprovados sem_nota_corte];
    rewrite ?length_app; simpl; lia.
Qed.

End Classificacao.

Section ClassificacaoClaims.

Import VerificarAprovacao.

Open Scope Q_scope.

(** C6 (amended).  For every program, [main] appends it to exactly one of
    the three lists: to [aprovados] exactly when a cutoff other than 0 is
    resolved and the score is >= the cutoff, to [reprovados] exactly when a
    cutoff other than 0 is resolved and the score is < the cutoff, and to
    [sem_nota_corte] exactly when no cutoff is resolved or the resolved
    cutoff is 0. *)
Theorem classificacao_por_nota_corte (notas_corte : dict Q) (listas : Listas)
  (curso : string) (mh : Q) :
  (exists curso_completo nota_corte,
     mapear_curso_nota_corte curso notas_corte
     = (Some curso_completo, Some nota_corte) /\
     ~ nota_corte == 0 /\ nota_corte <= mh /\
     classificar notas_corte listas curso mh =
     mkListas
       (aprovados listas ++
          [(curso, curso_completo, mh, nota_corte, mh - nota_corte)])
       (reprovados listas) (sem_nota_corte listas)) \/
  (exists curso_completo nota_corte,
     mapear_curso_nota_corte curso notas_corte
     = (Some curso_completo, Some nota_corte) /\
     ~ nota_corte == 0 /\ mh < nota_corte /\
     classificar notas_corte listas curso mh =
     mkListas
       (aprovados listas)
       (reprovados listas ++
          [(curso, curso_completo, mh, nota_corte, mh - nota_corte)])
       (sem_nota_corte listas)) \/
  ((mapear_curso_nota_corte curso notas_corte = (None, None) \/
    exists curso_completo nota_corte,
      mapear_curso_nota_corte curso notas_corte
      = (Some curso_completo, Some nota_corte) /\ nota_corte == 0) /\
   classificar notas_corte listas curso mh =
   mkListas (aprovados listas) (reprovados listas)
            (sem_nota_corte listas ++ [(curso, mh)])).
Proof.
  destruct (mapear_curso_nota_corte_forma notas_corte curso)
    as [Hn|(cc & nc & Hm & _ & Hcc)].
  - right. right. split; [now left|]. now apply classificar_ausente.
  - destruct (Qeq_dec nc 0) as [Hz|Hnz].
    + right. right. split; [right; now exists cc, nc|].
      now apply (classificar_corte_nulo notas_corte listas curso mh cc nc).
    + pose proof (classificar_corte_nao_nulo notas_corte listas curso mh
                    cc nc Hm Hcc Hnz) as Hc.
      destruct (Qle_bool nc mh) eqn:Hle.
      * left. exists cc, nc. apply Qle_bool_iff in Hle. auto.
      * right. left. exists cc, nc.
        assert (Hlt : mh < nc).
        { apply Qgtb_true. unfold Qgtb. now rewrite Hle. }
        auto.
Qed.

(** Each program of the loop lands in one list: the three lists together
    have one entry per program. *)
Lemma classificar_cursos_total (notas_corte : dict Q)
  (cursos : list (string * Q)) :
  let r := classificar_cursos notas_corte cursos in
  (List.length (aprovados r) + List.length (reprovados r)
   + List.length (sem_nota_corte r) = List.length cursos)%nat.
Proof.
  unfold classificar_cursos.
  assert (H : forall l,
            let r := fold_left
                       (fun listas '(curso, mh) =>
                          classificar notas_corte listas curso mh)
                       cursos l in
            (List.length (aprovados r) + List.length (reprovados r)
             + List.length (sem_nota_corte r)
             = List.length (aprovados l) + List.length (reprovados l)
               + List.length (sem_nota_corte l) + List.length cursos)%nat).
  { induction cursos as [|[curso mh] resto IH]; intros l; cbn [fold_left].
    - simpl. lia.
    - cbv zeta in IH |- *. rewrite IH. clear IH.
      pose proof (classificar_um_destino notas_corte l curso mh) as H.
      cbv zeta in H. cbn [List.length]. lia. }
  cbv zeta in H |- *. rewrite H. simpl. lia.
Qed.

(** C6, as stated, fails when the resolved cutoff is 0.  The cutoff table
    gives ["Biomedicina"] the cutoff 0, [mapear_curso_nota_corte] resolves
    it, and the score 550 is >= 0; the program ends in [sem_nota_corte] and
    not in [aprovados]. *)
Lemma corte_zero_contra :
  let notas_corte := [("Biomedicina", 0)] in
  mapear_curso_nota_corte "Biomedicina" notas_corte
  = (Some "Biomedicina", Some 0) /\
  0 <= 550 /\
  classificar_cursos notas_corte [("Biomedicina", 550)]
  = mkListas [] [] [("Biomedicina", 550)].
Proof.
  split; [reflexivity|]. split; [discriminate | reflexivity].
Qed.

End ClassificacaoClaims.

(** ** Counting the hits of each subject *)

Section Contagem.

Lemma fold_left_ext_in {A B : Type} (f g : A -> B -> A) (l : list B) :
  (forall a x, In x l -> f a x = g a x) ->
  forall a, fold_left f l a = fold_left g l a.
Proof.
  induction l as [|x l IH]; intros H a; simpl; [reflexivity|].
  rewrite (H a x (or_introl eq_refl)). apply IH.
  intros a' y Hy. apply H. now right.
Qed.

(** On a question of the list, the day test of [calcular_ac_ufrgs.py] is
    [1 <= q <= 60]. *)
Lemma dia_1_p_spec (questoes : list Z) (q : Z) :
  In q questoes ->
  AcUfrgs.dia_1_p questoes q = ((1 <=? q)%Z && (q <=? 60)%Z).
Proof.
  intros Hq. unfold AcUfrgs.dia_1_p. apply eq_true_iff_eq.
  rewrite existsb_exists. split.
  - intros (num & Hnum & Ht). apply filter_In in Hnum as [_ E].
    apply Z.eqb_eq in E. now subst num.
  - intros Ht. exists q. split; [|exact Ht].
    apply filter_In. split; [exact Hq | apply Z.eqb_refl].
Qed.

Lemma contar_questoes_iguais (iguais_p1 iguais_p2 questoes : list Z) :
  (forall q, In q questoes -> (1 <= q)%Z) ->
  AcUfrgs.contar_questoes iguais_p1 iguais_p2 questoes =
  MediaHarmonicaCursos.contar_questoes iguais_p1 iguais_p2 questoes.
Proof.
  intros Hpos. unfold AcUfrgs.contar_questoes,
    MediaHarmonicaCursos.contar_questoes.
  apply fold_left_ext_in. intros acertos q Hq.
  rewrite (dia_1_p_spec questoes q Hq).
  apply Hpos, Z.leb_le in Hq. now rewrite Hq.
Qed.

(** C10.  On a mapping whose question numbers are all >= 1, the two
    [contar_acertos_por_materia] return the same counts for every answer
    record. *)
Theorem contar_acertos_iguais (results_llm : ResultsLLM)
  (mapeamento_questoes : dict (list Z)) :
  (forall materia questoes q,
     In (materia, questoes) mapeamento_questoes -> In q questoes ->
     (1 <= q)%Z) ->
  AcUfrgs.contar_acertos_por_materia results_llm mapeamento_questoes =
  MediaHarmonicaCursos.contar_acertos_por_materia results_llm
    mapeamento_questoes.
Proof.
  intros Hpos. unfold AcUfrgs.contar_acertos_por_materia,
    MediaHarmonicaCursos.contar_acertos_por_materia.
  apply map_ext_in. intros [materia questoes] Hin. f_equal.
  apply contar_questoes_iguais. intros q Hq. exact (Hpos _ _ _ Hin Hq).
Qed.

(** Witness of [contar_acertos_iguais]: questions 59 to 62 of one subject,
    with 59 and 61 right on day 1 and 60, 61 and 62 right on day 2. *)
Lemma contar_acertos_iguais_witness :
  let results_llm :=
    mkResultsLLM (Some (mkProva (Some [59; 61]%Z)))
                 (Some (mkProva (Some [60; 61; 62]%Z))) in
  let mapeamento := [("matematica", [59; 60; 61; 62]%Z)] in
  AcUfrgs.contar_acertos_por_materia results_llm mapeamento =
  MediaHarmonicaCursos.contar_acertos_por_materia results_llm mapeamento /\
  MediaHarmonicaCursos.contar_acertos_por_materia results_llm mapeamento =
  [("matematica", 3%Z)].
Proof.
  intros results_llm mapeamento. split; [|reflexivity].
  apply (contar_acertos_iguais results_llm mapeamento).
  intros materia questoes q [[= <- <-]|[]] Hq. simpl in Hq. lia.
Defined.

(** The bound of C10 is needed: question 0 is a day-2 question for
    [calcular_ac_ufrgs.py] and a day-1 question for
    [calcular_media_harmonica_cursos.py]. *)
Example contar_acertos_questao_zero :
  let results_llm := mkResultsLLM (Some (mkProva (Some [0%Z]))) None in
  AcUfrgs.contar_acertos_por_materia results_llm [("matematica", [0%Z])]
  = [("matematica", 0%Z)] /\
  MediaHarmonicaCursos.contar_acertos_por_materia results_llm
    [("matematica", [0%Z])]
  = [("matematica", 1%Z)].
Proof. split; reflexivity. Qed.

End Contagem.

(** ** The map from subjects to questions *)

Section Mapeamento.

Lemma In_py_range (a b q : Z) : In q (py_range a b) <-> (a <= q < b)%Z.
Proof.
  unfold py_range. rewrite in_map_iff. split.
  - intros (i & <- & Hi). apply in_seq in Hi. lia.
  - intros Hq. exists (Z.to_nat (q - a)). split; [lia|].
    apply in_seq. lia.
Qed.

Lemma In_keys_get {V : Type} (d : dict V) (k : string) :
  In k (keys d) <-> exists v, get d k = Some v.
Proof.
  unfold keys. induction d as [|[k0 v0] d IH]; simpl.
  - split; [intros [] | intros [v Hv]; discriminate].
  - destruct (String.eqb_spec k0 k) as [->|Hk].
    + split; [intros _; now exists v0 | now left].
    + rewrite <- IH. split; [intros [E|H]; [contradiction|exact H] | now right].
Qed.

Lemma keys_set_present {V : Type} (d : dict V) (k : string) (v : V) :
  In k (keys d) -> keys (set d k v) = keys d.
Proof.
  unfold keys. induction d as [|[k0 v0] d IH]; simpl; [intros []|].
  destruct (String.eqb_spec k0 k) as [->|Hk]; simpl; [reflexivity|].
  intros [E|H]; [contradiction|]. now rewrite IH.
Qed.

Lemma questoes_de_cons (k k0 : string) (item : Distribuicao)
  (es : list (string * Distribuicao)) :
  questoes_de k ((k0, item) :: es) =
  if String.eqb k0 k
  then py_range (inicio item) (fim item + 1) ++ questoes_de k es
  else questoes_de k es.
Proof.
  unfold questoes_de. simpl. now destruct (String.eqb k0 k).
Qed.

Lemma questoes_de_app (k : string) (es es' : list (string * Distribuicao)) :
  questoes_de k (es ++ es') = questoes_de k es ++ questoes_de k es'.
Proof.
  unfold questoes_de. now rewrite filter_app, map_app, concat_app.
Qed.

Lemma In_questoes_de (k : string) (es : list (string * Distribuicao))
  (q : Z) :
  In q (questoes_de k es) <->
  exists item, In (k, item) es /\ reivindica item q.
Proof.
  unfold questoes_de, reivindica. rewrite in_concat. split.
  - intros (l & Hl & Hq). apply in_map_iff in Hl as ([k0 item] & <- & He).
    apply filter_In in He as [He Hk]. simpl in *.
    apply String.eqb_eq in Hk. subst k0. apply In_py_range in Hq.
    exists item. split; [exact He | lia].
  - intros (item & He & Hq).
    exists (py_range (inicio item) (fim item + 1)). split.
    + apply in_map_iff. exists (k, item). split; [reflexivity|].
      apply filter_In. split; [exact He | apply String.eqb_refl].
    + apply In_py_range. lia.
Qed.

(** One day's loop succeeds when every entry is filed under a key of the
    map, and appends to each key the ranges of its entries. *)
Lemma mapear_dia_ok (chave : Distribuicao -> string)
  (itens : list Distribuicao) :
  forall m,
    (forall item, In item itens -> In (chave item) (keys m)) ->
    exists m',
      mapear_dia chave itens m = Ok m' /\
      keys m' = keys m /\
      forall k l, get m k = Some l ->
        get m' k =
        Some (l ++ questoes_de k (map (fun item => (chave item, item)) itens)).
Proof.
  induction itens as [|item resto IH]; intros m Hk.
  - exists m. repeat split. intros k l Hl.
    unfold questoes_de. simpl. now rewrite app_nil_r.
  - cbn [mapear_dia]. unfold extend, index.
    destruct (proj1 (In_keys_get m (chave item)) (Hk item (or_introl eq_refl)))
      as [l0 Hl0].
    rewrite Hl0. cbn [bind].
    set (m1 := set m (chave item)
                 (l0 ++ py_range (inicio item) (fim item + 1))).
    assert (Hkeys : keys m1 = keys m).
    { apply keys_set_present. apply In_keys_get. now exists l0. }
    destruct (IH m1) as (m' & Hm' & Hkm' & Hget).
    { intros it Hit. rewrite Hkeys. apply Hk. now right. }
    exists m'. split; [exact Hm'|]. split; [congruence|].
    intros k l Hl. cbn [map]. rewrite questoes_de_cons.
    destruct (String.eqb_spec (chave item) k) as [E|E].
    + rewrite (Hget k (l0 ++ py_range (inicio item) (fim item + 1))).
      * rewrite E in Hl0. rewrite Hl0 in Hl. injection Hl as ->.
        now rewrite app_assoc.
      * unfold m1. rewrite get_set, E. now rewrite String.eqb_refl.
    + apply Hget. unfold m1. rewrite get_set.
      destruct (String.eqb_spec (chave item) k); [contradiction|exact Hl].
Qed.

(** One day's loop stops with [KeyError] at the first entry filed under a
    key that the map does not have. *)
Lemma mapear_dia_KeyError (chave : Distribuicao -> string)
  (itens : list Distribuicao) :
  forall m,
    (exists item, In item itens /\ ~ In (chave item) (keys m)) ->
    exists k, mapear_dia chave itens m = Raise (KeyError k) /\
              ~ In k (keys m).
Proof.
  induction itens as [|item resto IH]; intros m (it & Hit & Hk).
  - destruct Hit.
  - cbn [mapear_dia]. unfold extend, index.
    destruct (get m (chave item)) as [l0|] eqn:Hl0; cbn [bind].
    + assert (Hkeys : keys (set m (chave item)
                         (l0 ++ py_range (inicio item) (fim item + 1)))
                      = keys m).
      { apply keys_set_present. apply In_keys_get. now exists l0. }
      destruct Hit as [<-|Hit].
      * elim Hk. apply In_keys_get. now exists l0.
      * destruct (IH (set m (chave item)
                        (l0 ++ py_range (inicio item) (fim item + 1))))
          as (k & Hr & Hnk).
        { exists it. split; [exact Hit | now rewrite Hkeys]. }
        exists k. split; [exact Hr | now rewrite <- Hkeys].
    + exists (chave item). split; [reflexivity|].
      intros Hin. apply In_keys_get in Hin as [v Hv]. congruence.
Qed.

(** Either every entry of day 1 is filed under a key of the initial map, or
    one of them is not. *)
Lemma chaves_dia1_dec (info : EstruturaProva) :
  (forall item, In item (dia_1 info) ->
                In (chave_dia1 item) (keys mapeamento_inicial)) \/
  (exists item, In item (dia_1 info) /\
                ~ In (chave_dia1 item) (keys mapeamento_inicial)).
Proof.
  induction (dia_1 info) as [|item resto IH].
  - left. intros ? [].
  - destruct (in_dec string_dec (chave_dia1 item) (keys mapeamento_inicial))
      as [Hi|Hn].
    + destruct IH as [Hall|(it & Hit & Hbad)].
      * left. intros it [<-|Hit]; auto.
      * right. exists it. split; [now right | exact Hbad].
    + right. exists item. split; [now left | exact Hn].
Qed.

Lemma get_mapeamento_inicial (k : string) :
  In k materias -> get mapeamento_inicial k = Some [].
Proof.
  unfold materias. cbn [keys mapeamento_inicial map fst].
  intros H. repeat (destruct H as [<-|H]; [reflexivity|]). destruct H.
Qed.

(** The build stops with [KeyError], and with nothing else, when an entry
    is filed under a key that is not one of the nine subjects. *)
Lemma mapear_questoes_KeyError (info : EstruturaProva) :
  (exists k item, In (k, item) (entradas info) /\ ~ In k materias) ->
  exists k, mapear_questoes_por_materia info = Raise (KeyError k) /\
            ~ In k materias.
Proof.
  intros (k & item & Hin & Hk). unfold mapear_questoes_por_materia.
  unfold materias in *.
  destruct (mapear_dia chave_dia1 (dia_1 info) mapeamento_inicial)
    as [m1|e] eqn:H1; cbn [bind].
  - assert (Hk1 : keys m1 = keys mapeamento_inicial).
    { destruct (chaves_dia1_dec info) as [Hall|Hbad].
      - destruct (mapear_dia_ok chave_dia1 (dia_1 info) mapeamento_inicial
                    Hall) as (m' & Hm' & Hkm' & _).
        congruence.
      - destruct (mapear_dia_KeyError chave_dia1 (dia_1 info)
                    mapeamento_inicial Hbad) as (k' & Hr & _).
        congruence. }
    unfold entradas in Hin. apply in_app_or in Hin as [Hin|Hin];
      apply in_map_iff in Hin as (it & [= <- <-] & Hit).
    + destruct (mapear_dia_KeyError chave_dia1 (dia_1 info)
                  mapeamento_inicial) as (k' & Hr & _);
        [now exists it | congruence].
    + rewrite <- Hk1 in *.
      apply mapear_dia_KeyError. now exists it.
  - destruct (chaves_dia1_dec info) as [Hall|Hbad].
    + destruct (mapear_dia_ok chave_dia1 (dia_1 info) mapeamento_inicial
                  Hall) as (m' & Hm' & _).
      congruence.
    + destruct (mapear_dia_KeyError chave_dia1 (dia_1 info)
                  mapeamento_inicial Hbad) as (k' & Hr & Hnk).
      exists k'. split; [congruence | exact Hnk].
Qed.

(** C2 (amended).  [mapear_questoes_por_materia] validates neither the
    ranges nor their overlap.  For every structure whose entries are all
    filed under one of the nine subject keys the build succeeds: the list of
    each subject is its entries' inclusive ranges one after the other, so a
    question number is listed under a subject exactly when an entry of that
    subject claims it (an entry with start > end claims none, and a number
    claimed by two subjects is listed under both).  When no question number
    is claimed by entries of two different subjects, no question number is
    listed under two subjects. *)
Theorem mapear_questoes_sem_validacao (info : EstruturaProva) :
  (forall k item, In (k, item) (entradas info) -> In k materias) ->
  exists m,
    mapear_questoes_por_materia info = Ok m /\
    keys m = materias /\
    (forall k, In k materias ->
       get m k = Some (questoes_de k (entradas info))) /\
    (forall k q, In k materias ->
       (In q (get_default m k []) <->
        exists item, In (k, item) (entradas info) /\ reivindica item q)) /\
    ((forall k1 item1 k2 item2 q,
        In (k1, item1) (entradas info) -> In (k2, item2) (entradas info) ->
        reivindica item1 q -> reivindica item2 q -> k1 = k2) ->
     forall k1 k2 q,
       In k1 materias -> In k2 materias ->
       In q (get_default m k1 []) -> In q (get_default m k2 []) ->
       k1 = k2).
Proof.
  intros Hk. unfold mapear_questoes_por_materia.
  destruct (mapear_dia_ok chave_dia1 (dia_1 info) mapeamento_inicial)
    as (m1 & Hm1 & Hk1 & Hg1).
  { intros item Hit. apply (Hk _ item). unfold entradas.
    apply in_or_app. left. apply in_map_iff. now exists item. }
  destruct (mapear_dia_ok chave_dia2 (dia_2 info) m1)
    as (m2 & Hm2 & Hk2 & Hg2).
  { intros item Hit. rewrite Hk1. apply (Hk _ item). unfold entradas.
    apply in_or_app. right. apply in_map_iff. now exists item. }
  rewrite Hm1. cbn [bind]. exists m2.
  assert (Hget : forall k, In k materias ->
                   get m2 k = Some (questoes_de k (entradas info))).
  { intros k Hin. unfold entradas. rewrite questoes_de_app.
    rewrite (Hg2 k _ (Hg1 k [] (get_mapeamento_inicial k Hin))).
    reflexivity. }
  assert (Hin : forall k q, In k materias ->
                  (In q (get_default m2 k []) <->
                   exists item, In (k, item) (entradas info) /\
                                reivindica item q)).
  { intros k q Hkm. unfold get_default. rewrite (Hget k Hkm).
    apply In_questoes_de. }
  split; [exact Hm2|]. split; [unfold materias; congruence|].
  split; [exact Hget|]. split; [exact Hin|].
  intros Hdisj k1 k2 q H1 H2 Hq1 Hq2.
  apply Hin in Hq1 as (i1 & Hi1 & Hr1); [|exact H1].
  apply Hin in Hq2 as (i2 & Hi2 & Hr2); [|exact H2].
  exact (Hdisj k1 i1 k2 i2 q Hi1 Hi2 Hr1 Hr2).
Qed.

(** Witness of [mapear_questoes_sem_validacao]: a structure with four
    entries whose ranges are disjoint. *)
Lemma mapear_questoes_sem_validacao_witness :
  let info :=
    mkEstruturaProva
      [ mkDistribuicao "Lingua Portuguesa" 1 15;
        mkDistribuicao "Literatura" 16 20 ]
      [ mkDistribuicao "Ingles" 61 65;
        mkDistribuicao "Matematica" 66 70 ] in
  exists m,
    mapear_questoes_por_materia info = Ok m /\
    get m "portugues" = Some (py_range 1 16) /\
    get m "literatura" = Some (py_range 16 21) /\
    forall k1 k2 q,
      In k1 materias -> In k2 materias ->
      In q (get_default m k1 []) -> In q (get_default m k2 []) ->
      k1 = k2.
Proof.
  intros info.
  destruct (mapear_questoes_sem_validacao info)
    as (m & Hok & _ & Hget & _ & Hdisj).
  { intros k item H. vm_compute in H.
    repeat (destruct H as [[= <- <-]|H]; [vm_compute; tauto|]).
    destruct H. }
  exists m. split; [exact Hok|].
  split; [rewrite Hget; [reflexivity | vm_compute; tauto]|].
  split; [rewrite Hget; [reflexivity | vm_compute; tauto]|].
  apply Hdisj. intros k1 item1 k2 item2 q H1 H2 R1 R2.
  vm_compute in H1, H2. unfold reivindica in R1, R2.
  repeat (destruct H1 as [[= <- <-]|H1]; [|]);
    try (destruct H1);
    repeat (destruct H2 as [[= <- <-]|H2]; [|]);
    try (destruct H2);
    cbn [inicio fim] in R1, R2; try reflexivity; lia.
Defined.

(** C2, as stated, fails: a range with start > end and a question number
    claimed by two subjects both build a map.  The entry 5-3 leaves every
    list empty, and question 2 is listed under mathematics and physics. *)
Lemma mapear_sem_validacao_contra :
  mapear_questoes_por_materia
    (mkEstruturaProva [mkDistribuicao "Matematica" 5 3] [])
  = Ok mapeamento_inicial /\
  mapear_questoes_por_materia
    (mkEstruturaProva
       [mkDistribuicao "Matematica" 1 2; mkDistribuicao "Fisica" 2 3] [])
  = Ok [ ("portugues", []); ("literatura", []); ("matematica", [1; 2]%Z);
         ("geografia", []); ("historia", []); ("fisica", [2; 3]%Z);
         ("quimica", []); ("biologia", []); ("lingua_estrangeira", []) ].
Proof. split; reflexivity. Qed.

End Mapeamento.

(** ** The scenarios of the specification, run on the model *)

Section Cenarios.

Import MediaHarmonicaCursos.

Open Scope Q_scope.

(** Mathematics is questions 61 to 90 of day 2, the candidate has 61 to 75
    right, and the statistics are mean 15 and deviation 5: 15 hits, and a
    standardized score of 500. *)
Example cenario_matematica :
  let info := mkEstruturaProva [] [mkDistribuicao "Matematica" 61 90] in
  let results_llm :=
    mkResultsLLM None (Some (mkProva (Some (py_range 61 76)))) in
  let estatisticas := [("matematica", mkStats (Some 15) (Some 5) None)] in
  match mapear_questoes_por_materia info with
  | Ok m =>
      let acertos := contar_acertos_por_materia results_llm m in
      get acertos "matematica" = Some 15%Z /\
      AcUfrgs.contar_acertos_por_materia results_llm m = acertos /\
      obter_ep_por_acertos estatisticas "matematica" 15 == 500
  | Raise _ => False
  end.
Proof. vm_compute. repeat split; reflexivity. Qed.

(** Portuguese is questions 1 to 15 and literature 16 to 20; 15 right
    answers in 1 to 15 count for Portuguese only. *)
Example cenario_portugues :
  let info :=
    mkEstruturaProva [ mkDistribuicao "Lingua Portuguesa" 1 15;
                       mkDistribuicao "Literatura" 16 20 ] [] in
  let results_llm :=
    mkResultsLLM (Some (mkProva (Some (py_range 1 16)))) None in
  match mapear_questoes_por_materia info with
  | Ok m =>
      let acertos := contar_acertos_por_materia results_llm m in
      get acertos "portugues" = Some 15%Z /\
      get acertos "literatura" = Some 0%Z
  | Raise _ => False
  end.
Proof. vm_compute. split; reflexivity. Qed.

(** The essay grade 9.98 is the standardized score 699, and with 12 hits in
    Portuguese (mean 10, deviation 2: score 600) the combined score is
    649.5. *)
Example cenario_redacao :
  calcular_ep_redacao 9.98 == 699 /\
  match get (calcular_eps_por_materia
               [("portugues", 12%Z)]
               [("portugues", mkStats (Some 10) (Some 2) None)] 9.98)
            "portugues_redacao" with
  | Some ep => ep == 649.5
  | None => False
  end.
Proof. split; vm_compute; reflexivity. Qed.

(** A day-2 entry named as a day-1 subject is not normalized: the build
    stops with [KeyError]. *)
Example cenario_KeyError :
  mapear_questoes_por_materia
    (mkEstruturaProva [] [mkDistribuicao "Lingua Portuguesa" 1 15])
  = Raise (KeyError "lingua portuguesa").
Proof. reflexivity. Qed.

End Cenarios.

(** * Further properties of the scoring scripts *)

(** ** The two standardizers *)

Section Padronizadores.

Import MediaHarmonicaCursos.

Open Scope Q_scope.




(** X2.  For a count that has no row in the score table and a deviation that is
    not negative, [obter_ep_por_acertos] and [calcular_escore_padronizado]
    return the same score. *)
Theorem padronizadores_concordam (estatisticas : dict Stats)
  (materia : string) (acertos : Z) :
  (forall i, In i (tabela_de (stats_de estatisticas materia)) ->
             item_acertos i <> acertos) ->
  0 <= desvio_de (stats_de estatisticas materia) ->
  obter_ep_por_acertos estatisticas materia acertos =
  AcUfrgs.calcular_escore_padronizado (inject_Z acertos)
    (media_de (stats_de estatisticas materia))
    (desvio_de (stats_de estatisticas materia)).
Proof.
  intros Hn Hd. rewrite obter_ep_unfold.
  apply buscar_ep_None in Hn. rewrite Hn. cbv zeta.
  fold (desvio_de (stats_de estatisticas materia)).
  fold (media_de (stats_de estatisticas materia)).
  unfold AcUfrgs.calcular_escore_padronizado.
  destruct (Qeq_bool (desvio_de (stats_de estatisticas materia)) 0) eqn:E.
  - apply Qeq_bool_true in E.
    assert (Hg : Qgtb (desvio_de (stats_de estatisticas materia)) 0 = false).
    { apply Qgtb_false. rewrite E. apply Qle_refl. }
    now rewrite Hg.
  - assert (Hg : Qgtb (desvio_de (stats_de estatisticas materia)) 0 = true).
    { apply Qgtb_true. apply Qle_lt_or_eq in Hd as [Hlt|Heq]; [exact Hlt|].
      symmetry in Heq. apply Qeq_bool_true in Heq. congruence. }
    now rewrite Hg.
Qed.

Lemma padronizadores_concordam_witness :
  let est := [("ingles", mkStats (Some 10) (Some 4)
                           (Some [mkEscoreItem 9 480]))] in
  obter_ep_por_acertos est "lingua_estrangeira" 12 =
  AcUfrgs.calcular_escore_padronizado 12 10 4.
Proof.
  intros est.
  apply (padronizadores_concordam est "lingua_estrangeira" 12).
  - intros i [<-|[]]. simpl. lia.
  - discriminate.
Defined.

(** X3.  With a negative deviation the two standardizers part: for a count off
    the table [obter_ep_por_acertos] returns 500.0 and
    [calcular_escore_padronizado] still applies the formula. *)
Theorem desvio_negativo (estatisticas : dict Stats) (materia : string)
  (acertos : Z) :
  (forall i, In i (tabela_de (stats_de estatisticas materia)) ->
             item_acertos i <> acertos) ->
  desvio_de (stats_de estatisticas materia) < 0 ->
  obter_ep_por_acertos estatisticas materia acertos = 500.0 /\
  AcUfrgs.calcular_escore_padronizado (inject_Z acertos)
    (media_de (stats_de estatisticas materia))
    (desvio_de (stats_de estatisticas materia)) =
  ((inject_Z acertos - media_de (stats_de estatisticas materia))
   / desvio_de (stats_de estatisticas materia)) * 100 + 500.
Proof.
  intros Hn Hd. split.
  - rewrite obter_ep_unfold. apply buscar_ep_None in Hn. rewrite Hn.
    cbv zeta. fold (desvio_de (stats_de estatisticas materia)).
    assert (Hg : Qgtb (desvio_de (stats_de estatisticas materia)) 0 = false).
    { apply Qgtb_false. now apply Qlt_le_weak. }
    now rewrite Hg.
  - unfold AcUfrgs.calcular_escore_padronizado.
    destruct (Qeq_bool (desvio_de (stats_de estatisticas materia)) 0) eqn:E;
      [|reflexivity].
    apply Qeq_bool_true in E. rewrite E in Hd. now apply Qlt_irrefl in Hd.
Qed.

Lemma desvio_negativo_witness :
  let est := [("fisica", mkStats (Some 10) (Some (-2)) None)] in
  obter_ep_por_acertos est "fisica" 12 = 500.0 /\
  AcUfrgs.calcular_escore_padronizado 12 10 (-2) =
  ((12 - 10) / (-2)) * 100 + 500.
Proof.
  intros est. apply (desvio_negativo est "fisica" 12).
  - intros i [].
  - reflexivity.
Defined.

(** X4.  The two scripts standardize the essay grade alike, by the same
    operations; the score does not decrease when the grade grows, and a
    grade between 0 and 10 gives a score between 200 and 700. *)
Theorem ep_redacao_limites (nota_redacao : Q) :
  calcular_ep_redacao nota_redacao =
  AcUfrgs.calcular_escore_padronizado nota_redacao 6.0 2.0 /\
  (forall nota, nota_redacao <= nota ->
     calcular_ep_redacao nota_redacao <= calcular_ep_redacao nota) /\
  (0 <= nota_redacao <= 10 ->
   200 <= calcular_ep_redacao nota_redacao <= 700).
Proof.
  assert (Hlin : forall n, calcular_ep_redacao n == 50 * n + 200)
    by (intros n; unfold calcular_ep_redacao; field).
  split; [reflexivity|]. split.
  - intros nota Hle. rewrite !Hlin. lra.
  - intros [H0 H10]. rewrite Hlin. split; lra.
Qed.

Lemma ep_redacao_limites_witness :
  calcular_ep_redacao 9.98 <= calcular_ep_redacao 10 /\
  200 <= calcular_ep_redacao 9.98 <= 700.
Proof.
  split.
  - apply (proj1 (proj2 (ep_redacao_limites 9.98))). discriminate.
  - apply (proj2 (proj2 (ep_redacao_limites 9.98))). split; discriminate.
Defined.

End Padronizadores.

(** ** The score sets *)

Section ConjuntoEscores.

Import MediaHarmonicaCursos.

Open Scope Q_scope.

Lemma get_notin_keys {V : Type} (d : dict V) (k : string) :
  ~ In k (keys d) -> get d k = None.
Proof.
  intros Hk. destruct (get d k) as [v|] eqn:E; [|reflexivity].
  elim Hk. apply In_keys_get. now exists v.
Qed.

Lemma get_In_NoDup {V : Type} (d : dict V) (k : string) (v : V) :
  NoDup (keys d) -> In (k, v) d -> get d k = Some v.
Proof.
  unfold keys. induction d as [|[k0 v0] d IH]; intros Hnd Hin;
    [destruct Hin|].
  cbn [map fst] in Hnd. apply NoDup_cons_iff in Hnd as [Hk0 Hnd].
  cbn [get]. destruct Hin as [[= -> ->]|Hin].
  - now rewrite String.eqb_refl.
  - destruct (String.eqb_spec k0 k) as [->|_]; [|now apply IH].
    elim Hk0. apply in_map_iff. now exists (k, v).
Qed.

(** The loop of [calcular_eps_por_materia] stores, under each subject of
    the counts, the score of its last count. *)
Lemma eps_loop_get (estatisticas : dict Stats) (acertos : dict Z) :
  forall eps k,
    NoDup (keys acertos) ->
    get (fold_left
           (fun eps '(materia, acertos_num) =>
              set eps materia
                  (obter_ep_por_acertos estatisticas materia acertos_num))
           acertos eps) k =
    match get acertos k with
    | Some n => Some (obter_ep_por_acertos estatisticas k n)
    | None => get eps k
    end.
Proof.
  induction acertos as [|[m n] resto IH]; intros eps k Hnd; [reflexivity|].
  unfold keys in Hnd. cbn [map fst] in Hnd.
  apply NoDup_cons_iff in Hnd as [Hm Hnd].
  cbn [fold_left get]. rewrite (IH _ k Hnd), get_set.
  destruct (String.eqb_spec m k) as [->|_]; [|reflexivity].
  now rewrite (get_notin_keys resto k Hm).
Qed.

(** X5.  [calcular_eps_por_materia] gives every subject of the counts the score
    of [obter_ep_por_acertos], and adds the key ['portugues_redacao']: the
    mean of the Portuguese score and the essay score, or the essay score
    alone when the counts have no Portuguese. *)
Theorem eps_por_materia (acertos : dict Z) (estatisticas : dict Stats)
  (nota_redacao : Q) :
  NoDup (keys acertos) ->
  let eps := calcular_eps_por_materia acertos estatisticas nota_redacao in
  (forall materia n,
     In (materia, n) acertos -> materia <> "portugues_redacao" ->
     get eps materia
     = Some (obter_ep_por_acertos estatisticas materia n)) /\
  get eps "portugues_redacao" =
  Some match get acertos "portugues" with
       | Some n =>
           (obter_ep_por_acertos estatisticas "portugues" n
            + calcular_ep_redacao nota_redacao) / 2
       | None => calcular_ep_redacao nota_redacao
       end.
Proof.
  intros Hnd eps. subst eps. unfold calcular_eps_por_materia.
  match goal with
  | |- context [fold_left ?f acertos []] =>
      set (loop := fold_left f acertos [])
  end.
  assert (Hloop : forall k,
            get loop k = match get acertos k with
                         | Some n =>
                             Some (obter_ep_por_acertos estatisticas k n)
                         | None => None
                         end).
  { intros k. unfold loop. now rewrite eps_loop_get. }
  rewrite (Hloop "portugues").
  split.
  - intros materia n Hin Hne.
    assert (Hm : get loop materia
                 = Some (obter_ep_por_acertos estatisticas materia n)).
    { rewrite Hloop. now rewrite (get_In_NoDup acertos materia n Hnd Hin). }
    destruct (get acertos "portugues"); rewrite get_set;
      (destruct (String.eqb_spec "portugues_redacao" materia) as [E|_];
       [now elim Hne | exact Hm]).
  - destruct (get acertos "portugues"); rewrite get_set;
      now rewrite String.eqb_refl.
Qed.

Lemma eps_por_materia_witness :
  let est := [("portugues", mkStats (Some 10) (Some 2) None)] in
  let eps :=
    calcular_eps_por_materia [("portugues", 12%Z); ("fisica", 3%Z)] est 9.98
  in
  get eps "fisica" = Some (obter_ep_por_acertos est "fisica" 3) /\
  get eps "portugues_redacao" =
  Some ((obter_ep_por_acertos est "portugues" 12 + calcular_ep_redacao 9.98)
        / 2).
Proof.
  intros est eps.
  destruct (eps_por_materia [("portugues", 12%Z); ("fisica", 3%Z)] est 9.98)
    as [Hm Hr].
  - repeat constructor; simpl; intuition discriminate.
  - split; [|exact Hr].
    apply Hm; [right; now left | discriminate].
Defined.

End ConjuntoEscores.

(** ** [calcular_ac_para_curso] as a whole *)

Section AcParaCurso.

Open Scope Q_scope.

Variables (total : dict Z) (estatisticas : dict Stats).

(** The first loop either ends, when every subject of the counts has a
    total, or stops with the [KeyError] of a subject that has none. *)
Lemma padronizar_resultado (itens : list (string * Z)) :
  forall esc,
    ((forall k, In k (keys itens) -> In k (keys total)) /\
     exists esc', AcUfrgs.padronizar itens total estatisticas esc = Ok esc')
    \/
    (exists k, In k (keys itens) /\ ~ In k (keys total) /\
               AcUfrgs.padronizar itens total estatisticas esc
               = Raise (KeyError k)).
Proof.
  induction itens as [|[m n] resto IH]; intros esc.
  - left. split; [intros k []|]. now exists esc.
  - cbn [AcUfrgs.padronizar]. unfold index.
    destruct (get total m) as [t|] eqn:Ht; cbn [bind].
    + assert (Hm : In m (keys total)) by (apply In_keys_get; now exists t).
      destruct (t =? 0)%Z.
      * destruct (IH esc) as [[Hall Hok]|(k & Hk & Hnk & Hr)].
        -- left. split; [|exact Hok]. intros k [<-|Hk]; auto.
        -- right. exists k. repeat split; auto. now right.
      * match goal with
        | |- context [AcUfrgs.padronizar resto total estatisticas ?e] =>
            destruct (IH e) as [[Hall Hok]|(k & Hk & Hnk & Hr)]
        end.
        -- left. split; [|exact Hok]. intros k [<-|Hk]; auto.
        -- right. exists k. repeat split; auto. now right.
    + right. exists m. split; [now left|]. split; [|reflexivity].
      intros Hin. apply In_keys_get in Hin as [v Hv]. congruence.
Qed.

(** What the first loop stores: nothing for a subject without questions,
    and the standardized score of the count for any other subject. *)
Lemma padronizar_get (itens : list (string * Z)) :
  forall esc esc' k,
    NoDup (keys itens) ->
    AcUfrgs.padronizar itens total estatisticas esc = Ok esc' ->
    get esc' k =
    match get itens k, get total k with
    | Some n, Some t =>
        if (t =? 0)%Z then get esc k
        else Some (escore_de estatisticas k n)
    | _, _ => get esc k
    end.
Proof.
  induction itens as [|[m n] resto IH]; intros esc esc' k Hnd Hok.
  - cbn in Hok. injection Hok as <-. reflexivity.
  - unfold keys in Hnd. cbn [map fst] in Hnd.
    apply NoDup_cons_iff in Hnd as [Hm Hnd].
    cbn [AcUfrgs.padronizar] in Hok. unfold index in Hok.
    destruct (get total m) as [t|] eqn:Ht; cbn [bind] in Hok;
      [|discriminate].
    cbn [get]. destruct (t =? 0)%Z eqn:Hz.
    + rewrite (IH _ _ k Hnd Hok).
      destruct (String.eqb_spec m k) as [<-|_]; [|reflexivity].
      rewrite (get_notin_keys resto m Hm), Ht, Hz. reflexivity.
    + rewrite (IH _ _ k Hnd Hok), get_set.
      destruct (String.eqb_spec m k) as [<-|_].
      * rewrite (get_notin_keys resto m Hm), Ht, Hz. reflexivity.
      * destruct (get resto k); [|reflexivity].
        destruct (get total k) as [t'|]; [|reflexivity].
        reflexivity.
Qed.

End AcParaCurso.

Section AcParaCursoProps.

Open Scope Q_scope.

(** X6.  [calcular_ac_para_curso] returns exactly when every subject of the
    counts is a key of the totals; otherwise it raises the [KeyError] of a
    subject of the counts that the totals do not have. *)
Theorem calcular_ac_KeyError (acertos_por_materia total : dict Z)
  (estatisticas : dict Stats) (pesos_curso : dict Q) (nota_redacao : Q) :
  ((exists r,
      AcUfrgs.calcular_ac_para_curso acertos_por_materia total estatisticas
        pesos_curso nota_redacao = Ok r) <->
   (forall k, In k (keys acertos_por_materia) -> In k (keys total))) /\
  (forall e,
     AcUfrgs.calcular_ac_para_curso acertos_por_materia total estatisticas
       pesos_curso nota_redacao = Raise e ->
     exists k, e = KeyError k /\ In k (keys acertos_por_materia) /\
               ~ In k (keys total)).
Proof.
  unfold AcUfrgs.calcular_ac_para_curso.
  destruct (padronizar_resultado total estatisticas acertos_por_materia [])
    as [[Hall [esc Hok]]|(k & Hk & Hnk & Hr)].
  - rewrite Hok. cbn [bind]. split.
    + split; [intros _; exact Hall | intros _; eexists; reflexivity].
    + discriminate.
  - rewrite Hr. cbn [bind]. split.
    + split; [intros [r Hx]; discriminate | intros Hall].
      elim Hnk. now apply Hall.
    + intros e [= <-]. now exists k.
Qed.

Lemma calcular_ac_KeyError_witness :
  exists k,
    KeyError "fisica" = KeyError k /\
    In k (keys [("matematica", 3%Z); ("fisica", 2%Z)]) /\
    ~ In k (keys [("matematica", 30%Z)]).
Proof.
  apply (proj2 (calcular_ac_KeyError
                  [("matematica", 3%Z); ("fisica", 2%Z)]
                  [("matematica", 30%Z)] [] [] 9.98)).
  reflexivity.
Defined.

(** X7.  The score set that [calcular_ac_para_curso] returns: a subject of the
    counts has the score of its count, unless it has no question, in which
    case it has no score; ['portugues_redacao'] is the mean of the
    Portuguese score and the essay score, or the essay score alone when
    Portuguese has no score; the first component is the aggregation of that
    score set. *)
Theorem escores_de_calcular_ac (acertos_por_materia total : dict Z)
  (estatisticas : dict Stats) (pesos_curso : dict Q) (nota_redacao : Q)
  (ac : Q) (escores_padronizados : dict Q) :
  NoDup (keys acertos_por_materia) ->
  AcUfrgs.calcular_ac_para_curso acertos_por_materia total estatisticas
    pesos_curso nota_redacao = Ok (ac, escores_padronizados) ->
  (forall k n t,
     k <> "portugues_redacao" ->
     In (k, n) acertos_por_materia -> get total k = Some t ->
     get escores_padronizados k =
     if (t =? 0)%Z then None else Some (escore_de estatisticas k n)) /\
  (forall k,
     k <> "portugues_redacao" -> ~ In k (keys acertos_por_materia) ->
     get escores_padronizados k = None) /\
  get escores_padronizados "portugues_redacao" =
  Some match get escores_padronizados "portugues" with
       | Some ep =>
           (ep + AcUfrgs.calcular_escore_padronizado nota_redacao 6.0 2.0) / 2
       | None => AcUfrgs.calcular_escore_padronizado nota_redacao 6.0 2.0
       end /\
  ac = AcUfrgs.calcular_ac escores_padronizados pesos_curso.
Proof.
  intros Hnd. unfold AcUfrgs.calcular_ac_para_curso.
  destruct (AcUfrgs.padronizar acertos_por_materia total estatisticas [])
    as [esc|e] eqn:Hp; cbn [bind]; [|discriminate].
  intros [= <- <-].
  pose proof (fun k => padronizar_get total estatisticas acertos_por_materia
                         [] esc k Hnd Hp) as Hget.
  assert (Hcomb : forall k,
            k <> "portugues_redacao" ->
            get (AcUfrgs.combinar_redacao esc
                   (AcUfrgs.calcular_escore_padronizado nota_redacao 6.0 2.0))
                k = get esc k).
  { intros k Hk. unfold AcUfrgs.combinar_redacao.
    destruct (get esc "portugues"); rewrite get_set;
      (destruct (String.eqb_spec "portugues_redacao" k) as [E|_];
       [now elim Hk | reflexivity]). }
  repeat split.
  - intros k n t Hk Hin Ht. rewrite (Hcomb k Hk), Hget.
    rewrite (get_In_NoDup acertos_por_materia k n Hnd Hin), Ht.
    reflexivity.
  - intros k Hk Hnin. rewrite (Hcomb k Hk), Hget.
    now rewrite (get_notin_keys acertos_por_materia k Hnin).
  - rewrite (Hcomb "portugues") by discriminate.
    unfold AcUfrgs.combinar_redacao.
    destruct (get esc "portugues"); rewrite get_set;
      now rewrite String.eqb_refl.
Qed.

Lemma escores_de_calcular_ac_witness :
  let acertos := [("matematica", 18%Z); ("geografia", 0%Z)] in
  let total := [("matematica", 30%Z); ("geografia", 0%Z)] in
  let est := [("matematica", mkStats (Some 15) (Some 5) None)] in
  exists ac escores_padronizados,
    AcUfrgs.calcular_ac_para_curso acertos total est [("matematica", 1)] 9.98
    = Ok (ac, escores_padronizados) /\
    get escores_padronizados "matematica"
    = Some (escore_de est "matematica" 18) /\
    get escores_padronizados "geografia" = None /\
    get escores_padronizados "historia" = None.
Proof.
  intros acertos total est.
  destruct (AcUfrgs.calcular_ac_para_curso acertos total est
              [("matematica", 1)] 9.98) as [[ac esc]|e] eqn:E;
    [|vm_compute in E; discriminate].
  exists ac, esc. split; [reflexivity|].
  destruct (escores_de_calcular_ac acertos total est [("matematica", 1)]
              9.98 ac esc) as (Hin & Hout & _ & _).
  - repeat constructor; simpl; intuition discriminate.
  - exact E.
  - split; [|split].
    + apply (Hin "matematica" 18%Z 30%Z);
        [discriminate | now left | reflexivity].
    + apply (Hin "geografia" 0%Z 0%Z);
        [discriminate | right; now left | reflexivity].
    + apply Hout; [discriminate|]. simpl. intuition discriminate.
Defined.

Lemma keys_map_valores {A B : Type} (f : string -> A -> B) (d : dict A) :
  keys (map (fun '(k, v) => (k, f k v)) d) = keys d.
Proof.
  unfold keys. rewrite map_map. apply map_ext. now intros [k v].
Qed.

(** X8.  The pipeline of [main] never meets the [KeyError]: the counts and the
    totals are computed from the same mapping, so [calcular_ac_para_curso]
    returns for every answer record, statistics and weight table. *)
Theorem calcular_ac_sobre_contagem (results_llm : ResultsLLM)
  (mapeamento_questoes : dict (list Z)) (estatisticas : dict Stats)
  (pesos_curso : dict Q) (nota_redacao : Q) :
  exists ac escores_padronizados,
    AcUfrgs.calcular_ac_para_curso
      (AcUfrgs.contar_acertos_por_materia results_llm mapeamento_questoes)
      (AcUfrgs.calcular_total_questoes_por_materia mapeamento_questoes)
      estatisticas pesos_curso nota_redacao
    = Ok (ac, escores_padronizados).
Proof.
  unfold AcUfrgs.calcular_ac_para_curso.
  destruct (padronizar_resultado
              (AcUfrgs.calcular_total_questoes_por_materia mapeamento_questoes)
              estatisticas
              (AcUfrgs.contar_acertos_por_materia results_llm
                 mapeamento_questoes) [])
    as [[_ [esc Hok]]|(k & Hk & Hnk & _)].
  - rewrite Hok. cbn [bind]. eexists _, _. reflexivity.
  - elim Hnk. revert Hk.
    unfold AcUfrgs.contar_acertos_por_materia,
      AcUfrgs.calcular_total_questoes_por_materia.
    now rewrite (keys_map_valores (fun _ q => AcUfrgs.contar_questoes _ _ q)),
      (keys_map_valores (fun _ q => Z.of_nat (List.length q))).
Qed.

End AcParaCursoProps.

(** ** Bounds of the weighted harmonic mean *)

Section Limites.

Open Scope Q_scope.

Variables (esc : dict Q) (lo hi : Q).

(** One term of the sums: weight [w] over score [e]. *)
Lemma termo_inverso (w e : Q) :
  0 < e -> 0 <= w ->
  0 <= w / e /\ (w / e) * e == w /\ (0 < w -> 0 < w / e).
Proof.
  intros He Hw. split; [|split].
  - apply Qle_shift_div_l; [exact He|]. now rewrite Qmult_0_l.
  - field. intros H. rewrite H in He. now apply Qlt_irrefl in He.
  - intros Hw'. apply Qlt_shift_div_l; [exact He|]. now rewrite Qmult_0_l.
Qed.

(** The loop of [calcular_ac_para_curso] keeps the sum of weights between
    [lo] and [hi] times the sum of inverses, and the sum of inverses grows,
    strictly when a counted weight is positive. *)
Lemma ac_somar_limites (itens : list (string * Q)) :
  (forall k p, In (k, p) itens -> k <> "total" -> 0 <= p) ->
  (forall k p, In (k, p) itens -> k <> "total" ->
               0 < get_default esc k 500 ->
               lo <= get_default esc k 500 <= hi) ->
  forall sp si,
    0 <= si -> si * lo <= sp -> sp <= si * hi ->
    let r := AcUfrgs.somar esc itens sp si in
    snd r * lo <= fst r /\ fst r <= snd r * hi /\ si <= snd r /\
    ((exists k p, In (k, p) itens /\ k <> "total" /\ 0 < p /\
                  0 < get_default esc k 500) ->
     si < snd r).
Proof.
  induction itens as [|[k p] resto IH]; intros Hw Hs sp si H0 Hlo Hhi.
  - cbn. repeat split; auto; [apply Qle_refl|].
    intros (k & p & [] & _).
  - assert (Hw' : forall k p, In (k, p) resto -> k <> "total" -> 0 <= p)
      by (intros; eapply Hw; [right|]; eauto).
    assert (Hs' : forall k p, In (k, p) resto -> k <> "total" ->
                    0 < get_default esc k 500 ->
                    lo <= get_default esc k 500 <= hi)
      by (intros; eapply Hs; [right|..]; eauto).
    cbn [AcUfrgs.somar].
    destruct (String.eqb_spec k "total") as [Ek|Ek].
    + destruct (IH Hw' Hs' sp si H0 Hlo Hhi) as (A & B & C & D).
      cbv zeta. repeat split; auto.
      intros (k' & p' & [[= <- <-]|Hin] & Hk' & Hp' & He');
        [contradiction|].
      apply D. now exists k', p'.
    + destruct (Qgtb (get_default esc k 500) 0) eqn:Hg.
      * apply Qgtb_true in Hg.
        pose proof (Hw k p (or_introl eq_refl) Ek) as Hp.
        destruct (Hs k p (or_introl eq_refl) Ek Hg) as [Hl Hh].
        destruct (termo_inverso p (get_default esc k 500) Hg Hp)
          as (Hx & Hxe & Hxp).
        set (e := get_default esc k 500) in *. set (x := p / e) in *.
        destruct (IH Hw' Hs' (sp + p) (si + x)) as (A & B & C & D);
          [nra | nra | nra |].
        cbv zeta. repeat split; auto; [nra|].
        intros (k' & p' & [[= <- <-]|Hin] & Hk' & Hp' & He').
        -- specialize (Hxp Hp'). nra.
        -- assert (si + x < snd (AcUfrgs.somar esc resto (sp + p) (si + x)))
             by (apply D; now exists k', p').
           nra.
      * apply Qgtb_false in Hg.
        destruct (IH Hw' Hs' sp si H0 Hlo Hhi) as (A & B & C & D).
        cbv zeta. repeat split; auto.
        intros (k' & p' & [[= <- <-]|Hin] & Hk' & Hp' & He').
        -- exfalso. apply (Qlt_irrefl 0).
           eapply Qlt_le_trans; [exact He' | exact Hg].
        -- apply D. now exists k', p'.
Qed.

End Limites.

Section LimitesProps.

Import MediaHarmonicaCursos.

Open Scope Q_scope.

Lemma calcular_ac_limites_aux (esc pesos : dict Q) (lo hi : Q) :
  (forall k p, In (k, p) pesos -> k <> "total" -> 0 <= p) ->
  (forall k p, In (k, p) pesos -> k <> "total" ->
               0 < get_default esc k 500 ->
               lo <= get_default esc k 500 <= hi) ->
  (exists k p, In (k, p) pesos /\ k <> "total" /\ 0 < p /\
               0 < get_default esc k 500) ->
  lo <= AcUfrgs.calcular_ac esc pesos <= hi.
Proof.
  intros Hw Hs Hex. unfold AcUfrgs.calcular_ac.
  destruct (ac_somar_limites esc lo hi pesos Hw Hs 0 0)
    as (A & B & _ & D); [apply Qle_refl | lra | lra |].
  specialize (D Hex).
  destruct (AcUfrgs.somar esc pesos 0 0) as [sp si]. cbn [fst snd] in *.
  apply Qgtb_true in D as Hg. rewrite Hg. split.
  - apply Qle_shift_div_l; [exact D|]. now rewrite Qmult_comm.
  - apply Qle_shift_div_r; [exact D|]. now rewrite Qmult_comm.
Qed.

(** X9.  In exact rational arithmetic: with weights that are not negative,
    one of them positive on a positive score, the result of the aggregation
    of [calcular_ac_para_curso] lies between any two bounds that hold the
    positive scores of the weight keys.  (The binary64 quotient can miss a
    bound by its rounding, see [ac_binary64].) *)
Theorem ac_entre_limites (esc pesos : dict Q) (lo hi : Q) :
  (forall k p, In (k, p) pesos -> k <> "total" -> 0 <= p) ->
  (forall k p, In (k, p) pesos -> k <> "total" ->
               0 < get_default esc k 500 ->
               lo <= get_default esc k 500 <= hi) ->
  (exists k p, In (k, p) pesos /\ k <> "total" /\ 0 < p /\
               0 < get_default esc k 500) ->
  lo <= AcUfrgs.calcular_ac esc pesos <= hi.
Proof.
  intros Hw Hs Hex. unfold AcUfrgs.calcular_ac.
  destruct (ac_somar_limites esc lo hi pesos Hw Hs 0 0)
    as (A & B & _ & D); [apply Qle_refl | lra | lra |].
  specialize (D Hex).
  destruct (AcUfrgs.somar esc pesos 0 0) as [sp si]. cbn [fst snd] in *.
  apply Qgtb_true in D as Hg. rewrite Hg. split.
  - apply Qle_shift_div_l; [exact D|]. now rewrite Qmult_comm.
  - apply Qle_shift_div_r; [exact D|]. now rewrite Qmult_comm.
Qed.

Lemma ac_entre_limites_witness :
  450 <= AcUfrgs.calcular_ac [("matematica", 600); ("fisica", 450)]
           [("matematica", 2); ("fisica", 1); ("total", 3)] <= 600.
Proof.
  apply ac_entre_limites.
  - intros k p [[= <- <-]|[[= <- <-]|[[= <- <-]|[]]]] _; discriminate.
  - intros k p [[= <- <-]|[[= <- <-]|[[= <- <-]|[]]]] Hk _;
      try (now elim Hk); split; discriminate.
  - exists "matematica", 2. repeat split; [now left | discriminate].
Defined.

(** Scores under keys that the weight table does not have play no part
    in the loop. *)
Lemma ac_somar_sem_escores (esc : dict Q) (itens : list (string * Q)) :
  (forall k p, In (k, p) itens -> k <> "total" -> get esc k = None) ->
  forall sp si,
    AcUfrgs.somar esc itens sp si = AcUfrgs.somar [] itens sp si.
Proof.
  induction itens as [|[k p] resto IH]; intros Hnone sp si;
    cbn [AcUfrgs.somar]; [reflexivity|].
  assert (Hnone' : forall k p, In (k, p) resto -> k <> "total" ->
                     get esc k = None)
    by (intros; eapply Hnone; [right|]; eauto).
  destruct (String.eqb_spec k "total") as [E|E]; [now apply IH|].
  assert (Hd : get_default esc k 500 = get_default [] k 500)
    by (unfold get_default; now rewrite (Hnone k p (or_introl eq_refl) E)).
  rewrite Hd.
  destruct (Qgtb (get_default [] k 500) 0); now apply IH.
Qed.

(** X10.  When no weight key is a key of the score set (the weight tables
    are keyed by abbreviations such as ['MAT'], the score set by subject
    names), the aggregation of [calcular_ac_para_curso] does not depend on
    the scores: it returns what it returns for the empty score set, by the
    same operations.  In exact rational arithmetic that value is 500, for
    weights that are not negative, one of them positive.  (The binary64
    quotient is 500 up to its rounding, see [ac_binary64].) *)
Theorem ac_sem_escores_500 (esc pesos : dict Q) :
  (forall k p, In (k, p) pesos -> k <> "total" -> get esc k = None) ->
  AcUfrgs.calcular_ac esc pesos = AcUfrgs.calcular_ac [] pesos /\
  ((forall k p, In (k, p) pesos -> k <> "total" -> 0 <= p) ->
   (exists k p, In (k, p) pesos /\ k <> "total" /\ 0 < p) ->
   AcUfrgs.calcular_ac esc pesos == 500).
Proof.
  intros Hnone. split.
  - unfold AcUfrgs.calcular_ac. now rewrite ac_somar_sem_escores.
  - intros Hw (k & p & Hin & Hk & Hp).
    assert (Hd : forall k p, In (k, p) pesos -> k <> "total" ->
                   get_default esc k 500 = 500).
    { intros k' p' Hin' Hk'. unfold get_default.
      now rewrite (Hnone k' p' Hin' Hk'). }
    apply Qle_antisym;
      apply (calcular_ac_limites_aux esc pesos 500 500); auto;
      try reflexivity;
      try (intros k' p' Hin' Hk' _; rewrite (Hd k' p' Hin' Hk');
           split; apply Qle_refl);
      try (exists k, p; rewrite (Hd k p Hin Hk); repeat split; auto).
Qed.

Lemma ac_sem_escores_500_witness :
  let esc := [("matematica", 720); ("fisica", 310)] in
  let pesos := [("MAT", 3); ("FIS", 2); ("total", 5)] in
  AcUfrgs.calcular_ac esc pesos = AcUfrgs.calcular_ac [] pesos /\
  AcUfrgs.calcular_ac esc pesos == 500.
Proof.
  intros esc pesos.
  destruct (ac_sem_escores_500 esc pesos) as [Hi H500].
  - intros k p [[= <- <-]|[[= <- <-]|[[= <- <-]|[]]]] _; reflexivity.
  - split; [exact Hi|]. apply H500.
    + intros k p [[= <- <-]|[[= <- <-]|[[= <- <-]|[]]]] _; discriminate.
    + exists "MAT", 3. repeat split; [now left | discriminate].
Defined.

End LimitesProps.

(** ** The two aggregations compared *)

Section DuasAgregacoes.

Import MediaHarmonicaCursos.

Open Scope Q_scope.

(** No abbreviation stands for a subject named ['total']. *)
Lemma materia_nao_total (abrev materia : string) :
  get mapeamento_abrev abrev = Some materia -> materia <> "total".
Proof.
  assert (Hall : forallb (fun e => negb (String.eqb (snd e) "total"))
                         mapeamento_abrev = true) by reflexivity.
  revert Hall. generalize mapeamento_abrev as d.
  induction d as [|[k0 v0] d IH]; cbn [get forallb snd]; [discriminate|].
  intros Hall. apply andb_prop in Hall as [H0 Hd].
  destruct (String.eqb k0 abrev); [|now apply IH].
  intros [= ->]. intros ->. discriminate.
Qed.

Lemma In_renomear (pesos : dict Q) (materia : string) (peso : Q) :
  In (materia, peso) (renomear pesos) <->
  exists abrev, In (abrev, peso) pesos /\ abrev <> "total" /\
                get mapeamento_abrev abrev = Some materia.
Proof.
  unfold renomear. rewrite in_flat_map. split.
  - intros ([abrev p] & Hin & Hm).
    destruct (String.eqb_spec abrev "total") as [E|E]; [destruct Hm|].
    destruct (get mapeamento_abrev abrev) as [m|] eqn:Hg; [|destruct Hm].
    destruct Hm as [[= <- <-]|[]]. now exists abrev.
  - intros (abrev & Hin & Hk & Hg). exists (abrev, peso). split; [exact Hin|].
    destruct (String.eqb_spec abrev "total") as [E|_]; [contradiction|].
    rewrite Hg. now left.
Qed.

(** While no score is <= 0, the loop of
    [calcular_media_harmonica_ponderada] is the loop of
    [calcular_ac_para_curso] on the renamed weight table. *)
Lemma somar_renomear (eps : dict Q) (itens : list (string * Q)) :
  (forall abrev peso materia,
     In (abrev, peso) itens -> abrev <> "total" ->
     get mapeamento_abrev abrev = Some materia ->
     0 < get_default eps materia 500) ->
  forall sp si,
    somar eps itens sp si = Some (AcUfrgs.somar eps (renomear itens) sp si).
Proof.
  induction itens as [|[abrev peso] resto IH]; intros Hpos sp si;
    [reflexivity|].
  assert (Hpos' : forall abrev peso materia,
            In (abrev, peso) resto -> abrev <> "total" ->
            get mapeamento_abrev abrev = Some materia ->
            0 < get_default eps materia 500)
    by (intros; eapply Hpos; [right|..]; eauto).
  cbn [somar]. unfold renomear. cbn [flat_map]. fold (renomear resto).
  destruct (String.eqb_spec abrev "total") as [E|E]; [now apply IH|].
  destruct (get mapeamento_abrev abrev) as [m|] eqn:Hg; [|now apply IH].
  pose proof (Hpos abrev peso m (or_introl eq_refl) E Hg) as Hm.
  apply Qgtb_true in Hm. rewrite Hm.
  cbn [app AcUfrgs.somar].
  destruct (String.eqb_spec m "total") as [Et|_];
    [now apply materia_nao_total in Hg|].
  rewrite Hm. now apply IH.
Qed.

Lemma media_ponderada_como_ac_aux (eps pesos : dict Q) :
  (forall abrev peso materia,
     In (abrev, peso) pesos -> abrev <> "total" ->
     get mapeamento_abrev abrev = Some materia ->
     0 < get_default eps materia 500) ->
  calcular_media_harmonica_ponderada eps pesos ==
  AcUfrgs.calcular_ac eps (renomear pesos).
Proof.
  intros Hpos. unfold calcular_media_harmonica_ponderada, AcUfrgs.calcular_ac.
  rewrite (somar_renomear eps pesos Hpos).
  destruct (AcUfrgs.somar eps (renomear pesos) 0 0) as [sp si].
  destruct (Qgtb si 0); reflexivity.
Qed.

(** X11.  While no score of a known weight key is <= 0,
    [calcular_media_harmonica_ponderada] gives the value that the
    aggregation of [calcular_ac_para_curso] gives on the weight table with
    the abbreviations replaced by their subjects. *)
Theorem media_ponderada_como_ac (eps pesos : dict Q) :
  (forall abrev peso materia,
     In (abrev, peso) pesos -> abrev <> "total" ->
     get mapeamento_abrev abrev = Some materia ->
     0 < get_default eps materia 500) ->
  calcular_media_harmonica_ponderada eps pesos ==
  AcUfrgs.calcular_ac eps (renomear pesos).
Proof.
  intros Hpos. unfold calcular_media_harmonica_ponderada, AcUfrgs.calcular_ac.
  rewrite (somar_renomear eps pesos Hpos).
  destruct (AcUfrgs.somar eps (renomear pesos) 0 0) as [sp si].
  destruct (Qgtb si 0); reflexivity.
Qed.

Lemma media_ponderada_como_ac_witness :
  let eps := [("matematica", 600); ("portugues_redacao", 500)] in
  calcular_media_harmonica_ponderada eps
    [("MAT", 2); ("POR", 1); ("total", 3); ("XYZ", 4)] ==
  AcUfrgs.calcular_ac eps [("matematica", 2); ("portugues_redacao", 1)].
Proof.
  intros eps.
  apply (media_ponderada_como_ac eps
           [("MAT", 2); ("POR", 1); ("total", 3); ("XYZ", 4)]).
  intros abrev peso materia
    [[= <- <-]|[[= <- <-]|[[= <- <-]|[[= <- <-]|[]]]]] _ [= <-];
    reflexivity.
Defined.

(** X12.  In exact rational arithmetic: with weights that are not negative,
    one of them positive, and every score of a known weight key between
    [lo > 0] and [hi], [calcular_media_harmonica_ponderada] lies between
    [lo] and [hi].  (The binary64 quotient can miss a bound by its
    rounding, see [media_ponderada_binary64].) *)
Theorem media_ponderada_entre_limites (eps pesos : dict Q) (lo hi : Q) :
  0 < lo ->
  (forall abrev peso materia,
     In (abrev, peso) pesos -> abrev <> "total" ->
     get mapeamento_abrev abrev = Some materia ->
     0 <= peso /\ lo <= get_default eps materia 500 <= hi) ->
  (exists abrev peso materia,
     In (abrev, peso) pesos /\ abrev <> "total" /\
     get mapeamento_abrev abrev = Some materia /\ 0 < peso) ->
  lo <= calcular_media_harmonica_ponderada eps pesos <= hi.
Proof.
  intros Hlo Hs (abrev & peso & materia & Hin & Hk & Hg & Hp).
  assert (Hpos : forall abrev peso materia,
            In (abrev, peso) pesos -> abrev <> "total" ->
            get mapeamento_abrev abrev = Some materia ->
            0 < get_default eps materia 500).
  { intros a p m Ha Hka Hga. destruct (Hs a p m Ha Hka Hga) as [_ [Hl _]].
    exact (Qlt_le_trans _ _ _ Hlo Hl). }
  rewrite (media_ponderada_como_ac_aux eps pesos Hpos).
  apply calcular_ac_limites_aux.
  - intros m p Hm _. apply In_renomear in Hm as (a & Ha & Hka & Hga).
    now destruct (Hs a p m Ha Hka Hga).
  - intros m p Hm _ _. apply In_renomear in Hm as (a & Ha & Hka & Hga).
    now destruct (Hs a p m Ha Hka Hga).
  - exists materia, peso. split; [|split; [|split]].
    + apply In_renomear. now exists abrev.
    + now apply materia_nao_total in Hg.
    + exact Hp.
    + now apply (Hpos abrev peso materia).
Qed.

Lemma media_ponderada_entre_limites_witness :
  500 <= calcular_media_harmonica_ponderada
           [("matematica", 600); ("portugues_redacao", 500)]
           [("MAT", 2); ("POR", 1); ("total", 3)] <= 600.
Proof.
  apply media_ponderada_entre_limites.
  - reflexivity.
  - intros abrev peso materia
      [[= <- <-]|[[= <- <-]|[[= <- <-]|[]]]] _ [= <-];
      repeat split; discriminate.
  - exists "MAT", 2, "matematica". repeat split; [now left | discriminate].
Defined.

End DuasAgregacoes.

(** ** The order of the weight table *)

Section OrdemDosPesos.

Import MediaHarmonicaCursos.

Open Scope Q_scope.

Variable eps : dict Q.

Lemma somas_iguais_trans (r1 r2 r3 : option (Q * Q)) :
  somas_iguais r1 r2 -> somas_iguais r2 r3 -> somas_iguais r1 r3.
Proof.
  destruct r1 as [[a1 b1]|], r2 as [[a2 b2]|], r3 as [[a3 b3]|];
    cbn; try tauto.
  intros [H1 H2] [H3 H4]. split; etransitivity; eauto.
Qed.

Lemma somar_Qeq (itens : list (string * Q)) :
  forall sp si sp' si',
    sp == sp' -> si == si' ->
    somas_iguais (somar eps itens sp si) (somar eps itens sp' si').
Proof.
  induction itens as [|[k p] resto IH]; intros sp si sp' si' Hp Hi;
    cbn [somar]; [now split|].
  destruct (String.eqb k "total"); [now apply IH|].
  destruct (get mapeamento_abrev k) as [m|]; [|now apply IH].
  destruct (Qgtb (get_default eps m 500) 0); [|exact I].
  apply IH; [now rewrite Hp | now rewrite Hi].
Qed.

Lemma somar_Permutation (l l' : list (string * Q)) :
  Permutation l l' ->
  forall sp si sp' si',
    sp == sp' -> si == si' ->
    somas_iguais (somar eps l sp si) (somar eps l' sp' si').
Proof.
  induction 1 as [|[k p] l l' Hperm IH|[k1 p1] [k2 p2] l|l1 l2 l3 H12 IH12 H23 IH23];
    intros sp si sp' si' Hp Hi.
  - now split.
  - cbn [somar].
    destruct (String.eqb k "total"); [now apply IH|].
    destruct (get mapeamento_abrev k) as [m|]; [|now apply IH].
    destruct (Qgtb (get_default eps m 500) 0); [|exact I].
    apply IH; [now rewrite Hp | now rewrite Hi].
  - cbn [somar].
    destruct (String.eqb k1 "total"), (String.eqb k2 "total");
      try destruct (get mapeamento_abrev k1) as [m1|];
      try destruct (get mapeamento_abrev k2) as [m2|];
      try destruct (Qgtb (get_default eps m1 500) 0);
      try destruct (Qgtb (get_default eps m2 500) 0);
      try exact I;
      apply somar_Qeq; rewrite ?Hp, ?Hi; ring.
  - eapply somas_iguais_trans; [apply IH12; eassumption|].
    apply IH23; reflexivity.
Qed.

End OrdemDosPesos.

Section OrdemDosPesosProps.

Import MediaHarmonicaCursos.

Open Scope Q_scope.

(** X13.  The value of [calcular_media_harmonica_ponderada] does not depend on
    the order of the keys of the weight table. *)
Theorem media_ponderada_Permutation (eps pesos pesos' : dict Q) :
  Permutation pesos pesos' ->
  calcular_media_harmonica_ponderada eps pesos ==
  calcular_media_harmonica_ponderada eps pesos'.
Proof.
  intros Hperm. unfold calcular_media_harmonica_ponderada.
  pose proof (somar_Permutation eps pesos pesos' Hperm 0 0 0 0
                (Qeq_refl 0) (Qeq_refl 0)) as H.
  destruct (somar eps pesos 0 0) as [[a b]|],
           (somar eps pesos' 0 0) as [[a' b']|];
    cbn in H; try contradiction; [|reflexivity].
  destruct H as [Ha Hb].
  assert (Hg : Qgtb b 0 = Qgtb b' 0).
  { unfold Qgtb. now rewrite Hb. }
  rewrite Hg. destruct (Qgtb b' 0) eqn:E; [|reflexivity].
  apply Qgtb_true in E. rewrite Ha, Hb. reflexivity.
Qed.

Lemma media_ponderada_Permutation_witness :
  let eps := [("matematica", 600); ("fisica", 450)] in
  calcular_media_harmonica_ponderada eps
    [("MAT", 2); ("total", 3); ("FIS", 1)] ==
  calcular_media_harmonica_ponderada eps
    [("FIS", 1); ("MAT", 2); ("total", 3)].
Proof.
  intros eps. apply media_ponderada_Permutation.
  apply Permutation_sym, (Permutation_cons_app [_; _] []).
  reflexivity.
Defined.

End OrdemDosPesosProps.

(** ** Better scores *)

Section EscoresMelhores.

Import MediaHarmonicaCursos.

Open Scope Q_scope.

Variables eps eps' : dict Q.



End EscoresMelhores.

Section EscoresMelhoresProps.

Import MediaHarmonicaCursos.

Open Scope Q_scope.



End EscoresMelhoresProps.

(** ** Counting hits *)

Section ContagemProps.

Lemma in_list_In (q : Z) (l : list Z) : in_list q l = true <-> In q l.
Proof.
  unfold in_list. rewrite existsb_exists. split.
  - intros (x & Hx & E). apply Z.eqb_eq in E. now subst.
  - intros H. exists q. split; [exact H | apply Z.eqb_refl].
Qed.

(** A loop that adds 1 to the tally for the questions that pass a test
    counts the questions that pass it. *)
Lemma fold_left_conta (f : Z -> bool) (l : list Z) :
  forall a,
    fold_left (fun acertos q => if f q then (acertos + 1)%Z else acertos) l a
    = (a + Z.of_nat (List.length (filter f l)))%Z.
Proof.
  induction l as [|q l IH]; intros a; cbn [fold_left filter].
  - cbn. lia.
  - rewrite IH. destruct (f q); cbn [List.length]; lia.
Qed.

Lemma contar_questoes_filter (iguais_p1 iguais_p2 questoes : list Z) :
  MediaHarmonicaCursos.contar_questoes iguais_p1 iguais_p2 questoes =
  Z.of_nat (List.length (filter (acertou iguais_p1 iguais_p2) questoes)).
Proof.
  unfold MediaHarmonicaCursos.contar_questoes.
  rewrite <- (Z.add_0_l (Z.of_nat _)).
  rewrite <- (fold_left_conta (acertou iguais_p1 iguais_p2) questoes 0).
  apply fold_left_ext_in. intros a q _. unfold acertou.
  destruct (q <=? 60)%Z; reflexivity.
Qed.

Lemma filter_length_todos {A : Type} (f : A -> bool) (l : list A) :
  List.length (filter f l) = List.length l <->
  forall x, In x l -> f x = true.
Proof.
  induction l as [|a l IH]; cbn [filter List.length].
  - split; [intros _ ? [] | reflexivity].
  - pose proof (filter_length_le f l) as Hle.
    destruct (f a) eqn:E; cbn [List.length].
    + split.
      * intros H x [<-|Hx]; [exact E|]. apply IH; [lia | exact Hx].
      * intros H. f_equal. apply IH. intros x Hx. apply H. now right.
    + split; [lia|]. intros H. rewrite (H a (or_introl eq_refl)) in E.
      discriminate.
Qed.

(** X15.  The count of a subject in [calcular_media_harmonica_cursos.py] is
    between 0 and the number of its questions; it is the number of its
    questions exactly when every question is among the matches of its
    day. *)
Theorem contagem_limites (results_llm : ResultsLLM) (questoes : list Z) :
  let iguais_p1 := iguais_de (PRIMEIRA_PROVA results_llm) in
  let iguais_p2 := iguais_de (SEGUNDA_PROVA results_llm) in
  let n :=
    MediaHarmonicaCursos.contar_questoes iguais_p1 iguais_p2 questoes in
  (0 <= n <= Z.of_nat (List.length questoes))%Z /\
  (n = Z.of_nat (List.length questoes) <->
   forall q, In q questoes ->
     if (q <=? 60)%Z then In q iguais_p1 else In q iguais_p2).
Proof.
  cbv zeta. rewrite contar_questoes_filter.
  pose proof (filter_length_le
                (acertou (iguais_de (PRIMEIRA_PROVA results_llm))
                         (iguais_de (SEGUNDA_PROVA results_llm)))
                questoes) as Hle.
  split; [lia|].
  rewrite Nat2Z.inj_iff, filter_length_todos. unfold acertou.
  split; intros H q Hq; specialize (H q Hq);
    destruct (q <=? 60)%Z; now apply in_list_In.
Qed.

Lemma contagem_limites_witness :
  MediaHarmonicaCursos.contar_questoes [59; 60]%Z [61]%Z [59; 60; 61]%Z
  = 3%Z.
Proof.
  apply (proj2 (contagem_limites
                  (mkResultsLLM (Some (mkProva (Some [59; 60]%Z)))
                                (Some (mkProva (Some [61]%Z))))
                  [59; 60; 61]%Z)).
  intros q [<-|[<-|[<-|[]]]]; cbn; tauto.
Defined.

(** X16.  The counts of [calcular_media_harmonica_cursos.py] depend on which
    numbers are among the matches of each day, not on their order nor on
    how often they are listed. *)
Theorem contagem_por_pertinencia (r r' : ResultsLLM)
  (mapeamento_questoes : dict (list Z)) :
  (forall q, In q (iguais_de (PRIMEIRA_PROVA r)) <->
             In q (iguais_de (PRIMEIRA_PROVA r'))) ->
  (forall q, In q (iguais_de (SEGUNDA_PROVA r)) <->
             In q (iguais_de (SEGUNDA_PROVA r'))) ->
  MediaHarmonicaCursos.contar_acertos_por_materia r mapeamento_questoes =
  MediaHarmonicaCursos.contar_acertos_por_materia r' mapeamento_questoes.
Proof.
  intros H1 H2. unfold MediaHarmonicaCursos.contar_acertos_por_materia.
  apply map_ext. intros [materia questoes]. f_equal.
  rewrite !contar_questoes_filter. do 2 f_equal.
  apply filter_ext. intros q. unfold acertou.
  destruct (q <=? 60)%Z; apply eq_true_iff_eq;
    rewrite !in_list_In; auto.
Qed.

Lemma contagem_por_pertinencia_witness :
  let r := mkResultsLLM (Some (mkProva (Some [3; 1; 3]%Z))) None in
  let r' := mkResultsLLM (Some (mkProva (Some [1; 3]%Z)))
                         (Some (mkProva None)) in
  MediaHarmonicaCursos.contar_acertos_por_materia r
    [("portugues", [1; 2; 3]%Z)] =
  MediaHarmonicaCursos.contar_acertos_por_materia r'
    [("portugues", [1; 2; 3]%Z)].
Proof.
  intros r r'. apply contagem_por_pertinencia.
  - intros q. simpl. tauto.
  - intros q. simpl. tauto.
Defined.

(** X17.  A match is counted on its own day only: the matches of day 1 above 60
    and the matches of day 2 up to 60 change no count of
    [calcular_media_harmonica_cursos.py]. *)
Theorem contagem_so_do_dia (results_llm : ResultsLLM)
  (mapeamento_questoes : dict (list Z)) :
  MediaHarmonicaCursos.contar_acertos_por_materia (so_do_dia results_llm)
    mapeamento_questoes =
  MediaHarmonicaCursos.contar_acertos_por_materia results_llm
    mapeamento_questoes.
Proof.
  unfold MediaHarmonicaCursos.contar_acertos_por_materia.
  apply map_ext. intros [materia questoes]. f_equal.
  rewrite !contar_questoes_filter. do 2 f_equal.
  apply filter_ext. intros q. unfold acertou, so_do_dia.
  cbn [PRIMEIRA_PROVA SEGUNDA_PROVA iguais_de iguais].
  destruct (q <=? 60)%Z eqn:E; apply eq_true_iff_eq;
    rewrite !in_list_In, filter_In; rewrite ?E; cbn; tauto.
Qed.

End ContagemProps.

(** ** The build of the subject map *)

Section MapeamentoProps.

(** For a structure whose entries are all filed under one of the nine
    keys, the build returns the nine keys with the ranges of each. *)
Lemma mapear_questoes_get (info : EstruturaProva) :
  (forall k item, In (k, item) (entradas info) -> In k materias) ->
  exists m,
    mapear_questoes_por_materia info = Ok m /\
    keys m = materias /\
    forall k, In k materias ->
      get m k = Some (questoes_de k (entradas info)).
Proof.
  intros Hk. unfold mapear_questoes_por_materia.
  destruct (mapear_dia_ok chave_dia1 (dia_1 info) mapeamento_inicial)
    as (m1 & Hm1 & Hk1 & Hg1).
  { intros item Hit. apply (Hk _ item). unfold entradas.
    apply in_or_app. left. apply in_map_iff. now exists item. }
  destruct (mapear_dia_ok chave_dia2 (dia_2 info) m1)
    as (m2 & Hm2 & Hk2 & Hg2).
  { intros item Hit. rewrite Hk1. apply (Hk _ item). unfold entradas.
    apply in_or_app. right. apply in_map_iff. now exists item. }
  rewrite Hm1. cbn [bind]. exists m2.
  split; [exact Hm2|]. split; [unfold materias; congruence|].
  intros k Hin. unfold entradas. rewrite questoes_de_app.
  now rewrite (Hg2 k _ (Hg1 k [] (get_mapeamento_inicial k Hin))).
Qed.

Lemma entradas_dec (info : EstruturaProva) :
  (forall k item, In (k, item) (entradas info) -> In k materias) \/
  (exists k item, In (k, item) (entradas info) /\ ~ In k materias).
Proof.
  induction (entradas info) as [|[k item] es IH].
  - left. intros ? ? [].
  - destruct (in_dec string_dec k materias) as [Hi|Hn].
    + destruct IH as [Hall|(k' & it & Hin & Hbad)].
      * left. intros k' it [[= <- <-]|Hin]; eauto.
      * right. exists k', it. split; [now right | exact Hbad].
    + right. exists k, item. split; [now left | exact Hn].
Qed.

(** X18.  [mapear_questoes_por_materia] returns exactly when every entry is filed
    under one of the nine subject keys, and the map it returns has those
    nine keys, in the order of the initial literal; otherwise it raises the
    [KeyError] of a key that is not one of the nine. *)
Theorem mapear_questoes_Ok_sse (info : EstruturaProva) :
  ((exists m, mapear_questoes_por_materia info = Ok m) <->
   (forall k item, In (k, item) (entradas info) -> In k materias)) /\
  (forall m, mapear_questoes_por_materia info = Ok m -> keys m = materias) /\
  (forall e, mapear_questoes_por_materia info = Raise e ->
             exists k, e = KeyError k /\ ~ In k materias).
Proof.
  destruct (entradas_dec info) as [Hall|Hbad].
  - destruct (mapear_questoes_get info Hall) as (m & Hm & Hk & _).
    rewrite Hm. split; [|split].
    + split; [intros _; exact Hall | intros _; now exists m].
    + now intros m' [= <-].
    + discriminate.
  - destruct (mapear_questoes_KeyError info Hbad) as (k & Hr & Hnk).
    rewrite Hr. split; [|split].
    + split; [intros [m Hm]; discriminate | intros Hall].
      destruct Hbad as (k' & it & Hin & Hn). elim Hn. eauto.
    + discriminate.
    + intros e [= <-]. now exists k.
Qed.

Lemma mapear_questoes_Ok_sse_witness :
  exists k, KeyError "redacao" = KeyError k /\ ~ In k materias.
Proof.
  apply (proj2 (proj2 (mapear_questoes_Ok_sse
                         (mkEstruturaProva
                            [mkDistribuicao "Redacao" 1 1] [])))).
  reflexivity.
Defined.

Lemma length_py_range (a b : Z) :
  Z.of_nat (List.length (py_range a b)) = Z.max 0 (b - a).
Proof.
  unfold py_range. rewrite length_map, length_seq. lia.
Qed.

Lemma length_questoes_de (k : string) (es : list (string * Distribuicao)) :
  Z.of_nat (List.length (questoes_de k es)) =
  fold_right Z.add 0%Z
    (map (fun e => tamanho (snd e))
         (filter (fun e => String.eqb (fst e) k) es)).
Proof.
  induction es as [|[k0 item] es IH]; [reflexivity|].
  rewrite questoes_de_cons. cbn [filter fst].
  destruct (String.eqb k0 k); [|exact IH].
  cbn [map fold_right snd]. rewrite length_app, Nat2Z.inj_add, IH.
  rewrite length_py_range. unfold tamanho. lia.
Qed.

Lemma get_calcular_total (m : dict (list Z)) (k : string) (l : list Z) :
  get m k = Some l ->
  get (AcUfrgs.calcular_total_questoes_por_materia m) k
  = Some (Z.of_nat (List.length l)).
Proof.
  unfold AcUfrgs.calcular_total_questoes_por_materia.
  induction m as [|[k0 l0] m IH]; cbn [get map]; [discriminate|].
  destruct (String.eqb k0 k); [now intros [= ->] | exact IH].
Qed.

(** X19.  On the map that [mapear_questoes_por_materia] returns,
    [calcular_total_questoes_por_materia] gives each of the nine subjects
    the sum of the sizes of the ranges of its entries, a range with
    start > end having size 0. *)
Theorem total_de_questoes (info : EstruturaProva) (m : dict (list Z))
  (k : string) :
  mapear_questoes_por_materia info = Ok m ->
  In k materias ->
  get (AcUfrgs.calcular_total_questoes_por_materia m) k =
  Some (fold_right Z.add 0%Z
          (map (fun e => tamanho (snd e))
               (filter (fun e => String.eqb (fst e) k) (entradas info)))).
Proof.
  intros Hm Hk.
  destruct (entradas_dec info) as [Hall|Hbad].
  - destruct (mapear_questoes_get info Hall) as (m' & Hm' & _ & Hget).
    assert (m' = m) by congruence. subst m'.
    rewrite <- length_questoes_de.
    apply get_calcular_total, Hget, Hk.
  - destruct (mapear_questoes_KeyError info Hbad) as (k' & Hr & _).
    congruence.
Qed.

Lemma total_de_questoes_witness :
  let info :=
    mkEstruturaProva
      [ mkDistribuicao "Matematica" 1 10; mkDistribuicao "Fisica" 11 20 ]
      [ mkDistribuicao "matematica" 61 75; mkDistribuicao "Fisica" 80 70 ] in
  exists m,
    mapear_questoes_por_materia info = Ok m /\
    get (AcUfrgs.calcular_total_questoes_por_materia m) "matematica"
    = Some 25%Z /\
    get (AcUfrgs.calcular_total_questoes_por_materia m) "fisica"
    = Some 10%Z.
Proof.
  intros info.
  destruct (mapear_questoes_por_materia info) as [m|e] eqn:E;
    [|vm_compute in E; discriminate].
  exists m. split; [reflexivity|]. split.
  - rewrite (total_de_questoes info m "matematica" E);
      [reflexivity | vm_compute; tauto].
  - rewrite (total_de_questoes info m "fisica" E);
      [reflexivity | vm_compute; tauto].
Defined.

Lemma tem_espaco_lower (s : string) : tem_espaco (lower s) = tem_espaco s.
Proof.
  induction s as [|c s IH]; [reflexivity|]. cbn [lower tem_espaco].
  rewrite IH. f_equal.
  destruct c as [[] [] [] [] [] [] [] []]; reflexivity.
Qed.

(** X20.  The names of day 2 are lower-cased and nothing else: a day-2 entry
    whose name has a space is filed under no subject key, and the build
    raises [KeyError]. *)
Theorem dia_2_com_espaco (info : EstruturaProva) (item : Distribuicao) :
  In item (dia_2 info) ->
  tem_espaco (materia item) = true ->
  exists k, mapear_questoes_por_materia info = Raise (KeyError k).
Proof.
  intros Hin Hesp.
  destruct (mapear_questoes_KeyError info) as (k & Hr & _);
    [|now exists k].
  exists (chave_dia2 item), item. split.
  - unfold entradas. apply in_or_app. right. apply in_map_iff.
    now exists item.
  - assert (Hl : tem_espaco (lower (materia item)) = true)
      by now rewrite tem_espaco_lower.
    unfold chave_dia2.
    destruct (String.eqb_spec (lower (materia item)) "ingles") as [E|_];
      [rewrite E in Hl; discriminate|].
    destruct (String.eqb_spec (lower (materia item)) "espanhol") as [E|_];
      [rewrite E in Hl; discriminate|].
    cbn [orb]. unfold materias.
    cbn [keys mapeamento_inicial map fst]. intros H.
    repeat (destruct H as [E|H]; [rewrite <- E in Hl; discriminate|]).
    destruct H.
Qed.

Lemma dia_2_com_espaco_witness :
  exists k,
    mapear_questoes_por_materia
      (mkEstruturaProva [mkDistribuicao "Lingua Portuguesa" 1 15]
                        [mkDistribuicao "Lingua Estrangeira" 61 75])
    = Raise (KeyError k).
Proof.
  apply (dia_2_com_espaco _ (mkDistribuicao "Lingua Estrangeira" 61 75)).
  - now left.
  - reflexivity.
Defined.

End MapeamentoProps.

(** ** What the cutoff resolution returns *)

Section NotaCorteProps.

Import VerificarAprovacao.

Open Scope Q_scope.

Lemma buscar_forma (padrao : string) (itens : list (string * Q)) :
  buscar padrao itens = (None, None) \/
  exists k v, buscar padrao itens = (Some k, Some v) /\
              In (k, v) itens /\ str_in padrao k = true.
Proof.
  induction itens as [|[k0 v0] resto IH]; cbn [buscar]; [now left|].
  destruct (str_in padrao k0) eqn:E.
  - right. exists k0, v0. repeat split; [now left | exact E].
  - destruct IH as [IH|(k & v & Hb & Hin & Hs)]; [now left|].
    right. exists k, v. repeat split; [exact Hb | now right | exact Hs].
Qed.

(** X21.  [mapear_curso_nota_corte] never returns a pair with one component
    only.  A resolved pair is an entry of the cutoff table whose name is
    not empty and contains the alias of the short name. *)
Theorem resolvido_na_tabela (nome_curso_pesos : string)
  (notas_corte : dict Q) :
  (forall k v,
     mapear_curso_nota_corte nome_curso_pesos notas_corte
     = (Some k, Some v) ->
     In (k, v) notas_corte /\ k <> "" /\
     exists padrao,
       get mapeamento_especial nome_curso_pesos = Some (Some padrao) /\
       str_in padrao k = true) /\
  (forall k, mapear_curso_nota_corte nome_curso_pesos notas_corte
             <> (Some k, None)) /\
  (forall v, mapear_curso_nota_corte nome_curso_pesos notas_corte
             <> (None, Some v)).
Proof.
  unfold mapear_curso_nota_corte, get_default.
  destruct (get mapeamento_especial nome_curso_pesos) as [[padrao|]|] eqn:Hg;
    try (repeat split; intros; discriminate).
  destruct (buscar_forma padrao notas_corte) as [Hb|(k & v & Hb & Hin & Hs)];
    rewrite Hb.
  - repeat split; intros; discriminate.
  - split; [|split; intros; discriminate].
    intros k' v' [= <- <-]. split; [exact Hin|]. split.
    + intros ->. apply padrao_nao_vazio in Hg.
      destruct padrao; [contradiction | discriminate].
    + now exists padrao.
Qed.

Lemma resolvido_na_tabela_witness :
  let notas := [("Medicina", 780.5); ("Geologia (Integral)", 612)] in
  In ("Geologia (Integral)", 612) notas /\
  "Geologia (Integral)" <> "" /\
  exists padrao,
    get mapeamento_especial "Geologia" = Some (Some padrao) /\
    str_in padrao "Geologia (Integral)" = true.
Proof.
  intros notas.
  apply (proj1 (resolvido_na_tabela "Geologia" notas)). reflexivity.
Defined.

(** X22.  Entries added at the end of the cutoff table leave a resolved program
    as it is. *)
Theorem tabela_estendida (nome_curso_pesos : string)
  (notas_corte extra : dict Q) (k : string) (v : Q) :
  mapear_curso_nota_corte nome_curso_pesos notas_corte = (Some k, Some v) ->
  mapear_curso_nota_corte nome_curso_pesos (notas_corte ++ extra)
  = (Some k, Some v).
Proof.
  unfold mapear_curso_nota_corte, get_default.
  destruct (get mapeamento_especial nome_curso_pesos) as [[padrao|]|];
    try discriminate.
  induction notas_corte as [|[k0 v0] resto IH]; cbn [buscar app];
    [discriminate|].
  destruct (str_in padrao k0); [auto | exact IH].
Qed.

Lemma tabela_estendida_witness :
  mapear_curso_nota_corte "Geologia"
    ([("Geologia (Integral)", 612)] ++ [("Geologia (Noturno)", 590)])
  = (Some "Geologia (Integral)", Some 612).
Proof.
  apply tabela_estendida. reflexivity.
Defined.

End NotaCorteProps.

(** ** The three lists of [main] *)

Section TresListas.

Import VerificarAprovacao.

Open Scope Q_scope.

Variable notas_corte : dict Q.

(** The three ways one program is recorded. *)
Lemma classificar_casos (listas : Listas) (curso : string) (mh : Q) :
  (exists cc nc,
     entrada_aprovada notas_corte (curso, cc, mh, nc, mh - nc) /\
     classificar notas_corte listas curso mh =
     mkListas (aprovados listas ++ [(curso, cc, mh, nc, mh - nc)])
              (reprovados listas) (sem_nota_corte listas)) \/
  (exists cc nc,
     entrada_reprovada notas_corte (curso, cc, mh, nc, mh - nc) /\
     classificar notas_corte listas curso mh =
     mkListas (aprovados listas)
              (reprovados listas ++ [(curso, cc, mh, nc, mh - nc)])
              (sem_nota_corte listas)) \/
  (sem_corte notas_corte curso /\
   classificar notas_corte listas curso mh =
   mkListas (aprovados listas) (reprovados listas)
            (sem_nota_corte listas ++ [(curso, mh)])).
Proof.
  unfold entrada_aprovada, entrada_reprovada, sem_corte.
  destruct (mapear_curso_nota_corte_forma notas_corte curso)
    as [Hn|(cc & nc & Hm & _ & Hcc)].
  - right. right. split; [now left|]. now apply classificar_ausente.
  - destruct (Qeq_dec nc 0) as [Hz|Hnz].
    + right. right. split; [right; now exists cc, nc|].
      now apply (classificar_corte_nulo notas_corte listas curso mh cc nc).
    + pose proof (classificar_corte_nao_nulo notas_corte listas curso mh
                    cc nc Hm Hcc Hnz) as Hc.
      destruct (Qle_bool nc mh) eqn:Hle.
      * left. exists cc, nc. apply Qle_bool_iff in Hle. auto.
      * right. left. exists cc, nc.
        assert (Hlt : mh < nc).
        { apply Qgtb_true. unfold Qgtb. now rewrite Hle. }
        auto.
Qed.

Lemma tres_listas_gen (cursos : list (string * Q)) :
  forall listas,
    let r := fold_left
               (fun listas '(curso, mh) =>
                  classificar notas_corte listas curso mh)
               cursos listas in
    (forall c cc mh nc d,
       In (c, cc, mh, nc, d) (aprovados r) <->
       In (c, cc, mh, nc, d) (aprovados listas) \/
       (In (c, mh) cursos /\
        entrada_aprovada notas_corte (c, cc, mh, nc, d))) /\
    (forall c cc mh nc d,
       In (c, cc, mh, nc, d) (reprovados r) <->
       In (c, cc, mh, nc, d) (reprovados listas) \/
       (In (c, mh) cursos /\
        entrada_reprovada notas_corte (c, cc, mh, nc, d))) /\
    (forall c mh,
       In (c, mh) (sem_nota_corte r) <->
       In (c, mh) (sem_nota_corte listas) \/
       (In (c, mh) cursos /\ sem_corte notas_corte c)).
Proof.
  induction cursos as [|[c0 mh0] resto IH]; intros listas; cbn [fold_left].
  - cbv zeta. cbn [In]. repeat split; intros; tauto.
  - cbv zeta in IH |- *.
    destruct (IH (classificar notas_corte listas c0 mh0)) as (IA & IR & IS).
    clear IH.
    destruct (classificar_casos listas c0 mh0)
      as [(cc0 & nc0 & (Hm & Hnz & Hle & _) & Hc)
         |[(cc0 & nc0 & (Hm & Hnz & Hlt & _) & Hc)
          |[Hsem Hc]]];
      rewrite Hc in *; clear Hc;
      unfold entrada_aprovada, entrada_reprovada, sem_corte in *;
      cbn [aprovados reprovados sem_nota_corte] in IA, IR, IS;
      (split; [|split]); intros;
      rewrite ?IA, ?IR, ?IS, ?in_app_iff; cbn [In];
      (split; intros HH;
       repeat match goal with
         | H : _ \/ _ |- _ => destruct H
         | H : _ /\ _ |- _ => destruct H
         | H : ex _ |- _ => destruct H
         | H : False |- _ => destruct H
         | H : (_, _) = (_, _) |- _ => injection H as ?; subst
         | H : mapear_curso_nota_corte ?c _ = _,
           H' : mapear_curso_nota_corte ?c _ = _ |- _ =>
             rewrite H in H'; first [discriminate | injection H' as ?; subst]
         end;
       try contradiction;
       try (exfalso; eapply Qlt_irrefl; eapply Qlt_le_trans; eassumption);
       try solve [intuition eauto 6]).
Qed.

End TresListas.

Section TresListasProps.

Import VerificarAprovacao VerificarAprovacaoMain.

Open Scope Q_scope.

(** X23.  The lists that [main] fills hold the programs of the loop, each in the
    list of its case and in no other: [aprovados] the programs with a
    resolved cutoff other than 0 that the score reaches, [reprovados] those
    with a resolved cutoff other than 0 above the score, each with the
    resolved name, the cutoff and the margin score - cutoff, and
    [sem_nota_corte] the programs without a resolved cutoff or with the
    cutoff 0. *)
Theorem tres_listas (notas_corte : dict Q) (cursos : list (string * Q)) :
  let r := classificar_cursos notas_corte cursos in
  (forall c cc mh nc d,
     In (c, cc, mh, nc, d) (aprovados r) <->
     In (c, mh) cursos /\ entrada_aprovada notas_corte (c, cc, mh, nc, d)) /\
  (forall c cc mh nc d,
     In (c, cc, mh, nc, d) (reprovados r) <->
     In (c, mh) cursos /\ entrada_reprovada notas_corte (c, cc, mh, nc, d)) /\
  (forall c mh,
     In (c, mh) (sem_nota_corte r) <->
     In (c, mh) cursos /\ sem_corte notas_corte c).
Proof.
  cbv zeta. unfold classificar_cursos.
  destruct (tres_listas_gen notas_corte cursos (mkListas [] [] []))
    as (IA & IR & IS).
  cbv zeta in IA, IR, IS. cbn [aprovados reprovados sem_nota_corte In] in *.
  split; [|split]; intros.
  - rewrite IA. tauto.
  - rewrite IR. tauto.
  - rewrite IS. tauto.
Qed.

(** X24.  The margin recorded with an approved program is not negative, and the
    margin recorded with a rejected program is negative, so that its
    absolute value, by which [main] sorts, is cutoff - score. *)
Theorem margens (notas_corte : dict Q) (cursos : list (string * Q))
  (c cc : string) (mh nc d : Q) :
  let r := classificar_cursos notas_corte cursos in
  (In (c, cc, mh, nc, d) (aprovados r) -> 0 <= d) /\
  (In (c, cc, mh, nc, d) (reprovados r) ->
   d < 0 /\ Qabs d == nc - mh).
Proof.
  cbv zeta. unfold classificar_cursos.
  destruct (tres_listas_gen notas_corte cursos (mkListas [] [] []))
    as (IA & IR & _).
  cbv zeta in IA, IR. cbn [aprovados reprovados In] in *.
  unfold entrada_aprovada, entrada_reprovada in *.
  split; intros H.
  - apply IA in H as [[]|(_ & _ & _ & Hle & ->)]. lra.
  - apply IR in H as [[]|(_ & _ & _ & Hlt & ->)].
    split; [lra|]. rewrite Qabs_neg; [ring | lra].
Qed.

Lemma margens_witness :
  let r := classificar_cursos
             [("Geologia (Integral)", 612); ("Medicina", 780.5)]
             [("Geologia", 650); ("Biomedicina", 700)] in
  0 <= 650 - 612.
Proof.
  intros r.
  apply (proj1 (margens [("Geologia (Integral)", 612); ("Medicina", 780.5)]
                  [("Geologia", 650); ("Biomedicina", 700)]
                  "Geologia" "Geologia (Integral)" 650 612 (650 - 612))).
  now left.
Defined.

Lemma filter_length_Permutation {A : Type} (f : A -> bool) (l l' : list A) :
  Permutation l l' ->
  List.length (filter f l) = List.length (filter f l').
Proof.
  induction 1 as [|x l l' _ IH|x y l|l1 l2 l3 _ IH12 _ IH23];
    cbn [filter].
  - reflexivity.
  - destruct (f x); cbn [List.length]; now rewrite IH.
  - destruct (f x), (f y); reflexivity.
  - now rewrite IH12.
Qed.

(** The closing loop counts the programs that pass the two tests. *)
Lemma contar_aprovacoes_filter (notas_corte : dict Q)
  (cursos : list (string * Q)) :
  contar_aprovacoes notas_corte cursos =
  (Z.of_nat (List.length (filter (aprovado_b notas_corte) cursos)),
   Z.of_nat (List.length (filter (com_nota_b notas_corte) cursos))).
Proof.
  unfold contar_aprovacoes.
  assert (H : forall a t,
            fold_left
              (fun '(aprovados_count, total_count) '(curso, mh) =>
                 let '(curso_completo, nota_corte) :=
                   mapear_curso_nota_corte curso notas_corte in
                 if truthy_str curso_completo && truthy_num nota_corte
                 then
                   match nota_corte with
                   | Some nota =>
                       if Qle_bool nota mh
                       then (aprovados_count + 1, total_count + 1)%Z
                       else (aprovados_count, total_count + 1)%Z
                   | None => (aprovados_count, total_count)
                   end
                 else (aprovados_count, total_count))
              cursos (a, t) =
            ((a + Z.of_nat (List.length
                              (filter (aprovado_b notas_corte) cursos)))%Z,
             (t + Z.of_nat (List.length
                              (filter (com_nota_b notas_corte) cursos)))%Z)).
  { induction cursos as [|[c mh] resto IH]; intros a t; cbn [fold_left filter].
    - cbn. f_equal; lia.
    - set (FA := filter (aprovado_b notas_corte) resto) in *.
      set (FC := filter (com_nota_b notas_corte) resto) in *.
      unfold aprovado_b, com_nota_b. cbn [fst snd].
      destruct (mapear_curso_nota_corte c notas_corte) as [cc nc].
      cbn [snd].
      destruct (truthy_str cc && truthy_num nc) eqn:E; cbn [andb].
      + destruct nc as [n|].
        * destruct (Qle_bool n mh); rewrite IH; cbn [List.length];
            f_equal; lia.
        * unfold truthy_num in E. rewrite andb_false_r in E. discriminate.
      + now rewrite IH. }
  rewrite H. f_equal.
Qed.

(** The lists of the first loop have the sizes that the tests give. *)
Lemma listas_filter (notas_corte : dict Q) (cursos : list (string * Q)) :
  let r := classificar_cursos notas_corte cursos in
  List.length (aprovados r)
  = List.length (filter (aprovado_b notas_corte) cursos) /\
  (List.length (aprovados r) + List.length (reprovados r))%nat
  = List.length (filter (com_nota_b notas_corte) cursos).
Proof.
  cbv zeta. unfold classificar_cursos.
  assert (H : forall l,
            let r := fold_left
                       (fun listas '(curso, mh) =>
                          classificar notas_corte listas curso mh)
                       cursos l in
            List.length (aprovados r)
            = (List.length (aprovados l)
               + List.length (filter (aprovado_b notas_corte) cursos))%nat /\
            (List.length (aprovados r) + List.length (reprovados r))%nat
            = (List.length (aprovados l) + List.length (reprovados l)
               + List.length (filter (com_nota_b notas_corte) cursos))%nat).
  { induction cursos as [|[c mh] resto IH]; intros l;
      cbn [fold_left filter].
    - cbn. lia.
    - cbv zeta in IH |- *.
      destruct (IH (classificar notas_corte l c mh)) as [IA IT].
      clear IH.
      set (FA := filter (aprovado_b notas_corte) resto) in *.
      set (FC := filter (com_nota_b notas_corte) resto) in *.
      split; [rewrite IA | rewrite IT]; clear IA IT;
        unfold classificar, aprovado_b, com_nota_b; cbn [fst snd];
        destruct (mapear_curso_nota_corte c notas_corte) as [[cc|] [nc|]];
        cbn [snd truthy_str truthy_num andb];
        rewrite ?andb_false_r;
        try destruct (negb (String.eqb cc "") && negb (Qeq_bool nc 0));
        cbn [andb];
        try destruct (Qle_bool nc mh);
        cbn [aprovados reprovados List.length];
        rewrite ?length_app; cbn [List.length]; lia. }
  destruct (H (mkListas [] [] [])) as [HA HT]. cbv zeta in HA, HT.
  cbn [aprovados reprovados List.length] in HA, HT. split; lia.
Qed.

(** X25.  The closing summary agrees with the lists: whatever the order in which
    the two loops visit the programs, the summary counts the entries of
    [aprovados] and the entries of [aprovados] and [reprovados] together,
    and prints the rate that is printed under the lists. *)
Theorem resumo_concorda (notas_corte : dict Q)
  (cursos cursos' : list (string * Q)) :
  Permutation cursos cursos' ->
  let r := classificar_cursos notas_corte cursos in
  contar_aprovacoes notas_corte cursos' =
  (Z.of_nat (List.length (aprovados r)),
   (Z.of_nat (List.length (aprovados r))
    + Z.of_nat (List.length (reprovados r)))%Z) /\
  taxa_resumo notas_corte cursos' = taxa_aprovacao r.
Proof.
  intros Hperm r.
  assert (Hc : contar_aprovacoes notas_corte cursos' =
               (Z.of_nat (List.length (aprovados r)),
                (Z.of_nat (List.length (aprovados r))
                 + Z.of_nat (List.length (reprovados r)))%Z)).
  { rewrite contar_aprovacoes_filter.
    destruct (listas_filter notas_corte cursos) as [HA HT].
    fold r in HA, HT.
    rewrite <- (filter_length_Permutation _ _ _ Hperm),
            <- (filter_length_Permutation _ _ _ Hperm).
    rewrite <- HA, <- HT. f_equal. lia. }
  split; [exact Hc|].
  unfold taxa_resumo, taxa_aprovacao. now rewrite Hc.
Qed.

Lemma resumo_concorda_witness :
  let notas := [("Geologia (Integral)", 612); ("Biomedicina", 730)] in
  let r := classificar_cursos notas
             [("Biomedicina", 700); ("Geologia", 650); ("Teatro", 655)] in
  contar_aprovacoes notas
    [("Teatro", 655); ("Geologia", 650); ("Biomedicina", 700)] =
  (Z.of_nat (List.length (aprovados r)),
   (Z.of_nat (List.length (aprovados r))
    + Z.of_nat (List.length (reprovados r)))%Z) /\
  taxa_resumo notas
    [("Teatro", 655); ("Geologia", 650); ("Biomedicina", 700)] =
  taxa_aprovacao r.
Proof.
  intros notas r. apply resumo_concorda.
  apply Permutation_rev with (l := [_; _; _]).
Defined.

(** X26.  The approval rate is computed exactly when one of the two lists is not
    empty, and is then between 0 and 100. *)
Theorem taxa_aprovacao_limites (listas : Listas) :
  (taxa_aprovacao listas = None <->
   aprovados listas = [] /\ reprovados listas = []) /\
  (forall taxa, taxa_aprovacao listas = Some taxa -> 0 <= taxa <= 100).
Proof.
  unfold taxa_aprovacao.
  remember (List.length (aprovados listas)) as a eqn:Hab.
  remember (List.length (reprovados listas)) as b eqn:Hbb.
  destruct (Z.gtb_spec (Z.of_nat a + Z.of_nat b) 0) as [Hpos|Hz].
  - split.
    + split; [discriminate|]. intros [Ha Hb].
      rewrite Ha in Hab. rewrite Hb in Hbb. cbn in Hab, Hbb. lia.
    + intros taxa [= <-].
      assert (HT : 0 < inject_Z (Z.of_nat a + Z.of_nat b)).
      { change 0 with (inject_Z 0). rewrite <- Zlt_Qlt. lia. }
      assert (HA0 : 0 <= inject_Z (Z.of_nat a)).
      { change 0 with (inject_Z 0). rewrite <- Zle_Qle. lia. }
      assert (HAT : inject_Z (Z.of_nat a)
                    <= inject_Z (Z.of_nat a + Z.of_nat b)).
      { rewrite <- Zle_Qle. lia. }
      set (A := inject_Z (Z.of_nat a)) in *.
      set (T := inject_Z (Z.of_nat a + Z.of_nat b)) in *.
      assert (Hq0 : 0 <= A / T)
        by (apply Qle_shift_div_l; [exact HT | lra]).
      assert (Hq1 : A / T <= 1)
        by (apply Qle_shift_div_r; [exact HT | lra]).
      lra.
  - split; [|discriminate].
    split; [intros _|reflexivity].
    destruct (aprovados listas), (reprovados listas); cbn in Hab, Hbb;
      try (split; reflexivity); lia.
Qed.

Lemma taxa_aprovacao_limites_witness :
  0 <= 3 / 10 * 100 <= 100.
Proof.
  apply (proj2 (taxa_aprovacao_limites
                  (mkListas
                     (repeat ("a", "A", 1, 1, 0) 3)
                     (repeat ("b", "B", 1, 2, -(1)) 7)
                     (repeat ("c", 1) 5)))).
  reflexivity.
Defined.

End TresListasProps.

(** ** [calcular_media_harmonica.py] *)

Section MediaHarmonicaProps.

Import MediaHarmonica.

Open Scope Q_scope.

Lemma Qeq_bool_false (x y : Q) : Qeq_bool x y = false <-> ~ x == y.
Proof.
  rewrite <- Qeq_bool_true. destruct (Qeq_bool x y); split;
    congruence.
Qed.

(** The sum of the inverses of two numbers other than 0 is 0 exactly when
    the numbers add up to 0. *)
Lemma soma_inversos_zero (n1 n2 : Q) :
  ~ n1 == 0 -> ~ n2 == 0 ->
  (1 / n1 + 1 / n2 == 0 <-> n1 + n2 == 0).
Proof.
  intros H1 H2.
  assert (E : 1 / n1 + 1 / n2 == (n1 + n2) / (n1 * n2)) by (field; auto).
  assert (Hp : ~ n1 * n2 == 0).
  { intros H. apply Qmult_integral in H. tauto. }
  rewrite E. split; intros H.
  - assert (E2 : n1 + n2 == (n1 + n2) / (n1 * n2) * (n1 * n2))
      by (field; auto).
    rewrite E2, H. ring.
  - rewrite H. field. auto.
Qed.

(** For two positive grades the harmonic mean is returned, and it is
    2 * P1 * P2 / (P1 + P2). *)
Lemma media_harmonica_positivos (n1 n2 : Q) :
  0 < n1 -> 0 < n2 ->
  exists x, calcular_media_harmonica n1 n2 = Retorna x /\
            x * (n1 + n2) == 2 * n1 * n2.
Proof.
  intros H1 H2. unfold calcular_media_harmonica.
  assert (N1 : ~ n1 == 0) by lra.
  assert (N2 : ~ n2 == 0) by lra.
  apply Qeq_bool_false in N1 as B1. apply Qeq_bool_false in N2 as B2.
  rewrite B1, B2. cbn [orb]. cbv zeta.
  assert (Ns : ~ 1 / n1 + 1 / n2 == 0).
  { rewrite (soma_inversos_zero n1 n2 N1 N2). lra. }
  apply Qeq_bool_false in Ns as Bs. rewrite Bs.
  eexists. split; [reflexivity|]. field. repeat split; auto.
  intros H. apply Ns. rewrite (soma_inversos_zero n1 n2 N1 N2). lra.
Qed.

(** When one grade is 0 the result is 0.0; no division takes place. *)
Lemma media_harmonica_casos (nota1 nota2 : Q) :
  (calcular_media_harmonica nota1 nota2 = ZeroDivisionError <->
   ~ nota1 == 0 /\ nota1 + nota2 == 0) /\
  (nota1 == 0 \/ nota2 == 0 ->
   calcular_media_harmonica nota1 nota2 = Retorna 0.0).
Proof.
  unfold calcular_media_harmonica.
  destruct (Qeq_bool nota1 0) eqn:B1; cbn [orb].
  - apply Qeq_bool_true in B1. split; [|reflexivity].
    split; [discriminate | tauto].
  - apply Qeq_bool_false in B1.
    destruct (Qeq_bool nota2 0) eqn:B2.
    + apply Qeq_bool_true in B2. split; [|reflexivity].
      split; [discriminate|]. intros [_ H]. elim B1. lra.
    + apply Qeq_bool_false in B2. cbv zeta.
      destruct (Qeq_bool (1 / nota1 + 1 / nota2) 0) eqn:Bs.
      * apply Qeq_bool_true in Bs.
        apply (soma_inversos_zero nota1 nota2 B1 B2) in Bs.
        split; [tauto | intros [H|H]; contradiction].
      * apply Qeq_bool_false in Bs.
        rewrite (soma_inversos_zero nota1 nota2 B1 B2) in Bs.
        split; [|intros [H|H]; contradiction].
        split; [discriminate | tauto].
Qed.

(** X27.  [calcular_media_harmonica] raises [ZeroDivisionError] exactly when the
    two grades are opposite numbers other than 0; when one grade is 0 it
    returns 0.0. *)
Theorem media_harmonica_ZeroDivisionError (nota1 nota2 : Q) :
  (calcular_media_harmonica nota1 nota2 = ZeroDivisionError <->
   ~ nota1 == 0 /\ nota1 + nota2 == 0) /\
  (nota1 == 0 \/ nota2 == 0 ->
   calcular_media_harmonica nota1 nota2 = Retorna 0.0).
Proof.
  unfold calcular_media_harmonica.
  destruct (Qeq_bool nota1 0) eqn:B1; cbn [orb].
  - apply Qeq_bool_true in B1. split; [|reflexivity].
    split; [discriminate | tauto].
  - apply Qeq_bool_false in B1.
    destruct (Qeq_bool nota2 0) eqn:B2.
    + apply Qeq_bool_true in B2. split; [|reflexivity].
      split; [discriminate|]. intros [_ H]. elim B1. lra.
    + apply Qeq_bool_false in B2. cbv zeta.
      destruct (Qeq_bool (1 / nota1 + 1 / nota2) 0) eqn:Bs.
      * apply Qeq_bool_true in Bs.
        apply (soma_inversos_zero nota1 nota2 B1 B2) in Bs.
        split; [tauto | intros [H|H]; contradiction].
      * apply Qeq_bool_false in Bs.
        rewrite (soma_inversos_zero nota1 nota2 B1 B2) in Bs.
        split; [|intros [H|H]; contradiction].
        split; [discriminate | tauto].
Qed.

Lemma media_harmonica_ZeroDivisionError_witness :
  calcular_media_harmonica 50 (-50) = ZeroDivisionError /\
  calcular_media_harmonica 0 80 = Retorna 0.0.
Proof.
  split.
  - apply (proj1 (media_harmonica_ZeroDivisionError 50 (-50))).
    split; [discriminate | reflexivity].
  - apply (proj2 (media_harmonica_ZeroDivisionError 0 80)).
    left. reflexivity.
Defined.

(** X28.  For two positive grades [calcular_media_harmonica] returns a
    value, which in exact rational arithmetic is 2 * P1 * P2 / (P1 + P2),
    lies between the two grades and is at most their arithmetic mean.
    (The binary64 value can miss these by its rounding, see
    [media_harmonica_binary64].) *)
Theorem media_harmonica_entre_notas (nota1 nota2 : Q) :
  0 < nota1 -> 0 < nota2 ->
  exists x,
    calcular_media_harmonica nota1 nota2 = Retorna x /\
    x == 2 * nota1 * nota2 / (nota1 + nota2) /\
    x <= (nota1 + nota2) / 2 /\
    (nota1 <= nota2 -> nota1 <= x <= nota2) /\
    (nota2 <= nota1 -> nota2 <= x <= nota1).
Proof.
  intros H1 H2.
  destruct (media_harmonica_positivos nota1 nota2 H1 H2) as (x & Hx & E).
  exists x. split; [exact Hx|].
  assert (Hs : 0 < nota1 + nota2) by lra.
  assert (Ex : x == 2 * nota1 * nota2 / (nota1 + nota2)).
  { rewrite <- E. field. lra. }
  split; [exact Ex|].
  assert (Hm : (nota1 + nota2) / 2 == (nota1 + nota2) * (1 # 2)) by field.
  assert (Hsq : 0 <= (nota1 - nota2) * (nota1 - nota2))
    by (destruct (Qlt_le_dec nota1 nota2); nra).
  split; [|split; intros Hle; split];
    apply (Qmult_le_r _ _ (nota1 + nota2) Hs);
    rewrite ?Hm, ?E; nra.
Qed.

Lemma media_harmonica_entre_notas_witness :
  exists x,
    calcular_media_harmonica 40 60 = Retorna x /\
    x == 2 * 40 * 60 / (40 + 60) /\
    x <= (40 + 60) / 2 /\
    (40 <= 60 -> 40 <= x <= 60) /\
    (60 <= 40 -> 60 <= x <= 40).
Proof.
  apply media_harmonica_entre_notas; reflexivity.
Defined.

(** The grade of one day is a percentage. *)
Lemma nota_prova_limites {V : Type} (dados_prova : DadosProva V) :
  0 <= nota_prova dados_prova <= 100.
Proof.
  unfold nota_prova, calcular_total_questoes, calcular_acertos.
  set (a := List.length
              (match iguais dados_prova with Some l => l | None => [] end)).
  set (e := List.length
              (match diferentes dados_prova with
               | Some d => d | None => [] end)).
  cbv zeta.
  destruct (Z.gtb_spec (Z.of_nat a + Z.of_nat e) 0) as [Hpos|_];
    [|split; discriminate].
  assert (HT : 0 < inject_Z (Z.of_nat a + Z.of_nat e)).
  { change 0 with (inject_Z 0). rewrite <- Zlt_Qlt. lia. }
  assert (HA0 : 0 <= inject_Z (Z.of_nat a)).
  { change 0 with (inject_Z 0). rewrite <- Zle_Qle. lia. }
  assert (HAT : inject_Z (Z.of_nat a)
                <= inject_Z (Z.of_nat a + Z.of_nat e)).
  { rewrite <- Zle_Qle. lia. }
  set (A := inject_Z (Z.of_nat a)) in *.
  set (T := inject_Z (Z.of_nat a + Z.of_nat e)) in *.
  assert (Hq0 : 0 <= A / T) by (apply Qle_shift_div_l; [exact HT | lra]).
  assert (Hq1 : A / T <= 1) by (apply Qle_shift_div_r; [exact HT | lra]).
  lra.
Qed.

(** X29.  On the grades that [main] computes, [calcular_media_harmonica] never
    divides by zero: the harmonic mean of a candidate is returned and is
    between 0 and 100. *)
Theorem media_harmonica_llm_limites {V : Type}
  (primeira_prova segunda_prova : option (DadosProva V)) :
  exists x,
    media_harmonica_llm primeira_prova segunda_prova = Retorna x /\
    0 <= x <= 100.
Proof.
  unfold media_harmonica_llm. cbv zeta.
  set (p1 := match primeira_prova with
             | Some d => d | None => mkDadosProva None None end).
  set (p2 := match segunda_prova with
             | Some d => d | None => mkDadosProva None None end).
  pose proof (nota_prova_limites p1) as [L1 U1].
  pose proof (nota_prova_limites p2) as [L2 U2].
  set (n1 := nota_prova p1) in *. set (n2 := nota_prova p2) in *.
  destruct (Qeq_dec n1 0) as [Z1|N1].
  - exists 0.0. split; [|split; discriminate].
    apply (proj2 (media_harmonica_casos n1 n2)). now left.
  - destruct (Qeq_dec n2 0) as [Z2|N2].
    + exists 0.0. split; [|split; discriminate].
      apply (proj2 (media_harmonica_casos n1 n2)). now right.
    + assert (P1 : 0 < n1) by lra. assert (P2 : 0 < n2) by lra.
      destruct (media_harmonica_positivos n1 n2 P1 P2) as (x & Hx & E).
      exists x. split; [exact Hx|]. split; nra.
Qed.

End MediaHarmonicaProps.

(** ** The same quotients in binary64 *)

Section Binary64Replay.

Open Scope float_scope.

(** One key of weight 1 and score 372: the loop of
    [calcular_ac_para_curso] returns a value below 372; weights 4 and 5 on
    missing scores give a value below 500. *)
Example ac_binary64 :
  Binary64.calcular_ac [("matematica", 372)] [("matematica", 1)]
  = 371.99999999999994 /\
  Binary64.calcular_ac [] [("MAT", 4); ("FIS", 5)] = 499.99999999999994.
Proof. split; reflexivity. Qed.

(** The same key in [calcular_media_harmonica_ponderada]. *)
Example media_ponderada_binary64 :
  Binary64.calcular_media_harmonica_ponderada
    [("matematica", 372)] [("MAT", 1)]
  = 371.99999999999994.
Proof. reflexivity. Qed.

(** The harmonic mean of 40 and 60 is returned as a value below 48, and
    the harmonic mean of 49 and 49 as a value above 49. *)
Example media_harmonica_binary64 :
  Binary64.calcular_media_harmonica 40 60
  = Binary64.Retorna 47.999999999999993 /\
  Binary64.calcular_media_harmonica 49 49
  = Binary64.Retorna 49.000000000000007.
Proof. split; reflexivity. Qed.

(** The essay grade 0.89 has the score 244.49999999999997, and the grades
    0 and 10 have the scores 200 and 700. *)
Example ep_redacao_binary64 :
  Binary64.calcular_ep_redacao 0.89 = 244.49999999999997 /\
  Binary64.calcular_ep_redacao 0 = 200 /\
  Binary64.calcular_ep_redacao 10 = 700.
Proof. repeat split; reflexivity. Qed.

End Binary64Replay.
